(** * sass-bundler: the incremental rebuild engine of [Bundler]

    A shallow embedding of [src/index.ts] (class [Bundler] and its module-level
    helpers) and the properties of its common-import analysis and of the
    watcher handlers.

    Conventions of the embedding:
    - JavaScript arrays are lists; array methods ([includes], [filter], [find],
      [findIndex], [splice], [sort]) are the list functions below.
    - The disk is a finite map from path to file content; directories are
      implicit (a directory [d] holds the paths that start with [d ++ "/"]),
      and a file can be opened at any path. Whether the directory of an output
      file exists is the matter of [createWriteStreamIn] and of the methods
      run with it.
    - The sass compiler and Node's [path] module are external collaborators and
      enter as parameters ([Sass], [PathLib]).
    - Methods of [Bundler] are computations in a state-and-exception monad over
      the instance fields ([this]), the process-wide state ([proc]: disk,
      console, the module-level flag) and the promises started but not awaited
      ([detached]). *)

From Stdlib Require Import List Bool Arith Lia Permutation Ascii String.
From stdpp Require Import gmap strings fin_maps.
Import ListNotations.
Open Scope string_scope.

(** ** JavaScript built-ins used by the source *)

(** [s.startsWith(p)] *)
Definition startsWith (p s : string) : bool := String.prefix p s.

(** [s.replace(pat, rep)] with a string pattern: the first occurrence only. *)
Fixpoint replaceFirst (pat rep s : string) : string :=
  if String.prefix pat s then rep ++ String.substring (String.length pat) (String.length s - String.length pat) s
  else match s with
       | EmptyString => EmptyString
       | String c s' => String c (replaceFirst pat rep s')
       end.

(** [s.replace(/\.s[ca]ss$/, ".css")] *)
Fixpoint replaceSassExt (s : string) : string :=
  match s with
  | EmptyString => EmptyString
  | String c s' =>
      if (String.eqb s ".scss" || String.eqb s ".sass")%bool then ".css"
      else String c (replaceSassExt s')
  end.

(** [arr.includes(x)] on an array of strings *)
Definition includes (x : string) (arr : list string) : bool :=
  existsb (String.eqb x) arr.

(** [arr.indexOf(x)] followed by [arr.splice(i, 1)] when [i !== -1]:
    drops the first occurrence of [x]. *)
Fixpoint spliceFirst (x : string) (arr : list string) : list string :=
  match arr with
  | [] => []
  | y :: arr' => if String.eqb y x then arr' else y :: spliceFirst x arr'
  end.

(** [arr.filter((e) => e === v).length] *)
Definition countEq (v : string) (arr : list string) : nat :=
  length (List.filter (String.eqb v) arr).

(** ** Module-level helpers of [index.ts] *)

(** [removeA(arr, ...args)]: copies [arr], then for every argument removes its
    first occurrence, if any. *)
Definition removeA (arr args : list string) : list string :=
  fold_left (fun arrCopy arg => spliceFirst arg arrCopy) args arr.

(** [equalsIgnoreOrder(a, b)]: equal lengths, and every value of [a] and [b]
    occurs the same number of times in both. The [Set] built from
    [[...a, ...b]] is iterated in insertion order, duplicates dropped. *)
Fixpoint uniqueValues (l : list string) : list string :=
  match l with
  | [] => []
  | x :: l' => x :: List.filter (fun y => negb (String.eqb x y)) (uniqueValues l')
  end.

Definition equalsIgnoreOrder (a b : list string) : bool :=
  if negb (Nat.eqb (length a) (length b)) then false
  else forallb (fun v => Nat.eqb (countEq v a) (countEq v b)) (uniqueValues (a ++ b)%list).

(** ** Data model *)

(** [interface CompiledFile]. A [Readable] made from a string is kept as that
    string; a write stream is kept as the path it was opened on. *)
Record CompiledFile := mkCompiledFile {
  imports : list string;
  filePath : string;
  readStream : option string;
  writeStream : option string;
  error : bool
}.

(** [interface _Config] *)
Record Config := mkConfig {
  verbose : bool;
  sassDir : string;
  outDir : string;
  sharedPath : string
}.

(** ** Common-import analysis *)

(** [Array.prototype.sort] is stable; with the comparator
    [(a, b) => a.imports.length - b.imports.length] it is this insertion sort. *)
Fixpoint insertByImports (f : CompiledFile) (l : list CompiledFile) : list CompiledFile :=
  match l with
  | [] => [f]
  | g :: l' =>
      if Nat.leb (length (imports f)) (length (imports g)) then f :: g :: l'
      else g :: insertByImports f l'
  end.

Definition sortByImports (files : list CompiledFile) : list CompiledFile :=
  fold_right insertByImports [] files.

(** [isCommonImport(importFile, files)] *)
Definition isCommonImport (importFile : string) (files : list CompiledFile) : bool :=
  forallb (fun importsArr => includes importFile importsArr) (map imports files).

(** [identifyCommonImports(files)]. On an empty array [filesCopy[0]] is
    [undefined] and reading [.imports] raises a TypeError: [None]. *)
Definition identifyCommonImports (files : list CompiledFile) : option (list string) :=
  match sortByImports files with
  | [] => None
  | smallest :: _ =>
      Some (List.filter (fun i => isCommonImport i files) (imports smallest))
  end.

(** ** External collaborators *)

(** Outcome of [sass.renderSync]: it throws an error carrying a formatted
    message, or returns the CSS text. *)
Inductive SassResult :=
| SassError (formatted : string)
| SassOk (css : string).

(** The sass compiler, reading the disk.
    [renderWithImporter d file] is [sass.renderSync({ file, importer })] with
    the bundler's importer installed: the URLs of the import directives that
    were handed to the importer, in order, and the outcome.
    [render d file] is [sass.renderSync({ file })]. *)
Record Sass := mkSass {
  renderWithImporter : gmap string string -> string -> list string * SassResult;
  render : gmap string string -> string -> SassResult
}.

(** Node's [path] module. *)
Record PathLib := mkPathLib {
  path_resolve : string -> string;
  path_resolve_from : string -> string -> string;
  path_join : string -> string -> string;
  path_basename : string -> string
}.

(** ** State *)

Inductive ConsoleLine :=
| ConsoleLog (msg : string)
| ConsoleWarn (msg : string)
| ConsoleError (msg : string).

(** The fields of a [Bundler] instance. *)
Record Bundler := mkBundler {
  config : Config;
  compiledFiles : option (list CompiledFile);
  commonImports : option (list string);
  compilationError : bool
}.

(** What all instances of one process share: the disk, the console and the
    module-level variable [errorDetectedThisCycle] of [index.ts]. *)
Record Process := mkProcess {
  disk : gmap string string;
  console : list ConsoleLine;
  errorDetectedThisCycle : bool
}.

(** A call of [buildAll] that was started without [await]: what is left of it
    once it has reached its first [await]. *)
Inductive Pending :=
| PendingBuild (files : list CompiledFile) (common : list string) (persist : bool).

Record State := mkState {
  this : Bundler;
  proc : Process;
  detached : list Pending
}.

Definition with_this (f : Bundler -> Bundler) (st : State) : State :=
  mkState (f (this st)) (proc st) (detached st).
Definition with_proc (f : Process -> Process) (st : State) : State :=
  mkState (this st) (f (proc st)) (detached st).
Definition with_detached (f : list Pending -> list Pending) (st : State) : State :=
  mkState (this st) (proc st) (f (detached st)).

Definition set_compiledFiles (v : option (list CompiledFile)) (b : Bundler) : Bundler :=
  mkBundler (config b) v (commonImports b) (compilationError b).
Definition set_commonImports (v : option (list string)) (b : Bundler) : Bundler :=
  mkBundler (config b) (compiledFiles b) v (compilationError b).
Definition set_compilationError (v : bool) (b : Bundler) : Bundler :=
  mkBundler (config b) (compiledFiles b) (commonImports b) v.

Definition with_disk (f : gmap string string -> gmap string string) (p : Process) : Process :=
  mkProcess (f (disk p)) (console p) (errorDetectedThisCycle p).
Definition print (line : ConsoleLine) (p : Process) : Process :=
  mkProcess (disk p) (console p ++ [line])%list (errorDetectedThisCycle p).
Definition set_errorDetectedThisCycle (v : bool) (p : Process) : Process :=
  mkProcess (disk p) (console p) v.

(** ** The monad of methods: state, and JavaScript exceptions *)

Inductive Completion (A : Type) :=
| Normal (a : A)
| Throw (e : string).
Arguments Normal {A} a.
Arguments Throw {A} e.

Definition M (A : Type) : Type := State -> Completion A * State.

Definition ret {A} (a : A) : M A := fun st => (Normal a, st).
Definition bind {A B} (m : M A) (k : A -> M B) : M B :=
  fun st => match m st with
            | (Normal a, st') => k a st'
            | (Throw e, st') => (Throw e, st')
            end.
Definition throw {A} (e : string) : M A := fun st => (Throw e, st).
Definition get : M State := fun st => (Normal st, st).
Definition modify (f : State -> State) : M unit := fun st => (Normal tt, f st).

Declare Scope js_scope.
Delimit Scope js_scope with js.
Notation "'let*' x := m 'in' k" := (bind m (fun x => k))
  (at level 10, x name, m at level 100, k at level 200) : js_scope.
Notation "m ;;; k" := (bind m (fun _ => k))
  (at level 100, k at level 200, right associativity) : js_scope.
Open Scope js_scope.

Definition when (c : bool) (m : M unit) : M unit := if c then m else ret tt.

(** [for (const x of l) { await f(x) }] *)
Fixpoint forEach {A} (l : list A) (f : A -> M unit) : M unit :=
  match l with
  | [] => ret tt
  | x :: l' => f x ;;; forEach l' f
  end.

Definition console_log (msg : string) : M unit := modify (with_proc (print (ConsoleLog msg))).
Definition console_warn (msg : string) : M unit := modify (with_proc (print (ConsoleWarn msg))).
Definition console_error (msg : string) : M unit := modify (with_proc (print (ConsoleError msg))).

(** ** The file system ([fs-extra]) on the flat disk *)

Definition isUnder (dir p : string) : bool := startsWith (dir ++ "/") p.

(** [fse.emptyDirSync(dir)]: everything below [dir] goes.
    [fse.ensureDirSync] has nothing to do, directories being implicit. *)
Definition emptyDirSync (dir : string) (d : gmap string string) : gmap string string :=
  filter (fun kv => isUnder dir kv.1 = false) d.

(** The first segment of what follows [dir ++ "/"] in [p]. *)
Fixpoint firstSegment (s : string) : string :=
  match s with
  | EmptyString => EmptyString
  | String c s' => if Ascii.eqb c "/"%char then EmptyString else String c (firstSegment s')
  end.

Definition childName (dir p : string) : option string :=
  if isUnder dir p
  then Some (firstSegment (String.substring (String.length dir + 1) (String.length p) p))
  else None.

(** [fse.readdirSync(dir)]: the names of the files and directories directly in
    [dir], each once. *)
Definition readdirSync (dir : string) (d : gmap string string) : list string :=
  remove_dups (omap (childName dir) (map_to_list d).*1).

(** [fse.createWriteStream(p)]: opens [p] for writing, which creates the file
    or empties it. *)
Definition createWriteStream (p : string) : M unit :=
  modify (with_proc (with_disk (fun d => <[p := ""]> d))).

(** [fse.unlinkSync(p)] throws when there is no such file. *)
Definition unlinkSync (p : string) : M unit :=
  let* st := get in
  match disk (proc st) !! p with
  | None => throw "ENOENT"
  | Some _ => modify (with_proc (with_disk (delete p)))
  end.

(** *** Directories

    On the flat disk a directory is there as soon as a path goes through it,
    and that is how the methods of the class are modelled below: every
    [createWriteStream] gets its file. [fs.createWriteStream] itself opens the
    file only when the directory of the path exists; when it does not, the
    stream is returned all the same, no file is created and the stream later
    emits the error of the open. The module creates no directory but the
    output directory, in [cleanDist]. The definitions that follow keep track
    of the directories: [dirs] lists the directories that exist whether or
    not they hold a file, and the directories above a file of the disk exist
    too. *)

Fixpoint hasSlash (s : string) : bool :=
  match s with
  | EmptyString => false
  | String c s' => (Ascii.eqb c "/"%char || hasSlash s')%bool
  end.

(** The path up to its last slash: the directory that a file of that path is
    in. *)
Fixpoint dirnameOf (s : string) : string :=
  match s with
  | EmptyString => EmptyString
  | String c s' => if hasSlash s' then String c (dirnameOf s') else EmptyString
  end.

Definition dirExists (dirs : list string) (d : gmap string string) (dir : string) : bool :=
  (existsb (fun e => (String.eqb e dir || isUnder dir e)%bool) dirs
   || existsb (isUnder dir) (map_to_list d).*1)%bool.

(** [fse.createWriteStream(p)] with the directories: the file is created, or
    emptied, when its directory exists, and nothing happens to the disk when
    it does not. The open is recorded at the call; in Node it completes
    before anything is written to the stream. *)
Definition createWriteStreamIn (dirs : list string) (p : string) : M unit :=
  let* st := get in
  if dirExists dirs (disk (proc st)) (dirnameOf p) then createWriteStream p else ret tt.

(** [pipePromise(read, dest, end)]: the text of [read] is appended to the file
    that [dest] was opened on. A [null] stream is a TypeError. Whether
    [dest] is ended afterwards has no effect on the disk. The streams are
    taken to be those of a file that was just compiled: a read stream that
    was piped once, and a write stream that was ended, are not told from
    fresh ones. [onFileChange] pipes the streams of persisted files a second
    time when a partial that is not shared changes; what the streams do then
    is not described here. *)
Definition pipePromise (read dest : option string) : M unit :=
  match read, dest with
  | Some text, Some p =>
      modify (with_proc (with_disk (fun d => <[p := default "" (d !! p) ++ text]> d)))
  | _, _ => throw "TypeError"
  end.

(** The double quote, for the console messages that contain one. *)
Definition dq : string := String (ascii_of_nat 34) EmptyString.

(** ** class Bundler *)

Section Bundler.

Variable sass : Sass.
Variable path : PathLib.

(** [relativePath(path0, path1)] *)
Definition relativePath (path0 path1 : string) : string :=
  replaceFirst (path_resolve path path1) "" (path_resolve path path0).

(** [sassImporter(fileOutput)] applied to [url]: the path it pushes on
    [fileOutput.imports] when the URL carries the marker (it then returns
    [{ contents: "" }]), nothing otherwise (it returns [null]). *)
Definition sassImporter (cfg : Config) (url : string) : option string :=
  if startsWith "!bundler" url
  then Some (path_resolve_from path (sassDir cfg) (replaceFirst "!bundler" "." url))
  else None.

(** [cleanDist()] *)
Definition cleanDist : M unit :=
  let* st := get in
  modify (with_proc (with_disk (emptyDirSync (outDir (config (this st)))))).

(** The output path computed by [compileSingle]. *)
Definition absoluteCssPath (cfg : Config) (filePath : string) : string :=
  path_join path (outDir cfg) (replaceSassExt (relativePath filePath (sassDir cfg))).

(** [compileSingle(filePath)] *)
Definition compileSingle (filePath : string) : M CompiledFile :=
  let* st := get in
  let cfg := config (this st) in
  let (urls, result) := renderWithImporter sass (disk (proc st)) filePath in
  let imports := omap (sassImporter cfg) urls in
  match result with
  | SassError formatted =>
      console_error formatted ;;;
      modify (with_this (set_compilationError true)) ;;;
      ret (mkCompiledFile imports filePath None None true)
  | SassOk css =>
      createWriteStream (absoluteCssPath cfg filePath) ;;;
      ret (mkCompiledFile imports filePath (Some css) (Some (absoluteCssPath cfg filePath)) false)
  end.

(** The loop of [compileDir] over the listing of the directory. *)
Fixpoint compileEach (dirPath : string) (listing : list string) : M (list CompiledFile) :=
  match listing with
  | [] => ret []
  | file :: rest =>
      if startsWith "_" file then compileEach dirPath rest
      else
        let* compiled := compileSingle (path_join path dirPath file) in
        let* output := compileEach dirPath rest in
        ret (compiled :: output)
  end.

(** [compileDir(dirPath)] *)
Definition compileDir (dirPath : string) : M (list CompiledFile) :=
  let* st := get in
  compileEach dirPath (readdirSync dirPath (disk (proc st))).

(** [bundleSingle(file, commonImports)]. [file.imports] is an array, hence
    truthy. An error of [sass.renderSync] is not caught here. *)
Definition bundleSingle (file : CompiledFile) (commonImports : list string) : M unit :=
  let trimmedImports := removeA (imports file) commonImports in
  forEach trimmedImports (fun scssImport =>
    let* st := get in
    match render sass (disk (proc st)) scssImport with
    | SassError formatted => throw formatted
    | SassOk css => pipePromise (Some css) (writeStream file)
    end) ;;;
  pipePromise (readStream file) (writeStream file) ;;;
  let* st := get in
  when (verbose (config (this st))) (console_log (filePath file)).

(** [bundle(files, commonImports)] *)
Definition bundle (files : list CompiledFile) (commonImports : list string) : M unit :=
  forEach files (fun file => bundleSingle file commonImports).

(** The loop of [writeCommon]; [false] when it left through the [catch]. *)
Fixpoint writeCommonEach (writeStream : string) (commonImports : list string) : M bool :=
  match commonImports with
  | [] => ret true
  | commonImport :: rest =>
      let* st := get in
      match render sass (disk (proc st)) commonImport with
      | SassError formatted =>
          console_error formatted ;;;
          modify (with_this (set_compilationError true)) ;;;
          ret false
      | SassOk css =>
          pipePromise (Some css) (Some writeStream) ;;;
          writeCommonEach writeStream rest
      end
  end.

(** [writeCommon(commonImports)] *)
Definition writeCommon (commonImports : list string) : M unit :=
  let* st := get in
  let cfg := config (this st) in
  createWriteStream (sharedPath cfg) ;;;
  let* completed := writeCommonEach (sharedPath cfg) commonImports in
  when completed (when (verbose cfg) (console_log (path_basename path (sharedPath cfg)))).

(** [buildAll(persist)], in two parts. The first part is the code that runs
    before the first [await]: it cleans the output directory, compiles the
    directory and finds the common imports ([None] when it returned because of
    a compilation error). The elapsed time printed at the end is left out of
    the message. *)
Definition buildAll_compile : M (option (list CompiledFile * list string)) :=
  console_log "---------------" ;;;
  console_log "Bundling SCSS..." ;;;
  cleanDist ;;;
  let* st := get in
  let* files := compileDir (sassDir (config (this st))) in
  let* st := get in
  if compilationError (this st) then ret None
  else match identifyCommonImports files with
       | None => throw "TypeError"
       | Some commonImports => ret (Some (files, commonImports))
       end.

(** The second part: what [buildAll] does from its first [await] on. *)
Definition buildAll_write (files : list CompiledFile) (commonImports : list string)
    (persist : bool) : M unit :=
  bundle files commonImports ;;;
  writeCommon commonImports ;;;
  let* st := get in
  if compilationError (this st) then ret tt
  else
    when persist
      (modify (with_this (set_compiledFiles (Some files))) ;;;
       modify (with_this (set_commonImports (Some commonImports)))) ;;;
    console_log "SCSS bundled (_ms)" ;;;
    console_log "---------------".

(** [await this.buildAll(persist)] *)
Definition buildAll (persist : bool) : M unit :=
  let* started := buildAll_compile in
  match started with
  | None => ret tt
  | Some (files, commonImports) => buildAll_write files commonImports persist
  end.

(** [this.buildAll(persist)] without [await]: the caller goes on as soon as
    the call has reached its first [await]; the rest of the build is left in
    flight. An exception raised by the first part rejects a promise that nobody
    looks at. *)
Definition buildAll_notAwaited (persist : bool) : M unit :=
  fun st =>
    match buildAll_compile st with
    | (Normal (Some (files, commonImports)), st') =>
        (Normal tt, with_detached (fun l => l ++ [PendingBuild files commonImports persist])%list st')
    | (Normal None, st') => (Normal tt, st')
    | (Throw _, st') => (Normal tt, st')
    end.

(** The event loop resuming a build that was left in flight. *)
Definition resume (p : Pending) : M unit :=
  match p with
  | PendingBuild files commonImports persist => buildAll_write files commonImports persist
  end.

(** [files.findIndex((f) => f.filePath === filePath)]; it is also the index
    that [indexOf] gives for the object returned by [find] with the same test. *)
Fixpoint findIndex (filePath0 : string) (files : list CompiledFile) : option nat :=
  match files with
  | [] => None
  | f :: files' =>
      if String.eqb (filePath f) filePath0 then Some 0
      else option_map S (findIndex filePath0 files')
  end.

Definition msgNotPersisted (event : string) : string :=
  "Unable to handle " ++ dq ++ event ++ dq
  ++ " event: No common imports or compiled files have been persisted! Run .buildAll(true) first!".

Definition msgNoPrevious : string :=
  "Unable to handle " ++ dq ++ "change" ++ dq
  ++ " event: Previous compilation of the changed file not found!".

(** [onFileChange(filePath)]. The branch of a changed shared partial has no
    [return]: control goes on to the code for a changed entry. *)
Definition onFileChange (filePath0 : string) : M unit :=
  console_log "File changed!" ;;;
  let* st := get in
  match commonImports (this st), compiledFiles (this st) with
  | Some commonImports0, Some compiledFiles0 =>
      let changedEntry : M unit :=
        let* newFile := compileSingle filePath0 in
        let* st := get in
        if compilationError (this st)
        then modify (with_proc (set_errorDetectedThisCycle true))
        else
          match List.find (fun f => String.eqb (filePath f) filePath0) compiledFiles0,
                findIndex filePath0 compiledFiles0 with
          | Some oldFile, Some oldFileIndex =>
              let compiledFiles1 := <[oldFileIndex := newFile]> compiledFiles0 in
              modify (with_this (set_compiledFiles (Some compiledFiles1))) ;;;
              let bundleIt : M unit :=
                bundleSingle newFile commonImports0 ;;;
                console_log "File bundled (_ms)" in
              if equalsIgnoreOrder (imports newFile) (imports oldFile) then bundleIt
              else
                let removedImports :=
                  List.filter (fun i => negb (includes i (imports newFile))) (imports oldFile) in
                let removedCommonImports :=
                  List.filter (fun i => includes i commonImports0) removedImports in
                if Nat.ltb 0 (length removedCommonImports) then buildAll true
                else
                  let addedImports :=
                    List.filter (fun i => negb (includes i (imports oldFile))) (imports newFile) in
                  if Nat.ltb 0 (length addedImports) then
                    match identifyCommonImports compiledFiles1 with
                    | None => throw "TypeError"
                    | Some newCommonImports =>
                        if negb (equalsIgnoreOrder newCommonImports commonImports0)
                        then buildAll true
                        else bundleIt
                    end
                  else bundleIt
          | _, _ => console_warn msgNoPrevious
          end in
      if startsWith "_" (path_basename path filePath0) then
        if includes filePath0 commonImports0 then
          writeCommon commonImports0 ;;;
          console_log "Modified file was an in use shared partial. Shared file rebuilt (${})" ;;;
          changedEntry
        else
          let affectedFiles :=
            List.filter (fun f => includes filePath0 (imports f)) compiledFiles0 in
          bundle affectedFiles commonImports0 ;;;
          console_log "Modified file was an in use non-shared partial. Affected files rebuilt (_ms)"
      else changedEntry
  | _, _ => console_warn (msgNotPersisted "change")
  end.

(** [onFileAdd(filePath)] *)
Definition onFileAdd (filePath0 : string) : M unit :=
  console_log "File added!" ;;;
  let* st := get in
  match commonImports (this st), compiledFiles (this st) with
  | Some commonImports0, Some compiledFiles0 =>
      if startsWith "_" (path_basename path filePath0)
      then console_log "Added file was a partial. No action taken."
      else
        let* newFile := compileSingle filePath0 in
        let* st := get in
        if compilationError (this st)
        then modify (with_proc (set_errorDetectedThisCycle true))
        else
          modify (with_this (set_compiledFiles (Some (compiledFiles0 ++ [newFile])%list))) ;;;
          let missingCommonImports :=
            List.filter (fun i => negb (includes i (imports newFile))) commonImports0 in
          if Nat.ltb 0 (length missingCommonImports) then buildAll true
          else
            bundleSingle newFile commonImports0 ;;;
            console_log "File bundled (_ms)"
  | _, _ => console_warn (msgNotPersisted "add")
  end.

Definition nl : string := String (ascii_of_nat 10) EmptyString.

(** [affectedFiles.map((f) => f.filePath).reduce(...)] of [onFileRemove] *)
Definition usedFilesMsg (affectedFiles : list CompiledFile) : string :=
  fold_left (fun acc cur => acc ++ nl ++ " - " ++ cur) (map filePath affectedFiles) " - ".

Definition msgRemovedPartial (affectedFiles : list CompiledFile) : string :=
  ("Error: Removed file was an in use partial. Unable to recompile. " ++ nl
   ++ "Partial was used by:") ++ nl ++ usedFilesMsg affectedFiles.

(** [onFileRemove(filePath)]. Its last call of [buildAll] has no [await]. *)
Definition onFileRemove (filePath0 : string) : M unit :=
  console_log "File removed!" ;;;
  let* st := get in
  match commonImports (this st), compiledFiles (this st) with
  | Some commonImports0, Some compiledFiles0 =>
      if startsWith "_" (path_basename path filePath0) then
        let importsSet := flat_map imports compiledFiles0 in
        let importPath := path_resolve path filePath0 in
        if includes importPath importsSet then
          if includes importPath commonImports0 then
            modify (with_this (set_commonImports (Some (spliceFirst importPath commonImports0)))) ;;;
            console_error "Error: Removed file was an in use shared partial. Unable to recompile." ;;;
            modify (with_this (set_compilationError true)) ;;;
            modify (with_proc (set_errorDetectedThisCycle true))
          else
            let affectedFiles :=
              List.filter (fun f => includes importPath (imports f)) compiledFiles0 in
            modify (with_this (set_compilationError true)) ;;;
            modify (with_proc (set_errorDetectedThisCycle true)) ;;;
            console_error (msgRemovedPartial affectedFiles)
        else console_log "Removed file was an unused partial. No action taken."
      else
        match findIndex filePath0 compiledFiles0 with
        | None => throw "TypeError"
        | Some deletedFileIndex =>
            match compiledFiles0 !! deletedFileIndex with
            | None => throw "TypeError"
            | Some deletedFile =>
                match writeStream deletedFile with
                | None => throw "TypeError"
                | Some cssPath =>
                    unlinkSync cssPath ;;;
                    let compiledFiles1 := delete deletedFileIndex compiledFiles0 in
                    modify (with_this (set_compiledFiles (Some compiledFiles1))) ;;;
                    match identifyCommonImports compiledFiles1 with
                    | None => throw "TypeError"
                    | Some newCommonImports =>
                        if negb (equalsIgnoreOrder newCommonImports commonImports0)
                        then buildAll_notAwaited true
                        else console_log "Removed file processed (_ms)"
                    end
                end
            end
        end
  | _, _ => console_warn (msgNotPersisted "add")
  end.

(** The listeners that [onChokidarReady] registers on the watcher. *)

(** [watcher.on("all", ...)] *)
Definition on_all : M unit :=
  let* st := get in
  if negb (compilationError (this st)) then ret tt
  else if errorDetectedThisCycle (proc st)
  then modify (with_proc (set_errorDetectedThisCycle false))
  else
    modify (with_this (set_compilationError false)) ;;;
    buildAll true.

(** [watcher.on("change", ...)] *)
Definition on_change (filePath0 : string) : M unit :=
  let* st := get in
  if compilationError (this st) then ret tt else onFileChange filePath0.

(** [watcher.on("add", ...)] *)
Definition on_add (filePath0 : string) : M unit :=
  let* st := get in
  if compilationError (this st) then ret tt else onFileAdd filePath0.

(** [watcher.on("unlink", ...)] *)
Definition on_unlink (filePath0 : string) : M unit :=
  let* st := get in
  if compilationError (this st) then ret tt else onFileRemove filePath0.

(** [onChokidarReady(watcher)] *)
Definition onChokidarReady : M unit :=
  buildAll true ;;;
  console_log "Watching files...".

(** ** States and values named in the properties *)

(** The compiled file that a successful [compileSingle] returns. *)
Definition compiledOk (cfg : Config) (filePath0 : string) (urls : list string)
    (css : string) : CompiledFile :=
  mkCompiledFile (omap (sassImporter cfg) urls) filePath0 (Some css)
    (Some (absoluteCssPath cfg filePath0)) false.

(** The state of [buildAll] when [compileDir] starts: the two lines are
    printed and the output directory is empty. *)
Definition cleaned (st : State) : State :=
  with_proc (with_disk (emptyDirSync (outDir (config (this st)))))
    (with_proc (print (ConsoleLog "Bundling SCSS..."))
       (with_proc (print (ConsoleLog "---------------")) st)).

(** The state of [onFileAdd] once the new file is compiled and pushed. *)
Definition added (st : State) (filePath0 : string) (compiledFiles0 : list CompiledFile)
    (newFile : CompiledFile) : State :=
  with_this (set_compiledFiles (Some (compiledFiles0 ++ [newFile])%list))
    (with_proc (with_disk (fun d => <[absoluteCssPath (config (this st)) filePath0 := ""]> d))
       (with_proc (print (ConsoleLog "File added!")) st)).

(** The state of [onFileChange] once the changed entry is compiled and has
    taken the place of its previous compilation. *)
Definition changed (st : State) (filePath0 : string) (compiledFiles1 : list CompiledFile) : State :=
  with_this (set_compiledFiles (Some compiledFiles1))
    (with_proc (with_disk (fun d => <[absoluteCssPath (config (this st)) filePath0 := ""]> d))
       (with_proc (print (ConsoleLog "File changed!")) st)).

(** ** The methods, given the file system call

    [compileSingle] with [openStream] for [fse.createWriteStream], and
    [onFileChange] with [compile] for the [this.compileSingle] that it calls:
    the same code as above (see [compileSingleWith_createWriteStream] and
    [onFileChangeWith_compileSingle]), to be run over the file system with
    its directories. *)

Definition compileSingleWith (openStream : string -> M unit) (filePath : string)
    : M CompiledFile :=
  let* st := get in
  let cfg := config (this st) in
  let (urls, result) := renderWithImporter sass (disk (proc st)) filePath in
  let imports := omap (sassImporter cfg) urls in
  match result with
  | SassError formatted =>
      console_error formatted ;;;
      modify (with_this (set_compilationError true)) ;;;
      ret (mkCompiledFile imports filePath None None true)
  | SassOk css =>
      openStream (absoluteCssPath cfg filePath) ;;;
      ret (mkCompiledFile imports filePath (Some css) (Some (absoluteCssPath cfg filePath)) false)
  end.

Definition onFileChangeWith (compile : string -> M CompiledFile) (filePath0 : string)
    : M unit :=
  console_log "File changed!" ;;;
  let* st := get in
  match commonImports (this st), compiledFiles (this st) with
  | Some commonImports0, Some compiledFiles0 =>
      let changedEntry : M unit :=
        let* newFile := compile filePath0 in
        let* st := get in
        if compilationError (this st)
        then modify (with_proc (set_errorDetectedThisCycle true))
        else
          match List.find (fun f => String.eqb (filePath f) filePath0) compiledFiles0,
                findIndex filePath0 compiledFiles0 with
          | Some oldFile, Some oldFileIndex =>
              let compiledFiles1 := <[oldFileIndex := newFile]> compiledFiles0 in
              modify (with_this (set_compiledFiles (Some compiledFiles1))) ;;;
              let bundleIt : M unit :=
                bundleSingle newFile commonImports0 ;;;
                console_log "File bundled (_ms)" in
              if equalsIgnoreOrder (imports newFile) (imports oldFile) then bundleIt
              else
                let removedImports :=
                  List.filter (fun i => negb (includes i (imports newFile))) (imports oldFile) in
                let removedCommonImports :=
                  List.filter (fun i => includes i commonImports0) removedImports in
                if Nat.ltb 0 (length removedCommonImports) then buildAll true
                else
                  let addedImports :=
                    List.filter (fun i => negb (includes i (imports oldFile))) (imports newFile) in
                  if Nat.ltb 0 (length addedImports) then
                    match identifyCommonImports compiledFiles1 with
                    | None => throw "TypeError"
                    | Some newCommonImports =>
                        if negb (equalsIgnoreOrder newCommonImports commonImports0)
                        then buildAll true
                        else bundleIt
                    end
                  else bundleIt
          | _, _ => console_warn msgNoPrevious
          end in
      if startsWith "_" (path_basename path filePath0) then
        if includes filePath0 commonImports0 then
          writeCommon commonImports0 ;;;
          console_log "Modified file was an in use shared partial. Shared file rebuilt (${})" ;;;
          changedEntry
        else
          let affectedFiles :=
            List.filter (fun f => includes filePath0 (imports f)) compiledFiles0 in
          bundle affectedFiles commonImports0 ;;;
          console_log "Modified file was an in use non-shared partial. Affected files rebuilt (_ms)"
      else changedEntry
  | _, _ => console_warn (msgNotPersisted "change")
  end.

(** The generic event on an instance is absorbed: the listener returns at once,
    the instance is as it was and the flag is cleared. *)
Definition absorbs (b : Bundler) (p : Process) : Prop :=
  on_all (mkState b p []) = (Normal tt, mkState b (set_errorDetectedThisCycle false p) []).

End Bundler.

(** ** The earlier version of the module

    The earlier [removeA(arr, ...args)] works on [arr] itself: with [L] the
    number of arguments, while [L > 1] and [arr] is not empty it takes
    [what = a[--L]] and splices [what] out of [arr] as long as [indexOf]
    finds it. *)

(** The inner loop, [while ((ax = arr.indexOf(what)) !== -1) arr.splice(ax, 1)];
    every turn shortens [arr], so the length of [arr] is fuel enough. *)
Fixpoint spliceWhile (fuel : nat) (what : string) (arr : list string) : list string :=
  match fuel with
  | 0 => arr
  | S fuel' =>
      if includes what arr then spliceWhile fuel' what (spliceFirst what arr) else arr
  end.

(** The outer loop over [a[L-1]], ..., [a[1]]. *)
Fixpoint removeA_v1_loop (whats : list string) (arr : list string) : list string :=
  match whats with
  | [] => arr
  | what :: whats' =>
      match arr with
      | [] => arr
      | _ :: _ => removeA_v1_loop whats' (spliceWhile (length arr) what arr)
      end
  end.

Definition removeA_v1 (arr args : list string) : list string :=
  removeA_v1_loop (rev (tl args)) arr.

(** ** The command-line script *)

(** [s.substring(n)] *)
Fixpoint substringFrom (n : nat) (s : string) : string :=
  match n, s with
  | S n', String _ s' => substringFrom n' s'
  | _, _ => s
  end.

(** [obj[key] = value] on a plain object, the own properties of which are
    the map, for a value that is a string or [undefined] (here [None]). Every
    key becomes an own property but [__proto__]: that one is the accessor
    inherited from [Object.prototype], and its setter ignores a value that is
    not an object, so that nothing is stored. *)
Definition setProperty (key : string) (value : option string)
    (obj : gmap string (option string)) : gmap string (option string) :=
  if String.eqb key "__proto__" then obj else <[key := value]> obj.

(** The loop over the arguments: an argument that starts with two dashes is
    an option, whose value is the next argument ([undefined] when there is
    none); any other argument becomes the command. [cmdArgs] is a plain
    object. *)
Fixpoint parseArgs (args : list string) (mainCmd : string)
    (cmdArgs : gmap string (option string)) : string * gmap string (option string) :=
  match args with
  | [] => (mainCmd, cmdArgs)
  | arg :: rest =>
      if startsWith "--" arg then
        match rest with
        | [] => (mainCmd, setProperty (substringFrom 2 arg) None cmdArgs)
        | value :: rest' =>
            parseArgs rest' mainCmd (setProperty (substringFrom 2 arg) (Some value) cmdArgs)
        end
      else parseArgs rest arg cmdArgs
  end.

(** ** Vocabulary of the properties *)

(** Two arrays have the same members. *)
Definition sameMembers (a b : list string) : Prop := forall i, In i a <-> In i b.

(** [s.includes(sub)] on strings: the text [sub] occurs in [s]. *)
Fixpoint occursIn (sub s : string) : bool :=
  String.prefix sub s ||
  match s with
  | EmptyString => false
  | String _ s' => occursIn sub s'
  end.

(** [m] relates the state it starts in to the state it ends in by [R],
    however it completes. *)
Definition preserves {A} (R : State -> State -> Prop) (m : M A) : Prop :=
  forall st, R st (snd (m st)).

(** The fields of the instance, the flag and the promises in flight are kept. *)
Definition sameInstance (st st' : State) : Prop :=
  this st' = this st /\
  errorDetectedThisCycle (proc st') = errorDetectedThisCycle (proc st) /\
  detached st' = detached st.


(** What the compilation of entries may do to the state: raise the error
    flag, print, and open output files; no file receives any text. *)
Definition compiledOnly (st st' : State) : Prop :=
  config (this st') = config (this st) /\
  compiledFiles (this st') = compiledFiles (this st) /\
  commonImports (this st') = commonImports (this st) /\
  (compilationError (this st) = true -> compilationError (this st') = true) /\
  errorDetectedThisCycle (proc st') = errorDetectedThisCycle (proc st) /\
  detached st' = detached st /\
  (forall p text, disk (proc st') !! p = Some text ->
     text = "" \/ disk (proc st) !! p = Some text) /\
  (forall p, is_Some (disk (proc st) !! p) -> is_Some (disk (proc st') !! p)).

(** The error flag is not lowered and no file disappears. *)
Definition grows (st st' : State) : Prop :=
  (compilationError (this st) = true -> compilationError (this st') = true) /\
  (forall p, is_Some (disk (proc st) !! p) -> is_Some (disk (proc st') !! p)).

(** The arguments that give the options [kvs], and the object they build. *)
Definition optionArgs (kvs : list (string * string)) : list string :=
  flat_map (fun kv => ["--" ++ fst kv; snd kv]) kvs.
Definition optionValues (kvs : list (string * string))
    (cmdArgs : gmap string (option string)) : gmap string (option string) :=
  fold_left (fun acc kv => setProperty (fst kv) (Some (snd kv)) acc) kvs cmdArgs.

(** The texts of a list, one after the other. *)
Definition concatAll (texts : list string) : string :=
  fold_right String.append EmptyString texts.

(** The disk once [text] has been piped into the file [out]. *)
Definition appendTo (out text : string) (d : gmap string string) : gmap string string :=
  <[out := default "" (d !! out) ++ text]> d.

(** The render, without importer, of [file] gives [css] on the disks that
    agree with [d] everywhere but at [out]: writing to [out] does not change
    what [file] compiles to. *)
Definition rendersTo (sass : Sass) (d : gmap string string) (out file css : string) : Prop :=
  forall d', (forall p, p <> out -> d' !! p = d !! p) -> render sass d' file = SassOk css.



(** The same, for a render that fails. *)
Definition failsWith (sass : Sass) (d : gmap string string) (out file msg : string) : Prop :=
  forall d', (forall p, p <> out -> d' !! p = d !! p) -> render sass d' file = SassError msg.

(** The loop of [bundleSingle] over the imports that are not common. *)
Definition pipeImports (sass : Sass) (out : option string) (trimmedImports : list string) : M unit :=
  forEach trimmedImports (fun scssImport =>
    let* st := get in
    match render sass (disk (proc st)) scssImport with
    | SassError formatted => throw formatted
    | SassOk css => pipePromise (Some css) out
    end).

(** The persisted fields and the configuration are kept. *)
Definition samePersisted (st st' : State) : Prop :=
  config (this st') = config (this st) /\
  compiledFiles (this st') = compiledFiles (this st) /\
  commonImports (this st') = commonImports (this st).

(** The state in which a handler that printed [line] leaves the process when
    the compilation of the file fails with [msg]. *)
Definition failedWith (line msg : string) (st : State) : State :=
  with_proc (set_errorDetectedThisCycle true)
    (with_this (set_compilationError true)
       (with_proc (print (ConsoleError msg))
          (with_proc (print (ConsoleLog line)) st))).

(** The state of a handler that printed [line] and then the warning [msg]. *)
Definition warned (line msg : string) (st : State) : State :=
  with_proc (print (ConsoleWarn msg)) (with_proc (print (ConsoleLog line)) st).

(** The state of a handler that printed two lines. *)
Definition logged (line1 line2 : string) (st : State) : State :=
  with_proc (print (ConsoleLog line2)) (with_proc (print (ConsoleLog line1)) st).

(** The state of [onFileRemove] once the output [cssPath] of the removed entry
    is deleted and its compilation is spliced out. *)
Definition removedEntry (cssPath : string) (compiledFiles1 : list CompiledFile)
    (st : State) : State :=
  with_this (set_compiledFiles (Some compiledFiles1))
    (with_proc (with_disk (delete cssPath))
       (with_proc (print (ConsoleLog "File removed!")) st)).

(** The persisted common imports have the members of the common imports of
    the persisted files. *)
Definition commonInvariant (b : Bundler) : Prop :=
  exists commonImports0 compiledFiles0 common,
    commonImports b = Some commonImports0 /\
    compiledFiles b = Some compiledFiles0 /\
    identifyCommonImports compiledFiles0 = Some common /\
    sameMembers commonImports0 common.

(** No promise is added to the ones in flight. *)
Definition sameDetached (st st' : State) : Prop := detached st' = detached st.

(** ** A small instance of the collaborators, to run the handlers

    Paths are absolute and normalised POSIX paths. The toy stylesheet language
    has import directives [@URL;] at the start of a file, then the body, which
    compiles to itself; a body that starts with a closing brace is a syntax
    error. With the bundler's importer, marked URLs are accepted and unmarked
    ones cannot be found; without it no URL can be found. *)
Module Toy.

Fixpoint lastSegment (s acc : string) : string :=
  match s with
  | EmptyString => acc
  | String c s' =>
      if Ascii.eqb c "/"%char then lastSegment s' EmptyString
      else lastSegment s' (acc ++ String c EmptyString)
  end.

Definition posix : PathLib := {|
  path_resolve := fun p => p;
  path_resolve_from := fun from p =>
    if startsWith "./" p then from ++ "/" ++ String.substring 2 (String.length p) p
    else if startsWith "/" p then p
    else from ++ "/" ++ p;
  path_join := fun a b => if startsWith "/" b then a ++ b else a ++ "/" ++ b;
  path_basename := fun p => lastSegment p EmptyString
|}.

(** The directives and the body of a source text. *)
Fixpoint scan (s : string) (url : option string) : list string * string :=
  match s with
  | EmptyString => ([], EmptyString)
  | String c s' =>
      match url with
      | Some u =>
          if Ascii.eqb c ";"%char
          then let (urls, body) := scan s' None in (u :: urls, body)
          else scan s' (Some (u ++ String c EmptyString))
      | None =>
          if Ascii.eqb c "@"%char then scan s' (Some EmptyString) else ([], s)
      end
  end.

Definition sass : Sass := {|
  renderWithImporter := fun d file =>
    match d !! file with
    | None => ([], SassError "no such file")
    | Some src =>
        let (urls, body) := scan src None in
        if startsWith "}" body then (urls, SassError "unmatched brace")
        else if forallb (startsWith "!bundler") urls then (urls, SassOk body)
        else (urls, SassError "cannot find stylesheet to import")
    end;
  render := fun d file =>
    match d !! file with
    | None => SassError "no such file"
    | Some src =>
        match scan src None with
        | ([], body) =>
            if startsWith "}" body then SassError "unmatched brace" else SassOk body
        | _ => SassError "cannot find stylesheet to import"
        end
    end
|}.

Definition cfg : Config := mkConfig false "/src" "/out" "/out/shared.css".

(** A fresh instance, and a process with the given disk. *)
Definition fresh : Bundler := mkBundler cfg None None false.
Definition start (d : gmap string string) : State :=
  mkState fresh (mkProcess d [] false) [].

(** The example of the README: two pages that use one partial. *)
Definition readme : gmap string string :=
  list_to_map [("/src/a.scss", "@!bundler/_p.scss;#a{color:red}");
               ("/src/b.scss", "@!bundler/_p.scss;#b{color:green}");
               ("/src/_p.scss", "span{font-weight:bold}")].

(** The state in which the watcher starts to deliver events. *)
Definition watching (d : gmap string string) : State :=
  snd (onChokidarReady sass posix (start d)).

(** The file system changes, then the listener runs. *)
Definition edit (p text : string) (st : State) : State :=
  with_proc (with_disk (fun d => <[p := text]> d)) st.
Definition remove (p : string) (st : State) : State :=
  with_proc (with_disk (delete p)) st.

(** Scenarios. *)



(** The README example with a second partial [_q] that no page uses yet. *)
Definition withQ : gmap string string :=
  <["/src/_q.scss" := "em{color:blue}"]> readme.

(** ... and [a] is edited to import [_q] as well. *)
Definition withQEdited : State :=
  edit "/src/a.scss" "@!bundler/_p.scss;@!bundler/_q.scss;#a{color:red}" (watching withQ).

(** The README example in which [a] also imports [_q]. *)
Definition usesQ : gmap string string :=
  <["/src/a.scss" := "@!bundler/_p.scss;@!bundler/_q.scss;#a{color:red}"]> withQ.

(** The README example once built, then [b] is broken. *)
Definition brokenB : State := edit "/src/b.scss" "}" (watching readme).

(** The README example once built, then the shared partial is edited. *)
Definition partialEdited : State :=
  edit "/src/_p.scss" "span{font-weight:normal}" (watching readme).

(** The README example once built, then a page [c] that imports nothing
    appears. *)
Definition newPage : State := edit "/src/c.scss" "#c{color:blue}" (watching readme).

(** [a] imports [_p] and [_q], [b] imports [_p]; once built, [_q] is removed. *)
Definition qRemoved : State := remove "/src/_q.scss" (watching usesQ).

(** The README example with a third page that imports nothing. *)
Definition three : gmap string string :=
  <["/src/c.scss" := "#c{color:blue}"]> readme.

(** The README example with a page in a subdirectory. *)
Definition nested : gmap string string :=
  list_to_map [("/src/a.scss", "@!bundler/_p.scss;#a{color:red}");
               ("/src/b.scss", "@!bundler/_p.scss;#b{color:green}");
               ("/src/_p.scss", "span{font-weight:bold}");
               ("/src/pages/c.scss", "#c{color:blue}")].

(** A source directory that holds a partial and no page. *)
Definition onlyPartials : gmap string string :=
  list_to_map [("/src/_p.scss", "span{font-weight:bold}")].

(** The README example once built, in error after a [change] of the broken
    [b]. *)
Definition inError : State := snd (on_change sass posix "/src/b.scss" brokenB).

(** The README example once built, then [b] is removed. *)
Definition bRemoved : State := remove "/src/b.scss" (watching readme).

(** The README example once built, then a page appears in a new
    subdirectory of the source directory. The output directory is there,
    [buildAll] made it; it has no subdirectory. *)
Definition nestedPage : State := edit "/src/pages/c.scss" "#c{color:blue}" (watching readme).
Definition outputDirs : list string := ["/out"].

(** The README example once built, then a page [c] that imports [_p]
    appears. *)
Definition pageUsingP : State :=
  edit "/src/c.scss" "@!bundler/_p.scss;#c{color:blue}" (watching readme).

End Toy.

(** ** Properties in the words of the specification

    Readings of the specification that the code does not satisfy; each is
    refuted below on a scenario. *)

(** The file name ends in [.scss] or [.sass]. *)
Definition isStylesheet (p : string) : bool := negb (String.eqb (replaceSassExt p) p).


(** Error containment: when the compilation of an entry fails during a full
    build, the output file of every persisted compiled file is as it was. *)
Definition failed_build_keeps_outputs : Prop :=
  forall (sass : Sass) (path : PathLib) (persist : bool) (st : State)
    (files : list CompiledFile) (st2 : State) (f : CompiledFile)
    (previous : list CompiledFile) (g : CompiledFile) (out : string),
  compileDir sass path (sassDir (config (this st))) (cleaned st) = (Normal files, st2) ->
  In f files -> error f = true ->
  compiledFiles (this st) = Some previous ->
  In g previous -> writeStream g = Some out ->
  disk (proc (snd (buildAll sass path persist st))) !! out = disk (proc st) !! out.

(** Removal safety: the error printed for a removed partial names every
    compiled file that imports it. *)
Definition removal_names_every_entry : Prop :=
  forall (sass : Sass) (path : PathLib) (filePath0 : string) (st : State)
    (commonImports0 : list string) (compiledFiles0 : list CompiledFile) (f : CompiledFile),
  commonImports (this st) = Some commonImports0 ->
  compiledFiles (this st) = Some compiledFiles0 ->
  startsWith "_" (path_basename path filePath0) = true ->
  In f compiledFiles0 ->
  In (path_resolve path filePath0) (imports f) ->
  exists msg,
    In (ConsoleError msg) (console (proc (snd (onFileRemove sass path filePath0 st)))) /\
    occursIn (filePath f) msg = true.

(** The one-shot flag belongs to the instance: a [change] handled by one
    instance does not alter whether the generic event of another is absorbed. *)
Definition flag_is_per_instance : Prop :=
  forall (sass : Sass) (path : PathLib) (b1 b2 : Bundler) (p : Process) (filePath0 : string),
  let p' := proc (snd (on_change sass path filePath0 (mkState b1 p []))) in
  absorbs sass path b2 p' <-> absorbs sass path b2 p.

(** A full build reaches every stylesheet of the tree: if every stylesheet
    below the source directory that is not a partial compiles, each of them
    has its output file after the build. *)
Definition full_build_covers_tree : Prop :=
  forall (sass : Sass) (path : PathLib) (persist : bool) (st : State) (p src : string),
  let cfg := config (this st) in
  (forall q text, disk (proc st) !! q = Some text ->
     isUnder (sassDir cfg) q = true -> isStylesheet q = true ->
     startsWith "_" (path_basename path q) = false ->
     exists urls css, renderWithImporter sass (disk (proc st)) q = (urls, SassOk css)) ->
  disk (proc st) !! p = Some src ->
  isUnder (sassDir cfg) p = true -> isStylesheet p = true ->
  startsWith "_" (path_basename path p) = false ->
  is_Some (disk (proc (snd (buildAll sass path persist st))) !! absoluteCssPath path cfg p).

(** Whenever [compileSingle] succeeds on a path, the output file is on the
    disk when it returns, whatever directories there are. *)
Definition compile_creates_output : Prop :=
  forall (sass : Sass) (path : PathLib) (dirs : list string) (filePath0 : string) (st : State)
    urls css,
  renderWithImporter sass (disk (proc st)) filePath0 = (urls, SassOk css) ->
  is_Some (disk (proc (snd (compileSingleWith sass path (createWriteStreamIn dirs)
                              filePath0 st)))
             !! absoluteCssPath path (config (this st)) filePath0).

(** * Properties *)

(** ** Array helpers *)

Lemma includes_In (x : string) (arr : list string) :
  includes x arr = true <-> In x arr.
Proof.
  unfold includes. rewrite existsb_exists. split.
  - intros [y [Hy Heq]]. apply String.eqb_eq in Heq. now subst.
  - intros Hin. exists x. split; [assumption | apply String.eqb_refl].
Qed.

Lemma includes_false (x : string) (arr : list string) :
  includes x arr = false <-> ~ In x arr.
Proof.
  rewrite <- includes_In. destruct (includes x arr); split; congruence.
Qed.

Lemma isCommonImport_spec (i : string) (files : list CompiledFile) :
  isCommonImport i files = true <-> forall f, In f files -> In i (imports f).
Proof.
  unfold isCommonImport. rewrite forallb_forall. split.
  - intros H f Hf. apply includes_In, H, in_map, Hf.
  - intros H arr Harr. apply in_map_iff in Harr as [f [<- Hf]].
    apply includes_In, H, Hf.
Qed.

(** ** The sort keeps the files *)

Lemma insertByImports_perm (f : CompiledFile) (l : list CompiledFile) :
  Permutation (insertByImports f l) (f :: l).
Proof.
  induction l as [|g l IH]; simpl.
  - reflexivity.
  - destruct (Nat.leb _ _).
    + reflexivity.
    + rewrite IH. apply perm_swap.
Qed.

Lemma sortByImports_perm (files : list CompiledFile) :
  Permutation (sortByImports files) files.
Proof.
  induction files as [|f files IH]; simpl.
  - constructor.
  - rewrite insertByImports_perm. now constructor.
Qed.

Lemma sortByImports_head (files : list CompiledFile) :
  files <> [] -> exists smallest rest,
    sortByImports files = smallest :: rest /\ In smallest files.
Proof.
  intros Hne. pose proof (sortByImports_perm files) as Hp.
  destruct (sortByImports files) as [|s rest] eqn:E.
  - apply Permutation_nil in Hp. contradiction.
  - exists s, rest. split; [reflexivity|].
    eapply Permutation_in; [exact Hp | now left].
Qed.

(** What [identifyCommonImports] returns has exactly the imports that every
    file has. *)
Lemma identifyCommonImports_In (files : list CompiledFile) (common : list string) :
  identifyCommonImports files = Some common ->
  forall i, In i common <-> (forall f, In f files -> In i (imports f)).
Proof.
  unfold identifyCommonImports. intros H i.
  destruct (sortByImports files) as [|s rest] eqn:E; [discriminate|].
  injection H as <-.
  assert (Hs : In s files).
  { eapply Permutation_in; [apply sortByImports_perm|]. rewrite E. now left. }
  rewrite filter_In, isCommonImport_spec. split.
  - intros [_ Hall]. exact Hall.
  - intros Hall. split; [apply Hall, Hs | exact Hall].
Qed.

Lemma identifyCommonImports_defined (files : list CompiledFile) :
  files <> [] -> exists common, identifyCommonImports files = Some common.
Proof.
  intros Hne. destruct (sortByImports_head files Hne) as [s [rest [E _]]].
  unfold identifyCommonImports. rewrite E. eauto.
Qed.

Lemma filter_all_true {A} (p : A -> bool) (l : list A) :
  (forall x, In x l -> p x = true) -> List.filter p l = l.
Proof.
  induction l as [|x l IH]; simpl; intros H.
  - reflexivity.
  - rewrite (H x (or_introl eq_refl)). f_equal. apply IH. intros y Hy. apply H. now right.
Qed.

(** C1. For a non-empty array of compiled files, [identifyCommonImports]
    returns an array whose members are exactly the imports present in the
    import list of every file; any reordering of the files gives an array with
    the same members; and for a single file the result is that file's
    import list itself. *)
Theorem identifyCommonImports_intersection (files : list CompiledFile) :
  files <> [] ->
  (exists common, identifyCommonImports files = Some common /\
     forall i, In i common <-> (forall f, In f files -> In i (imports f)))
  /\ (forall files' common common',
        Permutation files' files ->
        identifyCommonImports files = Some common ->
        identifyCommonImports files' = Some common' ->
        forall i, In i common' <-> In i common)
  /\ (forall f, files = [f] -> identifyCommonImports files = Some (imports f)).
Proof.
  intros Hne. split; [|split].
  - destruct (identifyCommonImports_defined files Hne) as [common Hc].
    exists common. split; [exact Hc | now apply identifyCommonImports_In].
  - intros files' common common' Hp Hc Hc' i.
    rewrite (identifyCommonImports_In _ _ Hc), (identifyCommonImports_In _ _ Hc').
    split; intros H f Hf; apply H.
    + eapply Permutation_in; [symmetry; exact Hp | exact Hf].
    + eapply Permutation_in; [exact Hp | exact Hf].
  - intros f ->. unfold identifyCommonImports. simpl. f_equal.
    apply filter_all_true. intros i Hi.
    apply isCommonImport_spec. intros g [<-|[]]. exact Hi.
Qed.

Lemma identifyCommonImports_intersection_witness :
  exists common,
    identifyCommonImports
      [mkCompiledFile ["/src/_p.scss"; "/src/_r.scss"; "/src/_q.scss"] "/src/b.scss" None None false;
       mkCompiledFile ["/src/_q.scss"; "/src/_p.scss"] "/src/a.scss" None None false]
      = Some common /\
    forall i, In i common <->
      (forall f,
         In f [mkCompiledFile ["/src/_p.scss"; "/src/_r.scss"; "/src/_q.scss"] "/src/b.scss" None None false;
               mkCompiledFile ["/src/_q.scss"; "/src/_p.scss"] "/src/a.scss" None None false] ->
         In i (imports f)).
Proof.
  apply (identifyCommonImports_intersection
           [mkCompiledFile ["/src/_p.scss"; "/src/_r.scss"; "/src/_q.scss"] "/src/b.scss" None None false;
            mkCompiledFile ["/src/_q.scss"; "/src/_p.scss"] "/src/a.scss" None None false]).
  discriminate.
Defined.

(** ** Running the methods *)

Arguments compileSingle : simpl never.
Arguments compileDir : simpl never.
Arguments bundleSingle : simpl never.
Arguments bundle : simpl never.
Arguments writeCommon : simpl never.
Arguments buildAll_compile : simpl never.
Arguments buildAll_write : simpl never.
Arguments buildAll : simpl never.
Arguments buildAll_notAwaited : simpl never.
Arguments absoluteCssPath : simpl never.
Arguments pipePromise : simpl never.
Arguments identifyCommonImports : simpl never.
Arguments equalsIgnoreOrder : simpl never.

Ltac run :=
  unfold bind, get, modify, ret, throw, when, console_log, console_warn,
    console_error, createWriteStream; cbn.

Section Handlers.

Variable sass : Sass.
Variable path : PathLib.

Lemma compileSingle_ok (filePath0 : string) (st : State) urls css :
  renderWithImporter sass (disk (proc st)) filePath0 = (urls, SassOk css) ->
  compileSingle sass path filePath0 st =
    (Normal (compiledOk path (config (this st)) filePath0 urls css),
     with_proc (with_disk (fun d => <[absoluteCssPath path (config (this st)) filePath0 := ""]> d)) st).
Proof.
  intros H. unfold compileSingle. run. rewrite H. reflexivity.
Qed.

Lemma compileSingle_failed (filePath0 : string) (st : State) urls formatted :
  renderWithImporter sass (disk (proc st)) filePath0 = (urls, SassError formatted) ->
  compileSingle sass path filePath0 st =
    (Normal (mkCompiledFile (omap (sassImporter path (config (this st))) urls) filePath0 None None true),
     with_this (set_compilationError true) (with_proc (print (ConsoleError formatted)) st)).
Proof.
  intros H. unfold compileSingle. run. rewrite H. reflexivity.
Qed.

Lemma compileSingleWith_createWriteStream :
  compileSingleWith sass path createWriteStream = compileSingle sass path.
Proof. reflexivity. Qed.

Lemma onFileChangeWith_compileSingle :
  onFileChangeWith sass path (compileSingle sass path) = onFileChange sass path.
Proof. reflexivity. Qed.

Lemma createWriteStreamIn_run (dirs : list string) (p : string) (st : State) :
  createWriteStreamIn dirs p st =
    (Normal tt,
     if dirExists dirs (disk (proc st)) (dirnameOf p)
     then with_proc (with_disk (fun d => <[p := ""]> d)) st
     else st).
Proof.
  unfold createWriteStreamIn. run. now destruct (dirExists dirs (disk (proc st)) (dirnameOf p)).
Qed.

Lemma compileSingleWith_ok (openStream : string -> M unit) (filePath0 : string) (st : State)
    urls css :
  renderWithImporter sass (disk (proc st)) filePath0 = (urls, SassOk css) ->
  compileSingleWith sass path openStream filePath0 st =
    (openStream (absoluteCssPath path (config (this st)) filePath0) ;;;
     ret (compiledOk path (config (this st)) filePath0 urls css)) st.
Proof.
  intros H. unfold compileSingleWith. unfold bind at 1, get. rewrite H. reflexivity.
Qed.

(** The [change] of an entry that compiles and has no previous compilation,
    whatever [compile] does to the state as long as it returns the compiled
    file and leaves the instance alone: the handler warns and returns. *)
Lemma onFileChangeWith_no_previous (compile : string -> M CompiledFile) (filePath0 : string)
    (st st1 : State) (newFile : CompiledFile)
    (commonImports0 : list string) (compiledFiles0 : list CompiledFile) :
  compilationError (this st) = false ->
  commonImports (this st) = Some commonImports0 ->
  compiledFiles (this st) = Some compiledFiles0 ->
  startsWith "_" (path_basename path filePath0) = false ->
  List.find (fun f => String.eqb (filePath f) filePath0) compiledFiles0 = None ->
  compile filePath0 (with_proc (print (ConsoleLog "File changed!")) st) = (Normal newFile, st1) ->
  this st1 = this st ->
  onFileChangeWith sass path compile filePath0 st =
    (Normal tt, with_proc (print (ConsoleWarn msgNoPrevious)) st1).
Proof.
  intros Herr Hci Hfiles Hentry Hfind Hcompile Hthis.
  unfold onFileChangeWith. run. rewrite Hci, Hfiles, Hentry, Hcompile.
  run. rewrite Hthis, Herr, Hfind. reflexivity.
Qed.

(** For an entry the handler depends on [compile] through the one call it
    makes, right after its first line is printed. *)
Lemma onFileChangeWith_ext (compile1 compile2 : string -> M CompiledFile)
    (filePath0 : string) (st : State) :
  startsWith "_" (path_basename path filePath0) = false ->
  compile1 filePath0 (with_proc (print (ConsoleLog "File changed!")) st)
    = compile2 filePath0 (with_proc (print (ConsoleLog "File changed!")) st) ->
  onFileChangeWith sass path compile1 filePath0 st
    = onFileChangeWith sass path compile2 filePath0 st.
Proof.
  intros Hentry Hsame. unfold onFileChangeWith. run.
  destruct (commonImports (this st)); [|reflexivity].
  destruct (compiledFiles (this st)); [|reflexivity].
  rewrite Hentry, Hsame. reflexivity.
Qed.

(** C10, as amended. [compileSingle] on a file that compiles returns the
    compiled file with a write stream on the output path, and leaves the
    instance as it was. When the directory of the output path exists, the
    stream opens the output file: it is on the disk and is empty, whatever it
    held before, nothing having been bundled yet; so the [change] of an entry
    that compiles but has no previous compilation ends with the warning and
    leaves that empty output file behind; the methods then do what
    [compileSingle] and, for an entry, [onFileChange] do. When the directory
    does not exist, no file is created: the disk is as it was, also after
    that [change]. *)
Theorem compileSingle_opens_output (dirs : list string) (filePath0 : string) (st : State)
    urls css :
  renderWithImporter sass (disk (proc st)) filePath0 = (urls, SassOk css) ->
  let out := absoluteCssPath path (config (this st)) filePath0 in
  let newFile := compiledOk path (config (this st)) filePath0 urls css in
  let compile := compileSingleWith sass path (createWriteStreamIn dirs) in
  let opened :=
    if dirExists dirs (disk (proc st)) (dirnameOf out)
    then <[out := ""]> (disk (proc st)) else disk (proc st) in
  writeStream newFile = Some out /\
  (exists st',
      compile filePath0 st = (Normal newFile, st') /\
      disk (proc st') = opened /\
      this st' = this st)
  /\ (dirExists dirs (disk (proc st)) (dirnameOf out) = true ->
      compile filePath0 st = compileSingle sass path filePath0 st /\
      opened !! out = Some "" /\
      (startsWith "_" (path_basename path filePath0) = false ->
       onFileChangeWith sass path compile filePath0 st = onFileChange sass path filePath0 st))
  /\ (dirExists dirs (disk (proc st)) (dirnameOf out) = false ->
      opened !! out = disk (proc st) !! out)
  /\ (forall commonImports0 compiledFiles0,
        compilationError (this st) = false ->
        commonImports (this st) = Some commonImports0 ->
        compiledFiles (this st) = Some compiledFiles0 ->
        startsWith "_" (path_basename path filePath0) = false ->
        List.find (fun f => String.eqb (filePath f) filePath0) compiledFiles0 = None ->
        exists st',
          onFileChangeWith sass path compile filePath0 st = (Normal tt, st') /\
          disk (proc st') = opened /\
          this st' = this st /\
          console (proc st') =
            (console (proc st) ++ [ConsoleLog "File changed!"; ConsoleWarn msgNoPrevious])%list).
Proof.
  intros H out newFile compile opened.
  assert (Hrun : forall st0, disk (proc st0) = disk (proc st) -> this st0 = this st ->
            compile filePath0 st0 =
              (Normal newFile,
               if dirExists dirs (disk (proc st)) (dirnameOf out)
               then with_proc (with_disk (fun d => <[out := ""]> d)) st0
               else st0)).
  { intros st0 Hdisk Hthis. unfold compile.
    rewrite (compileSingleWith_ok _ filePath0 st0 urls css) by (rewrite Hdisk; exact H).
    unfold bind. rewrite createWriteStreamIn_run. rewrite Hdisk, Hthis. reflexivity. }
  split; [reflexivity|]. split; [|split; [|split]].
  - eexists. split; [apply Hrun; reflexivity|]. unfold opened.
    destruct (dirExists dirs (disk (proc st)) (dirnameOf out)); split; reflexivity.
  - intros Hdir. unfold opened. rewrite Hdir. split; [|split; [apply lookup_insert_eq|]].
    + rewrite (Hrun st eq_refl eq_refl), Hdir. symmetry. apply compileSingle_ok, H.
    + intros Hentry. rewrite <- onFileChangeWith_compileSingle.
      apply onFileChangeWith_ext; [exact Hentry|].
      rewrite (Hrun (with_proc (print (ConsoleLog "File changed!")) st) eq_refl eq_refl), Hdir.
      rewrite (compileSingle_ok filePath0 (with_proc (print (ConsoleLog "File changed!")) st)
                 urls css) by exact H.
      reflexivity.
  - intros Hdir. unfold opened. now rewrite Hdir.
  - intros ci files Herr Hci Hfiles Hentry Hfind.
    eexists. split.
    + eapply onFileChangeWith_no_previous;
        [exact Herr | exact Hci | exact Hfiles | exact Hentry | exact Hfind
        | apply Hrun; reflexivity |].
      now destruct (dirExists dirs (disk (proc st)) (dirnameOf out)).
    + unfold opened. destruct (dirExists dirs (disk (proc st)) (dirnameOf out)); cbn;
        (split; [reflexivity|]); (split; [reflexivity|]);
        rewrite <- app_assoc; reflexivity.
Qed.

(** ** What a method leaves alone *)

Section Preserves.

Variable R : State -> State -> Prop.
Hypothesis R_refl : forall st, R st st.
Hypothesis R_trans : forall st1 st2 st3, R st1 st2 -> R st2 st3 -> R st1 st3.

Lemma preserves_ret {A} (a : A) : preserves R (ret a).
Proof. intros st. apply R_refl. Qed.

Lemma preserves_throw {A} (e : string) : preserves R (@throw A e).
Proof. intros st. apply R_refl. Qed.

Lemma preserves_get : preserves R get.
Proof. intros st. apply R_refl. Qed.

Lemma preserves_bind {A B} (m : M A) (k : A -> M B) :
  preserves R m -> (forall a, preserves R (k a)) -> preserves R (bind m k).
Proof.
  intros Hm Hk st. unfold bind. specialize (Hm st).
  destruct (m st) as [[a|e] st']; cbn in *.
  - eapply R_trans; [exact Hm | apply Hk].
  - exact Hm.
Qed.

Lemma preserves_when (c : bool) (m : M unit) :
  preserves R m -> preserves R (when c m).
Proof. intros Hm. destruct c; [exact Hm | apply preserves_ret]. Qed.

Lemma preserves_forEach {A} (l : list A) (f : A -> M unit) :
  (forall x, preserves R (f x)) -> preserves R (forEach l f).
Proof.
  intros Hf. induction l as [|x l IH]; cbn.
  - apply preserves_ret.
  - apply preserves_bind; [apply Hf | intros _; exact IH].
Qed.

Lemma preserves_modify (f : State -> State) :
  (forall st, R st (f st)) -> preserves R (modify f).
Proof. intros Hf st. apply Hf. Qed.

End Preserves.

Lemma sameInstance_refl st : sameInstance st st.
Proof. repeat split. Qed.

Lemma sameInstance_trans st1 st2 st3 :
  sameInstance st1 st2 -> sameInstance st2 st3 -> sameInstance st1 st3.
Proof. intros (a & b & c) (a' & b' & c'). repeat split; congruence. Qed.



Lemma pipePromise_sameInstance read dest : preserves sameInstance (pipePromise read dest).
Proof. intros st. unfold pipePromise. destruct read, dest; repeat split. Qed.


Lemma console_log_sameInstance msg : preserves sameInstance (console_log msg).
Proof. intros st. repeat split. Qed.


(** [bundleSingle] writes to the output file of the artifact it is given and
    to nothing else. *)
Ltac frame refl trans base :=
  repeat first
    [ base
    | apply (preserves_bind _ trans); [| intros ?]
    | apply (preserves_forEach _ refl trans); intros ?
    | apply (preserves_when _ refl)
    | apply (preserves_get _ refl)
    | apply (preserves_ret _ refl)
    | apply (preserves_throw _ refl)
    | match goal with |- preserves _ (match ?x with _ => _ end) => destruct x end
    | match goal with |- preserves _ (if ?x then _ else _) => destruct x end ].

Lemma bundleSingle_sameInstance file common :
  preserves sameInstance (bundleSingle sass file common).
Proof.
  unfold bundleSingle.
  frame sameInstance_refl sameInstance_trans
    ltac:(first [apply pipePromise_sameInstance | apply console_log_sameInstance]).
Qed.


(** No common import is missing from [l] exactly when they are all in [l]. *)
Lemma missing_none (common l : list string) :
  Nat.ltb 0 (length (List.filter (fun i => negb (includes i l)) common)) = false
  <-> incl common l.
Proof.
  induction common as [|x common IH]; cbn.
  - split; [intros _ y [] | reflexivity].
  - destruct (includes x l) eqn:E; cbn.
    + rewrite IH. apply includes_In in E. split.
      * intros H y [<-|Hy]; [exact E | apply H, Hy].
      * intros H y Hy. apply H. now right.
    + apply includes_false in E. split; [discriminate|].
      intros H. exfalso. apply E, H. now left.
Qed.

(** ** [equalsIgnoreOrder] compares arrays as multisets *)

Lemma countEq_count_occ (v : string) (arr : list string) :
  countEq v arr = count_occ string_dec arr v.
Proof.
  unfold countEq. induction arr as [|y arr IH]; cbn.
  - reflexivity.
  - destruct (String.eqb_spec v y) as [Heq|Hne'], (string_dec y v) as [Heq'|Hne];
      cbn; congruence.
Qed.

Lemma uniqueValues_In (v : string) (l : list string) :
  In v (uniqueValues l) <-> In v l.
Proof.
  induction l as [|x l IH]; cbn.
  - reflexivity.
  - rewrite filter_In, IH. split.
    + intros [H|[H _]]; [now left | now right].
    + intros [H|H]; [now left|].
      destruct (String.eqb_spec x v) as [->|Hne]; [now left|].
      right. split; [exact H|]. cbn.
      destruct (String.eqb_spec x v); [contradiction | reflexivity].
Qed.

Lemma equalsIgnoreOrder_Permutation (a b : list string) :
  equalsIgnoreOrder a b = true <-> Permutation a b.
Proof.
  unfold equalsIgnoreOrder. split.
  - destruct (Nat.eqb (length a) (length b)); cbn; [|discriminate].
    rewrite forallb_forall. intros H.
    apply (Permutation_count_occ string_dec). intros v.
    destruct (in_dec string_dec v (a ++ b)) as [Hin|Hout].
    + specialize (H v (proj2 (uniqueValues_In v _) Hin)).
      apply Nat.eqb_eq in H. now rewrite <- !countEq_count_occ.
    + assert (Ha : ~ In v a) by (intros Hv; apply Hout, in_or_app; now left).
      assert (Hb : ~ In v b) by (intros Hv; apply Hout, in_or_app; now right).
      apply (count_occ_not_In string_dec) in Ha, Hb. congruence.
  - intros Hp. rewrite (Permutation_length Hp), Nat.eqb_refl. cbn.
    apply forallb_forall. intros v _. apply Nat.eqb_eq.
    rewrite !countEq_count_occ. now apply (Permutation_count_occ string_dec).
Qed.

Lemma Permutation_sameMembers (a b : list string) :
  Permutation a b -> sameMembers a b.
Proof.
  intros Hp i. split; apply Permutation_in; [exact Hp | symmetry; exact Hp].
Qed.


Lemma filter_not_included (keep drop : list string) (i : string) :
  In i (List.filter (fun i => negb (includes i drop)) keep) <-> In i keep /\ ~ In i drop.
Proof.
  rewrite filter_In, negb_true_iff, includes_false. reflexivity.
Qed.

Lemma find_findIndex (filePath0 : string) (files : list CompiledFile) (f : CompiledFile) :
  List.find (fun f => String.eqb (filePath f) filePath0) files = Some f ->
  exists n, findIndex filePath0 files = Some n /\ files !! n = Some f.
Proof.
  induction files as [|g files IH]; cbn; [discriminate|].
  destruct (String.eqb (filePath g) filePath0).
  - intros [= ->]. exists 0. split; reflexivity.
  - intros H. destruct (IH H) as [n [Hn Hl]]. exists (S n). rewrite Hn. split; [reflexivity | exact Hl].
Qed.

Lemma onFileChange_run (filePath0 : string) (st : State)
    (commonImports0 : list string) (compiledFiles0 : list CompiledFile) urls css
    (oldFile : CompiledFile) (oldFileIndex : nat) :
  compilationError (this st) = false ->
  commonImports (this st) = Some commonImports0 ->
  compiledFiles (this st) = Some compiledFiles0 ->
  startsWith "_" (path_basename path filePath0) = false ->
  renderWithImporter sass (disk (proc st)) filePath0 = (urls, SassOk css) ->
  List.find (fun f => String.eqb (filePath f) filePath0) compiledFiles0 = Some oldFile ->
  findIndex filePath0 compiledFiles0 = Some oldFileIndex ->
  let newFile := compiledOk path (config (this st)) filePath0 urls css in
  let compiledFiles1 := <[oldFileIndex := newFile]> compiledFiles0 in
  let bundleIt := bundleSingle sass newFile commonImports0 ;;; console_log "File bundled (_ms)" in
  onFileChange sass path filePath0 st =
    (if equalsIgnoreOrder (imports newFile) (imports oldFile) then bundleIt
     else if Nat.ltb 0 (length (List.filter (fun i => includes i commonImports0)
                 (List.filter (fun i => negb (includes i (imports newFile))) (imports oldFile))))
     then buildAll sass path true
     else if Nat.ltb 0 (length (List.filter (fun i => negb (includes i (imports oldFile)))
                 (imports newFile)))
     then match identifyCommonImports compiledFiles1 with
          | None => throw "TypeError"
          | Some newCommonImports =>
              if negb (equalsIgnoreOrder newCommonImports commonImports0)
              then buildAll sass path true
              else bundleIt
          end
     else bundleIt) (changed path st filePath0 compiledFiles1).
Proof.
  intros Herr Hci Hfiles Hentry Hok Hfind Hidx newFile compiledFiles1 bundleIt.
  unfold onFileChange. run. rewrite Hci, Hfiles, Hentry.
  rewrite (compileSingle_ok filePath0 _ urls css) by exact Hok.
  run. rewrite Herr, Hfind, Hidx. reflexivity.
Qed.

Lemma bundleIt_commonImports (newFile : CompiledFile) (common : list string) (st : State) :
  this (snd ((bundleSingle sass newFile common ;;; console_log "File bundled (_ms)") st)) = this st.
Proof.
  assert (H : sameInstance st
    (snd ((bundleSingle sass newFile common ;;; console_log "File bundled (_ms)") st))).
  { apply (preserves_bind _ sameInstance_trans);
      [apply bundleSingle_sameInstance | intros _; apply console_log_sameInstance]. }
  apply H.
Qed.


(** ** The compilation phase of a full build *)

Lemma compiledOnly_refl st : compiledOnly st st.
Proof. unfold compiledOnly. repeat split; auto. Qed.

Lemma compiledOnly_trans st1 st2 st3 :
  compiledOnly st1 st2 -> compiledOnly st2 st3 -> compiledOnly st1 st3.
Proof.
  intros (a1 & a2 & a3 & a4 & a5 & a6 & a7 & a8) (b1 & b2 & b3 & b4 & b5 & b6 & b7 & b8).
  unfold compiledOnly. repeat split; try congruence; auto.
  intros p text H. destruct (b7 p text H) as [->|H']; auto.
Qed.

Lemma compileSingle_compiledOnly filePath0 :
  preserves compiledOnly (compileSingle sass path filePath0).
Proof.
  intros st. destruct (renderWithImporter sass (disk (proc st)) filePath0) as [urls [msg|css]] eqn:E.
  - rewrite (compileSingle_failed _ _ _ _ E). unfold compiledOnly. cbn. repeat split; auto.
  - rewrite (compileSingle_ok _ _ _ _ E). unfold compiledOnly. cbn.
    do 6 (split; [auto|]). split.
    + intros p text H. destruct (decide (absoluteCssPath path (config (this st)) filePath0 = p)) as [Heq|Hne].
      * subst p. rewrite lookup_insert_eq in H. left. congruence.
      * rewrite lookup_insert_ne in H by exact Hne. now right.
    + intros p H. apply lookup_insert_is_Some'. now right.
Qed.

Lemma compileEach_compiledOnly dirPath listing :
  preserves compiledOnly (compileEach sass path dirPath listing).
Proof.
  induction listing as [|file rest IH]; cbn.
  - apply preserves_ret, compiledOnly_refl.
  - destruct (startsWith "_" file); [exact IH|].
    frame compiledOnly_refl compiledOnly_trans
      ltac:(first [apply compileSingle_compiledOnly | exact IH]).
Qed.

(** [compileSingle] and [compileDir] never throw. *)
Lemma compileSingle_normal filePath0 st :
  exists compiled, fst (compileSingle sass path filePath0 st) = Normal compiled /\
    filePath compiled = filePath0 /\
    (error compiled = true -> compilationError (this (snd (compileSingle sass path filePath0 st))) = true) /\
    (error compiled = false ->
       writeStream compiled = Some (absoluteCssPath path (config (this st)) filePath0) /\
       disk (proc (snd (compileSingle sass path filePath0 st)))
         !! absoluteCssPath path (config (this st)) filePath0 = Some "").
Proof.
  destruct (renderWithImporter sass (disk (proc st)) filePath0) as [urls [msg|css]] eqn:E.
  - rewrite (compileSingle_failed _ _ _ _ E). eexists. cbn.
    split; [reflexivity|]. cbn. repeat split; congruence.
  - rewrite (compileSingle_ok _ _ _ _ E). eexists. cbn.
    split; [reflexivity|]. cbn. repeat split; try congruence.
    apply lookup_insert_eq.
Qed.

Lemma compileEach_normal dirPath listing st :
  exists files, fst (compileEach sass path dirPath listing st) = Normal files /\
    map filePath files =
      map (path_join path dirPath) (List.filter (fun file => negb (startsWith "_" file)) listing) /\
    (forall f, In f files -> error f = true ->
       compilationError (this (snd (compileEach sass path dirPath listing st))) = true).
Proof.
  revert st. induction listing as [|file rest IH]; intros st; cbn.
  - exists []. repeat split. intros f [].
  - destruct (startsWith "_" file); cbn; [apply IH|].
    unfold bind.
    destruct (compileSingle_normal (path_join path dirPath file) st) as (compiled & Hc & Hp & He & _).
    destruct (compileSingle sass path (path_join path dirPath file) st) as [c st1] eqn:E1.
    cbn in Hc, He. subst c.
    destruct (IH st1) as (files & Hf & Hmap & Herr).
    pose proof (compileEach_compiledOnly dirPath rest st1) as Hrest.
    destruct (compileEach sass path dirPath rest st1) as [c st2] eqn:E2.
    cbn in Hf, Herr, Hrest. subst c. cbn.
    exists (compiled :: files). split; [reflexivity|]. split.
    + cbn. now rewrite Hp, Hmap.
    + destruct Hrest as (_ & _ & _ & Hmono & _).
      intros f [<-|Hin] Hfe.
      * apply Hmono, He, Hfe.
      * exact (Herr f Hin Hfe).
Qed.

Lemma compileDir_run dirPath st :
  compileDir sass path dirPath st =
    compileEach sass path dirPath (readdirSync dirPath (disk (proc st))) st.
Proof. reflexivity. Qed.

Lemma emptyDirSync_lookup dir (d : gmap string string) p text :
  emptyDirSync dir d !! p = Some text <-> d !! p = Some text /\ isUnder dir p = false.
Proof. unfold emptyDirSync. rewrite map_lookup_filter_Some. reflexivity. Qed.

Lemma buildAll_compile_run st :
  buildAll_compile sass path st =
    (let* files := compileDir sass path (sassDir (config (this st))) in
     let* st := get in
     if compilationError (this st) then ret None
     else match identifyCommonImports files with
          | None => throw "TypeError"
          | Some commonImports => ret (Some (files, commonImports))
          end) (cleaned st).
Proof. reflexivity. Qed.

(** An output file that was opened is still there and still empty after
    further compilations. *)
Lemma compiledOnly_empty st st' p :
  compiledOnly st st' -> disk (proc st) !! p = Some "" -> disk (proc st') !! p = Some "".
Proof.
  intros (_ & _ & _ & _ & _ & _ & Htext & Hkept) Hp.
  destruct (Hkept p) as [text Htext']; [rewrite Hp; eauto|].
  destruct (Htext p text Htext') as [->|H]; [exact Htext'|]. congruence.
Qed.

(** Every file that [compileEach] compiled without error has its output file
    opened: the file is on the disk, empty. *)
Lemma compileEach_opened dirPath listing st files st' :
  compileEach sass path dirPath listing st = (Normal files, st') ->
  forall g, In g files -> error g = false ->
    exists out, writeStream g = Some out /\ disk (proc st') !! out = Some "".
Proof.
  revert st files st'. induction listing as [|name rest IH]; intros st files st'; cbn.
  - intros [= <- <-] g [].
  - destruct (startsWith "_" name); [apply IH|].
    unfold bind.
    destruct (compileSingle_normal (path_join path dirPath name) st)
      as (compiled & Hc & _ & _ & Ho).
    destruct (compileSingle sass path (path_join path dirPath name) st) as [c st1].
    cbn in Hc, Ho. subst c.
    pose proof (compileEach_compiledOnly dirPath rest st1) as Hrest.
    specialize (IH st1).
    destruct (compileEach sass path dirPath rest st1) as [[files'|e] st2]; cbn in *;
      [|discriminate].
    specialize (IH _ _ eq_refl).
    intros [= <- <-] g [<-|Hin] Hg.
    + destruct (Ho Hg) as [Hw Hd]. eexists. split; [exact Hw|].
      now apply (compiledOnly_empty st1 st2).
    + exact (IH g Hin Hg).
Qed.

(** An empty file that was not there before [compileEach] is the output of
    a file that it compiled without error. *)
Lemma compileEach_only_opened dirPath listing st files st' :
  compileEach sass path dirPath listing st = (Normal files, st') ->
  forall p, disk (proc st') !! p = Some "" -> disk (proc st) !! p = None ->
    exists g, In g files /\ error g = false /\ writeStream g = Some p.
Proof.
  revert st files st'. induction listing as [|name rest IH]; intros st files st'; cbn.
  - intros [= <- <-] p Hp Hnone. congruence.
  - destruct (startsWith "_" name); [apply IH|].
    unfold bind.
    destruct (renderWithImporter sass (disk (proc st)) (path_join path dirPath name))
      as [urls [msg|css]] eqn:E.
    + rewrite (compileSingle_failed _ _ _ _ E).
      specialize (IH (with_this (set_compilationError true)
                        (with_proc (print (ConsoleError msg)) st))).
      destruct (compileEach sass path dirPath rest _) as [[files'|e] st2]; cbn in *;
        [|discriminate].
      specialize (IH _ _ eq_refl).
      intros [= <- <-] p Hp Hnone.
      destruct (IH p Hp Hnone) as (g & Hg & He & Hw).
      exists g. split; [now right | now split].
    + rewrite (compileSingle_ok _ _ _ _ E).
      set (out := absoluteCssPath path (config (this st)) (path_join path dirPath name)).
      specialize (IH (with_proc (with_disk (fun d => <[out := ""]> d)) st)).
      destruct (compileEach sass path dirPath rest _) as [[files'|e] st2]; cbn in *;
        [|discriminate].
      specialize (IH _ _ eq_refl).
      intros [= <- <-] p Hp Hnone.
      destruct (decide (p = out)) as [->|Hne].
      * eexists. split; [now left|]. split; reflexivity.
      * destruct (IH p Hp) as (g & Hg & He & Hw).
        { cbn. now rewrite lookup_insert_ne. }
        exists g. split; [now right | now split].
Qed.

(** C4, as amended. When the compilation of some entry fails during a full
    build, the build returns before anything is bundled: the error flag is
    set, the persisted files and common imports are the ones of before, and no
    file has received any text. But the output directory was emptied when the
    build started and every entry that did compile has had its output file
    opened: a file that is on the disk afterwards is empty, or it lies outside
    the output directory and is as it was; the files in the output directory
    are outputs of the entries that compiled, and each of these outputs is
    there, empty. *)
Theorem buildAll_compile_failure (persist : bool) (st : State)
    (files : list CompiledFile) (st2 : State) (f : CompiledFile) :
  compileDir sass path (sassDir (config (this st))) (cleaned st) = (Normal files, st2) ->
  In f files -> error f = true ->
  buildAll sass path persist st = (Normal tt, st2) /\
  compilationError (this st2) = true /\
  compiledFiles (this st2) = compiledFiles (this st) /\
  commonImports (this st2) = commonImports (this st) /\
  detached st2 = detached st /\
  (forall p text, disk (proc st2) !! p = Some text ->
     text = "" \/
     (disk (proc st) !! p = Some text /\ isUnder (outDir (config (this st))) p = false)) /\
  (forall p, isUnder (outDir (config (this st))) p = true -> disk (proc st2) !! p = Some "" ->
     exists g, In g files /\ error g = false /\ writeStream g = Some p) /\
  (forall g, In g files -> error g = false ->
     exists out, writeStream g = Some out /\ disk (proc st2) !! out = Some "").
Proof.
  intros Hdir Hin Herr.
  assert (Hflag : compilationError (this st2) = true).
  { rewrite compileDir_run in Hdir.
    destruct (compileEach_normal (sassDir (config (this st)))
                (readdirSync (sassDir (config (this st))) (disk (proc (cleaned st))))
                (cleaned st)) as (files' & Hf & _ & He).
    rewrite Hdir in Hf, He. cbn in Hf, He.
    injection Hf as <-. exact (He f Hin Herr). }
  assert (Hquiet : compiledOnly (cleaned st) st2).
  { replace st2 with (snd (compileDir sass path (sassDir (config (this st))) (cleaned st)))
      by now rewrite Hdir.
    rewrite compileDir_run. apply compileEach_compiledOnly. }
  destruct Hquiet as (_ & Hfiles & Hcommon & _ & _ & Hdet & Hdisk & _).
  split.
  - unfold buildAll. unfold bind at 1. rewrite buildAll_compile_run.
    unfold bind at 1. rewrite Hdir. run. rewrite Hflag. reflexivity.
  - split; [exact Hflag|]. split; [exact Hfiles|]. split; [exact Hcommon|].
    split; [exact Hdet|]. split; [|split].
    + intros p text H. destruct (Hdisk p text H) as [->|H']; [now left|].
      right. cbn in H'. now apply emptyDirSync_lookup in H'.
    + intros p Hunder Hp. rewrite compileDir_run in Hdir.
      apply (compileEach_only_opened _ _ _ _ _ Hdir p Hp).
      cbn. destruct (emptyDirSync (outDir (config (this st))) (disk (proc st)) !! p)
        as [text|] eqn:E; [|reflexivity].
      apply emptyDirSync_lookup in E as [_ E]. congruence.
    + rewrite compileDir_run in Hdir. exact (compileEach_opened _ _ _ _ _ Hdir).
Qed.

(** ** Removal of a partial that is in use *)

Lemma prefix_append (a b : string) : String.prefix a (a ++ b) = true.
Proof.
  induction a as [|c a IH]; simpl.
  - now destruct b.
  - destruct (ascii_dec c c); [exact IH | contradiction].
Qed.

Lemma prefix_append_l (x s t : string) :
  String.prefix x s = true -> String.prefix x (s ++ t) = true.
Proof.
  revert x. induction s as [|c s IH]; intros x; simpl.
  - destruct x; [intros _; now destruct t | discriminate].
  - destruct x as [|d x]; [reflexivity|].
    destruct (ascii_dec d c); [apply IH | discriminate].
Qed.

Lemma occursIn_append_r (x s t : string) :
  occursIn x s = true -> occursIn x (t ++ s) = true.
Proof.
  intros H. induction t as [|c t IH]; simpl.
  - exact H.
  - rewrite IH. apply orb_true_r.
Qed.

Lemma occursIn_cons (x : string) (c : ascii) (s : string) :
  occursIn x (String c s) = String.prefix x (String c s) || occursIn x s.
Proof. reflexivity. Qed.

Lemma occursIn_append_l (x s t : string) :
  occursIn x s = true -> occursIn x (s ++ t) = true.
Proof.
  induction s as [|c s IH].
  - destruct x; [now destruct t | discriminate].
  - rewrite occursIn_cons. intros H.
    change (String c s ++ t) with (String c (s ++ t)). rewrite occursIn_cons.
    apply orb_true_iff in H as [H|H].
    + change (String c (s ++ t)) with (String c s ++ t).
      rewrite (prefix_append_l _ _ _ H). reflexivity.
    + rewrite (IH H). apply orb_true_r.
Qed.

Lemma occursIn_here (x t : string) : occursIn x (x ++ t) = true.
Proof.
  destruct x as [|c x]; simpl.
  - now destruct t.
  - destruct (ascii_dec c c); [|contradiction]. now rewrite prefix_append.
Qed.

Lemma occursIn_refl (x : string) : occursIn x x = true.
Proof.
  assert (H : String.prefix x x = true).
  { induction x as [|c x IH]; simpl; [reflexivity|].
    destruct (ascii_dec c c); [exact IH | contradiction]. }
  destruct x; simpl in *; [reflexivity|]. now rewrite H.
Qed.

Lemma usedFilesMsg_lists (paths : list string) (acc x : string) :
  occursIn x acc = true \/ In x paths ->
  occursIn x (fold_left (fun acc cur => acc ++ nl ++ " - " ++ cur) paths acc) = true.
Proof.
  revert acc. induction paths as [|cur paths IH]; intros acc; simpl.
  - intros [H|[]]. exact H.
  - intros [H|[->|H]]; apply IH.
    + left. now apply occursIn_append_l.
    + left. apply occursIn_append_r, occursIn_append_r, occursIn_append_r, occursIn_refl.
    + now right.
Qed.

(** The message printed for a removed non-shared partial names every file
    that imports it. *)
Lemma msgRemovedPartial_lists (affectedFiles : list CompiledFile) (f : CompiledFile) :
  In f affectedFiles -> occursIn (filePath f) (msgRemovedPartial affectedFiles) = true.
Proof.
  intros Hin. unfold msgRemovedPartial.
  apply occursIn_append_r, occursIn_append_r.
  unfold usedFilesMsg. apply usedFilesMsg_lists. right. now apply in_map.
Qed.

(** C5, as amended. A [removed] partial that some compiled file imports: the
    handler returns with the error flag and the one-shot flag set and an
    error printed; it writes nothing to the disk and starts no build. If the
    partial is a common import, its first occurrence is taken out of
    [commonImports] and the message is the fixed text for a shared partial,
    which names no file. If it is not, [commonImports] is kept and the
    message names every compiled file that imports the partial. *)
Theorem onFileRemove_partial_in_use (filePath0 : string) (st : State)
    (commonImports0 : list string) (compiledFiles0 : list CompiledFile) (f : CompiledFile) :
  commonImports (this st) = Some commonImports0 ->
  compiledFiles (this st) = Some compiledFiles0 ->
  startsWith "_" (path_basename path filePath0) = true ->
  In f compiledFiles0 ->
  In (path_resolve path filePath0) (imports f) ->
  let importPath := path_resolve path filePath0 in
  exists st',
    onFileRemove sass path filePath0 st = (Normal tt, st') /\
    compilationError (this st') = true /\
    errorDetectedThisCycle (proc st') = true /\
    disk (proc st') = disk (proc st) /\
    compiledFiles (this st') = Some compiledFiles0 /\
    detached st' = detached st /\
    (In importPath commonImports0 ->
       commonImports (this st') = Some (spliceFirst importPath commonImports0) /\
       console (proc st') =
         (console (proc st) ++
          [ConsoleLog "File removed!";
           ConsoleError "Error: Removed file was an in use shared partial. Unable to recompile."])%list) /\
    (~ In importPath commonImports0 ->
       commonImports (this st') = Some commonImports0 /\
       exists msg,
         console (proc st') =
           (console (proc st) ++ [ConsoleLog "File removed!"; ConsoleError msg])%list /\
         forall g, In g compiledFiles0 -> In importPath (imports g) ->
           occursIn (filePath g) msg = true).
Proof.
  intros Hci Hfiles Hpartial Hin Himp importPath.
  assert (Hused : includes importPath (flat_map imports compiledFiles0) = true).
  { apply includes_In, in_flat_map. exists f. split; assumption. }
  unfold onFileRemove. run. rewrite Hci, Hfiles, Hpartial. fold importPath. rewrite Hused.
  destruct (includes importPath commonImports0) eqn:Ecommon; run.
  - eexists. split; [reflexivity|]. cbn. rewrite Hfiles.
    repeat (split; [reflexivity|]). split.
    + intros _. split; [reflexivity|]. now rewrite <- app_assoc.
    + intros Hn. apply includes_In in Ecommon. contradiction.
  - eexists. split; [reflexivity|]. cbn. rewrite Hfiles, Hci.
    repeat (split; [reflexivity|]). split.
    + intros Hc. apply includes_false in Ecommon. contradiction.
    + intros _. split; [reflexivity|]. eexists. split.
      * rewrite <- app_assoc. reflexivity.
      * intros g Hg Hgi. apply msgRemovedPartial_lists, filter_In.
        split; [exact Hg | apply includes_In, Hgi].
Qed.

(** ** What a full build reads and what it produces *)

Lemma grows_refl st : grows st st.
Proof. split; auto. Qed.

Lemma grows_trans st1 st2 st3 : grows st1 st2 -> grows st2 st3 -> grows st1 st3.
Proof. intros [a1 a2] [b1 b2]. split; auto. Qed.

Lemma pipePromise_grows read dest : preserves grows (pipePromise read dest).
Proof.
  intros st. unfold pipePromise. destruct read, dest; try apply grows_refl.
  split; cbn; [auto|]. intros p H. apply lookup_insert_is_Some'. now right.
Qed.

Lemma print_grows line : preserves grows (modify (with_proc (print line))).
Proof. intros st. split; auto. Qed.

Lemma createWriteStream_grows p : preserves grows (createWriteStream p).
Proof.
  intros st. split; cbn; [auto|]. intros q H. apply lookup_insert_is_Some'. now right.
Qed.

Lemma raise_grows : preserves grows (modify (with_this (set_compilationError true))).
Proof. intros st. split; auto. Qed.

Lemma persist_files_grows v : preserves grows (modify (with_this (set_compiledFiles v))).
Proof. intros st. split; auto. Qed.

Lemma persist_common_grows v : preserves grows (modify (with_this (set_commonImports v))).
Proof. intros st. split; auto. Qed.

Ltac grows_base :=
  first [ apply pipePromise_grows | apply print_grows | apply createWriteStream_grows
        | apply raise_grows | apply persist_files_grows | apply persist_common_grows ].

Lemma bundleSingle_grows file common : preserves grows (bundleSingle sass file common).
Proof.
  unfold bundleSingle, console_log. frame grows_refl grows_trans grows_base.
Qed.

Lemma writeCommonEach_grows out common : preserves grows (writeCommonEach sass out common).
Proof.
  induction common as [|commonImport rest IH]; cbn.
  - apply preserves_ret, grows_refl.
  - unfold console_error. frame grows_refl grows_trans ltac:(first [exact IH | grows_base]).
Qed.

Lemma buildAll_write_grows files common persist :
  preserves grows (buildAll_write sass path files common persist).
Proof.
  unfold buildAll_write, bundle, writeCommon, console_log.
  frame grows_refl grows_trans
    ltac:(first [apply bundleSingle_grows | apply writeCommonEach_grows | grows_base]).
Qed.

(** Every listed entry either raised the error flag or has its output file
    opened. *)
Lemma compileEach_outputs dirPath listing file st :
  In file listing -> startsWith "_" file = false ->
  compilationError (this (snd (compileEach sass path dirPath listing st))) = true \/
  is_Some (disk (proc (snd (compileEach sass path dirPath listing st)))
             !! absoluteCssPath path (config (this st)) (path_join path dirPath file)).
Proof.
  revert st. induction listing as [|name rest IH]; intros st; [intros []|].
  intros Hin Hentry. cbn.
  destruct (startsWith "_" name) eqn:Ename.
  - destruct Hin as [->|Hin]; [congruence|]. now apply IH.
  - unfold bind.
    destruct (compileSingle_normal (path_join path dirPath name) st) as (compiled & Hc & _ & He & Ho).
    pose proof (compileSingle_compiledOnly (path_join path dirPath name) st) as Hsingle.
    destruct (compileSingle sass path (path_join path dirPath name) st) as [c st1].
    cbn in Hc, He, Ho, Hsingle. subst c.
    pose proof (compileEach_compiledOnly dirPath rest st1) as Hrest.
    specialize (IH st1).
    destruct (compileEach sass path dirPath rest st1) as [[files|e] st2]; cbn in *.
    + destruct Hin as [->|Hin].
      * destruct (error compiled) eqn:Eerr.
        -- left. apply Hrest, He. reflexivity.
        -- right. apply Hrest. destruct (Ho eq_refl) as [_ ->]. eauto.
      * destruct Hsingle as (Hcfg & _). rewrite <- Hcfg. now apply IH.
    + destruct Hin as [->|Hin].
      * destruct (error compiled) eqn:Eerr.
        -- left. apply Hrest, He. reflexivity.
        -- right. apply Hrest. destruct (Ho eq_refl) as [_ ->]. eauto.
      * destruct Hsingle as (Hcfg & _). rewrite <- Hcfg. now apply IH.
Qed.

(** C9, as amended. A full build compiles the entries of the listing of the
    source directory itself whose name does not start with an underscore,
    and nothing else: it does not go into subdirectories. When the build
    completes without an error, each of these entries has an output file at
    the output directory joined with its path relative to the source
    directory, the extension [.scss] or [.sass] rewritten to [.css]. *)
Theorem buildAll_compiles_listing (persist : bool) (st : State) :
  let cfg := config (this st) in
  let listing := readdirSync (sassDir cfg) (disk (proc (cleaned st))) in
  let entries :=
    map (path_join path (sassDir cfg))
        (List.filter (fun file => negb (startsWith "_" file)) listing) in
  (exists files st2,
      compileDir sass path (sassDir cfg) (cleaned st) = (Normal files, st2) /\
      map filePath files = entries) /\
  (forall st',
      buildAll sass path persist st = (Normal tt, st') ->
      compilationError (this st') = false ->
      forall entry, In entry entries ->
        is_Some (disk (proc st') !! absoluteCssPath path cfg entry)).
Proof.
  intros cfg listing entries.
  destruct (compileEach_normal (sassDir cfg) listing (cleaned st)) as (files & Hf & Hmap & _).
  split.
  - exists files, (snd (compileDir sass path (sassDir cfg) (cleaned st))).
    split; [|exact Hmap].
    rewrite compileDir_run. fold listing.
    destruct (compileEach sass path (sassDir cfg) listing (cleaned st)); cbn in *. now subst.
  - intros st' Hrun Hok entry Hentry.
    apply in_map_iff in Hentry as (file & <- & Hfile).
    apply filter_In in Hfile as [Hfile Hnp]. apply negb_true_iff in Hnp.
    pose proof (compileEach_outputs (sassDir cfg) listing file (cleaned st) Hfile Hnp) as Hout.
    unfold buildAll in Hrun. unfold bind at 1 in Hrun. rewrite buildAll_compile_run in Hrun.
    unfold bind at 1 in Hrun. rewrite compileDir_run in Hrun. fold cfg listing in Hrun.
    destruct (compileEach sass path (sassDir cfg) listing (cleaned st)) as [c st2].
    cbn in Hf, Hout. subst c. unfold bind, get in Hrun. cbn in Hrun.
    destruct (compilationError (this st2)) eqn:Eflag.
    + cbn in Hrun. injection Hrun as <-. congruence.
    + destruct Hout as [Hout|Hout]; [congruence|].
      destruct (identifyCommonImports files) as [common|]; [|discriminate].
      cbn in Hrun.
      pose proof (buildAll_write_grows files common persist st2) as [_ Hgrow].
      rewrite Hrun in Hgrow. cbn in Hgrow. apply Hgrow. exact Hout.
Qed.

(** ** Awaited builds leave nothing in flight *)

Lemma sameDetached_refl st : sameDetached st st.
Proof. reflexivity. Qed.

Lemma sameDetached_trans st1 st2 st3 :
  sameDetached st1 st2 -> sameDetached st2 st3 -> sameDetached st1 st3.
Proof. unfold sameDetached. congruence. Qed.

Lemma with_proc_detached g : preserves sameDetached (modify (with_proc g)).
Proof. intros st. reflexivity. Qed.

Lemma with_this_detached g : preserves sameDetached (modify (with_this g)).
Proof. intros st. reflexivity. Qed.

Lemma pipePromise_detached read dest : preserves sameDetached (pipePromise read dest).
Proof. intros st. unfold pipePromise. destruct read, dest; reflexivity. Qed.

Ltac detached_base :=
  first [ apply with_proc_detached | apply with_this_detached | apply pipePromise_detached ].

Ltac detached_frame base := frame sameDetached_refl sameDetached_trans base.

Lemma compileSingle_detached filePath0 :
  preserves sameDetached (compileSingle sass path filePath0).
Proof. intros st. apply compileSingle_compiledOnly. Qed.

Lemma compileDir_detached dirPath : preserves sameDetached (compileDir sass path dirPath).
Proof. intros st. rewrite compileDir_run. apply compileEach_compiledOnly. Qed.

Lemma bundle_detached files common : preserves sameDetached (bundle sass files common).
Proof.
  unfold bundle. apply (preserves_forEach _ sameDetached_refl sameDetached_trans).
  intros file st. apply bundleSingle_sameInstance.
Qed.

Lemma writeCommonEach_detached out common :
  preserves sameDetached (writeCommonEach sass out common).
Proof.
  induction common as [|commonImport rest IH]; cbn.
  - apply preserves_ret, sameDetached_refl.
  - unfold console_error. detached_frame ltac:(first [exact IH | detached_base]).
Qed.

Lemma writeCommon_detached common : preserves sameDetached (writeCommon sass path common).
Proof.
  unfold writeCommon, createWriteStream, console_log.
  detached_frame ltac:(first [apply writeCommonEach_detached | detached_base]).
Qed.

Lemma buildAll_detached persist : preserves sameDetached (buildAll sass path persist).
Proof.
  unfold buildAll, buildAll_compile, buildAll_write, cleanDist, console_log.
  detached_frame ltac:(first [ apply compileDir_detached | apply bundle_detached
                             | apply writeCommon_detached | detached_base ]).
Qed.

(** The [change] and [add] listeners and the generic listener await every
    build they start. *)
Lemma awaited_listeners_detached (filePath0 : string) :
  preserves sameDetached (on_change sass path filePath0) /\
  preserves sameDetached (on_add sass path filePath0) /\
  preserves sameDetached (on_all sass path).
Proof.
  split; [|split].
  - unfold on_change, onFileChange, console_log, console_warn.
    detached_frame ltac:(first
      [ apply compileSingle_detached | apply buildAll_detached | apply bundle_detached
      | apply writeCommon_detached
      | (intros ?; apply bundleSingle_sameInstance) | detached_base ]).
  - unfold on_add, onFileAdd, console_log, console_warn.
    detached_frame ltac:(first
      [ apply compileSingle_detached | apply buildAll_detached
      | (intros ?; apply bundleSingle_sameInstance) | detached_base ]).
  - unfold on_all.
    detached_frame ltac:(first [ apply buildAll_detached | detached_base ]).
Qed.

(** ** The one-shot flag *)

(** C8, as amended. The one-shot flag is one variable of the module, shared by
    all instances: when the [change] listener of an instance records a
    compilation error the flag is set for the whole process, and the next
    generic event on any instance that is in error, this one or another, is
    absorbed and clears the flag. *)
Theorem errorDetectedThisCycle_shared (b1 b2 : Bundler) (p : Process) (filePath0 : string)
    (commonImports0 : list string) (compiledFiles0 : list CompiledFile) urls formatted :
  compilationError b1 = false ->
  commonImports b1 = Some commonImports0 ->
  compiledFiles b1 = Some compiledFiles0 ->
  startsWith "_" (path_basename path filePath0) = false ->
  renderWithImporter sass (disk p) filePath0 = (urls, SassError formatted) ->
  compilationError b2 = true ->
  let p' := proc (snd (on_change sass path filePath0 (mkState b1 p []))) in
  errorDetectedThisCycle p' = true /\
  disk p' = disk p /\
  absorbs sass path b2 p'.
Proof.
  intros Herr Hci Hfiles Hentry Hfail Herr2 p'.
  assert (Hp' : p' = set_errorDetectedThisCycle true
                       (print (ConsoleError formatted) (print (ConsoleLog "File changed!") p))).
  { unfold p', on_change, onFileChange. run. rewrite Herr. run.
    rewrite Hci, Hfiles, Hentry.
    rewrite (compileSingle_failed filePath0 _ urls formatted) by exact Hfail.
    reflexivity. }
  rewrite Hp'. split; [reflexivity|]. split; [reflexivity|].
  unfold absorbs, on_all. run. rewrite Herr2. reflexivity.
Qed.

End Handlers.

(** ** The scenarios *)

Ltac by_eval := vm_compute; reflexivity.

Ltac in_cases H :=
  simpl in H;
  repeat match type of H with
         | _ \/ _ => destruct H as [H|H]
         | False => destruct H
         end.


(** C4, refuted as stated. The README example is built; then [b] gets a
    syntax error and a full build runs. The build fails on [b], and the output
    of [a], which held the CSS of the previous build, is now an empty file. *)
Lemma buildAll_failure_counterexample : ~ failed_build_keeps_outputs.
Proof.
  intros claim.
  pose (a := mkCompiledFile ["/src/_p.scss"] "/src/a.scss"
               (Some "#a{color:red}") (Some "/out/a.css") false).
  pose (b := mkCompiledFile ["/src/_p.scss"] "/src/b.scss"
               (Some "#b{color:green}") (Some "/out/b.css") false).
  pose (b' := mkCompiledFile [] "/src/b.scss" None None true).
  specialize (claim Toy.sass Toy.posix true Toy.brokenB [a; b']
                (snd (compileDir Toy.sass Toy.posix "/src" (cleaned Toy.brokenB)))
                b' [a; b] a "/out/a.css").
  assert (H : disk (proc (snd (buildAll Toy.sass Toy.posix true Toy.brokenB))) !! "/out/a.css"
              = disk (proc Toy.brokenB) !! "/out/a.css").
  { apply claim; try (vm_compute; reflexivity).
    - right. now left.
    - now left. }
  vm_compute in H. discriminate H.
Qed.

(** C5, refuted as stated. The README example is built; then the shared
    partial [_p] is removed. It is imported by [a], but no error that is
    printed names [a]. *)
Lemma onFileRemove_shared_partial_counterexample : ~ removal_names_every_entry.
Proof.
  intros claim.
  pose (a := mkCompiledFile ["/src/_p.scss"] "/src/a.scss"
               (Some "#a{color:red}") (Some "/out/a.css") false).
  pose (b := mkCompiledFile ["/src/_p.scss"] "/src/b.scss"
               (Some "#b{color:green}") (Some "/out/b.css") false).
  destruct (claim Toy.sass Toy.posix "/src/_p.scss"
              (Toy.remove "/src/_p.scss" (Toy.watching Toy.readme))
              ["/src/_p.scss"] [a; b] a) as [msg [Hprinted Hnames]];
    try (vm_compute; reflexivity).
  - now left.
  - now left.
  - vm_compute in Hprinted. in_cases Hprinted; try discriminate Hprinted.
    injection Hprinted as <-. vm_compute in Hnames. discriminate Hnames.
Qed.

(** C8, refuted as stated. Two instances in one process, the second one in
    error with the flag already consumed: its next generic event would start
    a build. The first instance then handles the [change] of a page with a
    syntax error, and the generic event of the second instance is absorbed. *)
Lemma errorDetectedThisCycle_counterexample : ~ flag_is_per_instance.
Proof.
  intros claim.
  pose (b1 := this (Toy.watching Toy.readme)).
  specialize (claim Toy.sass Toy.posix b1 (set_compilationError true b1)
                (proc Toy.brokenB) "/src/b.scss").
  cbn zeta in claim.
  assert (H : absorbs Toy.sass Toy.posix (set_compilationError true b1) (proc Toy.brokenB)).
  { apply claim. unfold absorbs. vm_compute. reflexivity. }
  unfold absorbs in H.
  apply (f_equal (fun r => length (console (proc (snd r))))) in H.
  vm_compute in H. discriminate H.
Qed.

(** C9, refuted as stated. The README example with one more page,
    [pages/c.scss]: every stylesheet of the tree compiles, but a full build
    leaves no output file for that page. *)
Lemma buildAll_nested_counterexample : ~ full_build_covers_tree.
Proof.
  intros claim.
  specialize (claim Toy.sass Toy.posix true (Toy.start Toy.nested)
                "/src/pages/c.scss" "#c{color:blue}").
  cbn zeta in claim.
  assert (H : is_Some (disk (proc (snd (buildAll Toy.sass Toy.posix true (Toy.start Toy.nested))))
                         !! absoluteCssPath Toy.posix (config (this (Toy.start Toy.nested)))
                              "/src/pages/c.scss")).
  { apply claim; try (vm_compute; reflexivity).
    intros q text Hq _ Hsheet Hentry.
    change (disk (proc (Toy.start Toy.nested))) with Toy.nested in *.
    apply elem_of_list_to_map_2 in Hq.
    repeat (apply elem_of_cons in Hq as [Hq|Hq]; [injection Hq as -> ->|]);
      try (apply elem_of_nil in Hq; destruct Hq);
      try (vm_compute in Hentry; discriminate Hentry);
      eexists _, _; vm_compute; reflexivity. }
  vm_compute in H. destruct H as [text H]. discriminate H.
Qed.

(** C10, refuted as stated. The README example is built and a page appears in
    a new subdirectory of the source directory, [pages/c.scss]. It compiles,
    and [compileSingle] returns a write stream on [/out/pages/c.css]; but the
    output directory has no subdirectory [pages] and nothing creates it: no
    file is created. *)
Lemma compileSingle_nested_counterexample : ~ compile_creates_output.
Proof.
  intros claim.
  specialize (claim Toy.sass Toy.posix Toy.outputDirs "/src/pages/c.scss" Toy.nestedPage
                [] "#c{color:blue}" ltac:(by_eval)).
  vm_compute in claim. destruct claim as [text H]. discriminate H.
Qed.

(** C3, on the code. The README example is built and the shared partial [_p]
    is edited. The [change] listener rewrites the shared file, and then goes
    on into the code for a changed entry: it compiles the partial as if it
    were a page, which opens the output file [/out/_p.css], a file that did not
    exist, and ends with the warning that no previous compilation was found. *)
Theorem onFileChange_shared_partial_falls_through :
  let st := Toy.partialEdited in
  let result := on_change Toy.sass Toy.posix "/src/_p.scss" st in
  startsWith "_" (path_basename Toy.posix "/src/_p.scss") = true /\
  commonImports (this st) = Some ["/src/_p.scss"] /\
  compilationError (this st) = false /\
  fst result = Normal tt /\
  disk (proc (snd result)) !! "/out/shared.css" = Some "span{font-weight:normal}" /\
  disk (proc st) !! "/out/_p.css" = None /\
  disk (proc (snd result)) !! "/out/_p.css" = Some "" /\
  console (proc (snd result)) =
    (console (proc st) ++
     [ConsoleLog "File changed!";
      ConsoleLog "Modified file was an in use shared partial. Shared file rebuilt (${})";
      ConsoleWarn msgNoPrevious])%list /\
  this (snd result) = this st.
Proof.
  vm_compute. repeat split; reflexivity.
Qed.

(** C7, on the code. Three pages are built; [c] imports nothing, so there is
    no common import. [c] is then removed: the common imports of the two
    pages left are [_p], and the [unlink] listener starts a full build without
    awaiting it. When the listener returns, that build is still in flight:
    the output files have been opened and are empty, and [commonImports] is
    not updated. Only when the build is resumed are the pages written and the
    new common imports persisted. *)
Theorem onFileRemove_returns_before_build :
  let st := Toy.remove "/src/c.scss" (Toy.watching Toy.three) in
  let result := on_unlink Toy.sass Toy.posix "/src/c.scss" st in
  let a := mkCompiledFile ["/src/_p.scss"] "/src/a.scss"
             (Some "#a{color:red}") (Some "/out/a.css") false in
  let b := mkCompiledFile ["/src/_p.scss"] "/src/b.scss"
             (Some "#b{color:green}") (Some "/out/b.css") false in
  let later := snd (resume Toy.sass Toy.posix (PendingBuild [a; b] ["/src/_p.scss"] true)
                      (with_detached (fun _ => []) (snd result))) in
  detached st = [] /\
  fst result = Normal tt /\
  detached (snd result) = [PendingBuild [a; b] ["/src/_p.scss"] true] /\
  disk (proc (snd result)) !! "/out/a.css" = Some "" /\
  disk (proc (snd result)) !! "/out/shared.css" = None /\
  commonImports (this (snd result)) = Some [] /\
  disk (proc later) !! "/out/a.css" = Some "#a{color:red}" /\
  disk (proc later) !! "/out/shared.css" = Some "span{font-weight:bold}" /\
  commonImports (this later) = Some ["/src/_p.scss"].
Proof.
  vm_compute. repeat split; reflexivity.
Qed.

(** ** The properties at work *)

Lemma buildAll_compile_failure_witness :
  exists st2,
    buildAll Toy.sass Toy.posix true Toy.brokenB = (Normal tt, st2) /\
    compilationError (this st2) = true /\
    compiledFiles (this st2) = compiledFiles (this Toy.brokenB) /\
    disk (proc st2) !! "/out/a.css" = Some "".
Proof.
  pose (a := mkCompiledFile ["/src/_p.scss"] "/src/a.scss"
               (Some "#a{color:red}") (Some "/out/a.css") false).
  pose (b' := mkCompiledFile [] "/src/b.scss" None None true).
  exists (snd (compileDir Toy.sass Toy.posix (sassDir (config (this Toy.brokenB)))
                 (cleaned Toy.brokenB))).
  destruct (buildAll_compile_failure Toy.sass Toy.posix true Toy.brokenB [a; b']
              (snd (compileDir Toy.sass Toy.posix (sassDir (config (this Toy.brokenB)))
                      (cleaned Toy.brokenB))) b'
              ltac:(by_eval) (or_intror (or_introl eq_refl)) eq_refl)
    as (Hrun & Hflag & Hfiles & _ & _ & _ & _ & Hopened).
  split; [exact Hrun|]. split; [exact Hflag|]. split; [exact Hfiles|].
  destruct (Hopened a (or_introl eq_refl) eq_refl) as (out & Hout & Hempty).
  injection Hout as <-. exact Hempty.
Defined.

Lemma onFileRemove_partial_in_use_witness :
  exists msg,
    In (ConsoleError msg)
       (console (proc (snd (onFileRemove Toy.sass Toy.posix "/src/_q.scss" Toy.qRemoved)))) /\
    occursIn "/src/a.scss" msg = true.
Proof.
  pose (a := mkCompiledFile ["/src/_p.scss"; "/src/_q.scss"] "/src/a.scss"
               (Some "#a{color:red}") (Some "/out/a.css") false).
  pose (b := mkCompiledFile ["/src/_p.scss"] "/src/b.scss"
               (Some "#b{color:green}") (Some "/out/b.css") false).
  destruct (onFileRemove_partial_in_use Toy.sass Toy.posix "/src/_q.scss" Toy.qRemoved
              ["/src/_p.scss"] [a; b] a
              ltac:(by_eval) ltac:(by_eval) ltac:(by_eval))
    as (st' & Hrun & _ & _ & _ & _ & _ & _ & Hnot).
  - now left.
  - right. now left.
  - destruct Hnot as (_ & msg & Hconsole & Hall).
    + intros Hc. in_cases Hc. discriminate Hc.
    + exists msg. rewrite Hrun. cbn [snd]. rewrite Hconsole. split.
      * apply in_or_app. right. right. now left.
      * apply (Hall a); [now left | right; now left].
Defined.

Lemma errorDetectedThisCycle_shared_witness :
  absorbs Toy.sass Toy.posix (set_compilationError true (this (Toy.watching Toy.readme)))
    (proc (snd (on_change Toy.sass Toy.posix "/src/b.scss"
                  (mkState (this (Toy.watching Toy.readme)) (proc Toy.brokenB) [])))).
Proof.
  apply (errorDetectedThisCycle_shared Toy.sass Toy.posix
           (this (Toy.watching Toy.readme))
           (set_compilationError true (this (Toy.watching Toy.readme)))
           (proc Toy.brokenB) "/src/b.scss" ["/src/_p.scss"]
           [mkCompiledFile ["/src/_p.scss"] "/src/a.scss"
              (Some "#a{color:red}") (Some "/out/a.css") false;
            mkCompiledFile ["/src/_p.scss"] "/src/b.scss"
              (Some "#b{color:green}") (Some "/out/b.css") false]
           [] "unmatched brace");
    by_eval.
Defined.

Lemma buildAll_compiles_listing_witness :
  is_Some (disk (proc (snd (buildAll Toy.sass Toy.posix true (Toy.start Toy.readme))))
             !! absoluteCssPath Toy.posix Toy.cfg "/src/a.scss").
Proof.
  destruct (buildAll_compiles_listing Toy.sass Toy.posix true (Toy.start Toy.readme))
    as [_ Hout].
  apply (Hout (snd (buildAll Toy.sass Toy.posix true (Toy.start Toy.readme)))).
  - vm_compute. reflexivity.
  - vm_compute. reflexivity.
  - vm_compute. auto.
Defined.

Lemma compileSingle_opens_output_witness :
  exists st',
    onFileChangeWith Toy.sass Toy.posix
      (compileSingleWith Toy.sass Toy.posix (createWriteStreamIn Toy.outputDirs))
      "/src/c.scss" Toy.newPage = (Normal tt, st') /\
    disk (proc st') !! "/out/c.css" = Some "".
Proof.
  pose proof (compileSingle_opens_output Toy.sass Toy.posix Toy.outputDirs "/src/c.scss"
                Toy.newPage [] "#c{color:blue}" ltac:(by_eval)) as H.
  cbn zeta in H. destruct H as (_ & _ & _ & _ & Hwarn).
  destruct (Hwarn ["/src/_p.scss"]
              [mkCompiledFile ["/src/_p.scss"] "/src/a.scss"
                 (Some "#a{color:red}") (Some "/out/a.css") false;
               mkCompiledFile ["/src/_p.scss"] "/src/b.scss"
                 (Some "#b{color:green}") (Some "/out/b.css") false]
              ltac:(by_eval) ltac:(by_eval) ltac:(by_eval) ltac:(by_eval) ltac:(by_eval))
    as (st' & Hrun & Hdisk & _).
  exists st'. split; [exact Hrun|].
  rewrite Hdisk. by_eval.
Defined.

(** * Further properties of the module *)

(** ** [removeA] *)

Lemma countEq_cons (x y : string) (arr : list string) :
  countEq x (y :: arr) = ((if String.eqb x y then 1 else 0) + countEq x arr)%nat.
Proof. unfold countEq. cbn. now destruct (String.eqb x y). Qed.

Lemma countEq_spliceFirst (x y : string) (arr : list string) :
  countEq x (spliceFirst y arr) = (countEq x arr - (if String.eqb x y then 1 else 0))%nat.
Proof.
  induction arr as [|z arr IH]; [now destruct (String.eqb x y)|].
  cbn [spliceFirst]. destruct (String.eqb_spec z y) as [->|Hzy].
  - rewrite countEq_cons. destruct (String.eqb x y); lia.
  - rewrite !countEq_cons, IH.
    destruct (String.eqb_spec x y) as [->|Hxy]; [|lia].
    destruct (String.eqb_spec y z) as [->|_]; [contradiction|]. lia.
Qed.

(** X1. [removeA] subtracts multisets: a value occurs in the result as many
    times as in [arr], less the number of times it is passed as an argument. *)
Theorem removeA_counts (arr args : list string) (x : string) :
  countEq x (removeA arr args) = (countEq x arr - countEq x args)%nat.
Proof.
  unfold removeA. revert arr. induction args as [|a args IH]; intros arr; cbn [fold_left].
  - unfold countEq at 3. cbn. lia.
  - rewrite IH, countEq_spliceFirst, countEq_cons. lia.
Qed.

Lemma spliceFirst_sublist (y : string) (arr : list string) :
  sublist (spliceFirst y arr) arr.
Proof.
  induction arr as [|z arr IH]; cbn; [constructor|].
  destruct (String.eqb z y); [now apply sublist_cons | now apply sublist_skip].
Qed.

Lemma filter_filter {A} (p q : A -> bool) (l : list A) :
  List.filter p (List.filter q l) = List.filter (fun x => q x && p x) l.
Proof.
  induction l as [|x l IH]; cbn; [reflexivity|].
  destruct (q x); cbn; [destruct (p x); cbn|]; now rewrite IH.
Qed.

Lemma spliceFirst_NoDup (y : string) (arr : list string) :
  NoDup arr -> spliceFirst y arr = List.filter (fun x => negb (String.eqb x y)) arr.
Proof.
  induction 1 as [|z arr Hz Hnd IH]; cbn; [reflexivity|].
  destruct (String.eqb_spec z y) as [->|Hzy]; cbn.
  - symmetry. apply filter_all_true. intros x Hx.
    destruct (String.eqb_spec x y) as [->|_]; [|reflexivity].
    exfalso. apply Hz. now apply list_elem_of_In.
  - now rewrite IH.
Qed.

(** X2. [removeA] keeps the order of [arr]: its result is [arr] with some
    elements left out. When no value occurs twice in [arr] it is the set
    difference: the elements of [arr] that are not among the arguments. *)
Theorem removeA_difference (arr args : list string) :
  sublist (removeA arr args) arr /\
  (NoDup arr ->
   removeA arr args = List.filter (fun x => negb (includes x args)) arr).
Proof.
  unfold removeA. revert arr. induction args as [|a args IH]; intros arr; cbn [fold_left].
  - split; [reflexivity|]. intros _. symmetry. now apply filter_all_true.
  - destruct (IH (spliceFirst a arr)) as [Hsub Heq]. split.
    + etransitivity; [exact Hsub | apply spliceFirst_sublist].
    + intros Hnd. rewrite Heq by (eapply sublist_NoDup; [exact Hnd | apply spliceFirst_sublist]).
      rewrite (spliceFirst_NoDup a arr Hnd), filter_filter.
      apply filter_ext. intros x. unfold includes. cbn.
      now destruct (String.eqb x a).
Qed.

Lemma removeA_difference_witness :
  NoDup ["/src/_p.scss"; "/src/_q.scss"; "/src/_r.scss"] /\
  removeA ["/src/_p.scss"; "/src/_q.scss"; "/src/_r.scss"] ["/src/_q.scss"; "/src/_x.scss"]
    = ["/src/_p.scss"; "/src/_r.scss"].
Proof.
  assert (Hnd : NoDup ["/src/_p.scss"; "/src/_q.scss"; "/src/_r.scss"]).
  { repeat (constructor; [intros H; apply list_elem_of_In in H; in_cases H; discriminate H|]).
    constructor. }
  split; [exact Hnd|].
  rewrite (proj2 (removeA_difference _ ["/src/_q.scss"; "/src/_x.scss"]) Hnd). reflexivity.
Defined.

(** ** [equalsIgnoreOrder] *)

(** X3. [equalsIgnoreOrder] is equality of multisets: it answers [true]
    exactly when one array is a rearrangement of the other. It is therefore
    symmetric, and arrays it accepts have the same members. *)
Theorem equalsIgnoreOrder_multiset (a b : list string) :
  (equalsIgnoreOrder a b = true <-> Permutation a b) /\
  equalsIgnoreOrder a b = equalsIgnoreOrder b a /\
  (equalsIgnoreOrder a b = true -> sameMembers a b).
Proof.
  split; [apply equalsIgnoreOrder_Permutation|]. split.
  - destruct (equalsIgnoreOrder a b) eqn:Eab, (equalsIgnoreOrder b a) eqn:Eba; try reflexivity.
    + apply equalsIgnoreOrder_Permutation in Eab. symmetry in Eab.
      apply equalsIgnoreOrder_Permutation in Eab. congruence.
    + apply equalsIgnoreOrder_Permutation in Eba. symmetry in Eba.
      apply equalsIgnoreOrder_Permutation in Eba. congruence.
  - intros H. apply Permutation_sameMembers, equalsIgnoreOrder_Permutation, H.
Qed.

(** ** The file that [identifyCommonImports] filters *)

Lemma sortByImports_first_smallest (files : list CompiledFile) :
  files <> [] ->
  exists before smallest after rest,
    files = (before ++ smallest :: after)%list /\
    sortByImports files = smallest :: rest /\
    (forall f, In f before -> length (imports smallest) < length (imports f)) /\
    (forall f, In f after -> length (imports smallest) <= length (imports f)).
Proof.
  induction files as [|f files IH]; [congruence|]. intros _.
  destruct files as [|g files].
  - exists [], f, [], []. cbn. repeat split; intros ? [].
  - destruct IH as (before & s & after & rest & Hsplit & Hsort & Hbefore & Hafter); [discriminate|].
    change (sortByImports (f :: g :: files)) with (insertByImports f (sortByImports (g :: files))).
    rewrite Hsort, Hsplit. cbn [insertByImports].
    destruct (Nat.leb_spec (length (imports f)) (length (imports s))) as [Hle|Hlt].
    + exists [], f, (before ++ s :: after)%list, (s :: rest). repeat split; [intros ? []|].
      intros h Hh. apply in_app_or in Hh as [Hh|[<-|Hh]].
      * apply Hbefore in Hh. lia.
      * exact Hle.
      * apply Hafter in Hh. lia.
    + exists (f :: before), s, after, (insertByImports f rest). repeat split.
      * intros h [<-|Hh]; [exact Hlt | now apply Hbefore].
      * exact Hafter.
Qed.

(** X4. For a non-empty array, [identifyCommonImports] filters the imports of
    the first file that has the fewest imports: every file before it has
    more imports, none after it has fewer. The result keeps the order, and
    the repetitions, of that file's imports. *)
Theorem identifyCommonImports_first_smallest (files : list CompiledFile) :
  files <> [] ->
  exists before smallest after,
    files = (before ++ smallest :: after)%list /\
    (forall f, In f before -> length (imports smallest) < length (imports f)) /\
    (forall f, In f after -> length (imports smallest) <= length (imports f)) /\
    identifyCommonImports files =
      Some (List.filter (fun i => isCommonImport i files) (imports smallest)).
Proof.
  intros Hne.
  destruct (sortByImports_first_smallest files Hne)
    as (before & s & after & rest & Hsplit & Hsort & Hbefore & Hafter).
  exists before, s, after. repeat split; try assumption.
  unfold identifyCommonImports. now rewrite Hsort.
Qed.

Lemma identifyCommonImports_first_smallest_witness :
  exists before smallest after,
    [mkCompiledFile ["/src/_p.scss"; "/src/_q.scss"; "/src/_r.scss"] "/src/a.scss" None None false;
     mkCompiledFile ["/src/_q.scss"; "/src/_p.scss"] "/src/b.scss" None None false;
     mkCompiledFile ["/src/_p.scss"; "/src/_q.scss"] "/src/c.scss" None None false]
      = (before ++ smallest :: after)%list /\
    (forall f, In f before -> length (imports smallest) < length (imports f)) /\
    (forall f, In f after -> length (imports smallest) <= length (imports f)).
Proof.
  destruct (identifyCommonImports_first_smallest
    [mkCompiledFile ["/src/_p.scss"; "/src/_q.scss"; "/src/_r.scss"] "/src/a.scss" None None false;
     mkCompiledFile ["/src/_q.scss"; "/src/_p.scss"] "/src/b.scss" None None false;
     mkCompiledFile ["/src/_p.scss"; "/src/_q.scss"] "/src/c.scss" None None false])
    as (before & s & after & Hsplit & Hbefore & Hafter & _); [discriminate|].
  exists before, s, after. repeat split; assumption.
Defined.

(** ** Common imports when the files change *)

(** X5. A file pushed on the array can only take common imports away, and it
    takes none away when it imports them all: this is the test of
    [onFileAdd]. *)
Theorem identifyCommonImports_push (files : list CompiledFile) (newFile : CompiledFile)
    (common common' : list string) :
  identifyCommonImports files = Some common ->
  identifyCommonImports (files ++ [newFile]) = Some common' ->
  incl common' common /\
  (incl common (imports newFile) -> sameMembers common' common).
Proof.
  intros Hc Hc'.
  pose proof (identifyCommonImports_In _ _ Hc) as Hin.
  pose proof (identifyCommonImports_In _ _ Hc') as Hin'.
  assert (Hless : incl common' common).
  { intros i Hi. apply Hin. intros f Hf. apply (proj1 (Hin' i) Hi).
    apply in_or_app. now left. }
  split; [exact Hless|].
  intros Hall i. split; [apply Hless|].
  intros Hi. apply Hin'. intros f Hf. apply in_app_or in Hf as [Hf|[<-|[]]].
  - now apply (proj1 (Hin i) Hi).
  - now apply Hall.
Qed.

Lemma identifyCommonImports_push_witness :
  sameMembers ["/src/_p.scss"] ["/src/_p.scss"].
Proof.
  apply (identifyCommonImports_push
           [mkCompiledFile ["/src/_p.scss"] "/src/a.scss" None None false]
           (mkCompiledFile ["/src/_q.scss"; "/src/_p.scss"] "/src/b.scss" None None false)
           ["/src/_p.scss"] ["/src/_p.scss"] eq_refl eq_refl).
  intros i Hi. in_cases Hi. subst i. cbn. auto.
Defined.

Lemma In_insert_inv (files : list CompiledFile) (idx : nat) (newFile g : CompiledFile) :
  In g (<[idx := newFile]> files) -> g = newFile \/ In g files.
Proof.
  revert idx. induction files as [|f files IH]; intros idx; [intros []|].
  destruct idx as [|idx]; cbn.
  - intros [<-|H]; auto.
  - intros [<-|H]; [auto|]. destruct (IH idx H); auto.
Qed.

Lemma In_insert_keep (files : list CompiledFile) (idx : nat) (oldFile newFile g : CompiledFile) :
  files !! idx = Some oldFile -> In g files ->
  g = oldFile \/ In g (<[idx := newFile]> files).
Proof.
  revert idx. induction files as [|f files IH]; intros idx; [intros _ []|].
  destruct idx as [|idx]; cbn.
  - intros [= ->] [<-|H]; auto.
  - intros Hl [<-|H]; [auto|]. destruct (IH idx Hl H); auto.
Qed.

Lemma In_insert_new (files : list CompiledFile) (idx : nat) (oldFile newFile : CompiledFile) :
  files !! idx = Some oldFile -> In newFile (<[idx := newFile]> files).
Proof.
  revert idx. induction files as [|f files IH]; intros idx; [discriminate|].
  destruct idx as [|idx]; cbn; [auto|]. intros Hl. right. now apply IH.
Qed.

(** X6. When a file of the array is replaced by one that imports nothing new
    and still imports every common import, the common imports keep their
    members: this is why [onFileChange] does not recompute them when no import
    was added and no common import was removed. *)
Theorem identifyCommonImports_replace (files : list CompiledFile) (idx : nat)
    (oldFile newFile : CompiledFile) (common common' : list string) :
  files !! idx = Some oldFile ->
  incl (imports newFile) (imports oldFile) ->
  (forall i, In i common -> In i (imports newFile)) ->
  identifyCommonImports files = Some common ->
  identifyCommonImports (<[idx := newFile]> files) = Some common' ->
  sameMembers common' common.
Proof.
  intros Hold Hsub Hkept Hc Hc' i.
  rewrite (identifyCommonImports_In _ _ Hc), (identifyCommonImports_In _ _ Hc').
  split.
  - intros Hall f Hf. destruct (In_insert_keep files idx oldFile newFile f Hold Hf) as [->|Hf'].
    + apply Hsub, Hall. eapply In_insert_new, Hold.
    + now apply Hall.
  - intros Hall f Hf. destruct (In_insert_inv files idx newFile f Hf) as [->|Hf'].
    + apply Hkept. apply (identifyCommonImports_In _ _ Hc). exact Hall.
    + now apply Hall.
Qed.

Lemma identifyCommonImports_replace_witness :
  sameMembers ["/src/_p.scss"] ["/src/_p.scss"].
Proof.
  apply (identifyCommonImports_replace
           [mkCompiledFile ["/src/_p.scss"; "/src/_q.scss"] "/src/a.scss" None None false;
            mkCompiledFile ["/src/_p.scss"] "/src/b.scss" None None false]
           0
           (mkCompiledFile ["/src/_p.scss"; "/src/_q.scss"] "/src/a.scss" None None false)
           (mkCompiledFile ["/src/_p.scss"] "/src/a.scss" None None false)
           ["/src/_p.scss"] ["/src/_p.scss"] eq_refl).
  - intros i Hi. in_cases Hi. subst i. cbn. auto.
  - intros i Hi. in_cases Hi. subst i. cbn. auto.
  - reflexivity.
  - reflexivity.
Defined.

(** ** Output paths *)

Lemma string_length_append (a b : string) :
  String.length (a ++ b) = (String.length a + String.length b)%nat.
Proof. induction a as [|c a IH]; simpl; [reflexivity | now rewrite IH]. Qed.

Lemma longer_not_extension (c : ascii) (stem ext : string) :
  String.length ext = 5 ->
  (String.eqb (String c (stem ++ ext)) ".scss" || String.eqb (String c (stem ++ ext)) ".sass")%bool
    = false.
Proof.
  intros Hext. apply orb_false_iff.
  split; apply String.eqb_neq; intros E; apply (f_equal String.length) in E;
    simpl in E; rewrite string_length_append in E; lia.
Qed.

Lemma replaceSassExt_cons (c : ascii) (s : string) :
  replaceSassExt (String c s) =
    if (String.eqb (String c s) ".scss" || String.eqb (String c s) ".sass")%bool then ".css"
    else String c (replaceSassExt s).
Proof. reflexivity. Qed.

(** X7. The rewriting of the extension: a name that ends in [.scss] or
    [.sass] has that ending replaced by [.css], whatever comes before it, and
    every other name is left as it is. *)
Theorem replaceSassExt_extension :
  (forall stem, replaceSassExt (stem ++ ".scss") = stem ++ ".css") /\
  (forall stem, replaceSassExt (stem ++ ".sass") = stem ++ ".css") /\
  (forall s, replaceSassExt s = s \/
     exists stem, (s = stem ++ ".scss" \/ s = stem ++ ".sass") /\
                  replaceSassExt s = stem ++ ".css").
Proof.
  split; [|split].
  - induction stem as [|c stem IH]; [reflexivity|].
    change (String c stem ++ ".scss") with (String c (stem ++ ".scss")).
    rewrite replaceSassExt_cons, longer_not_extension by reflexivity. now rewrite IH.
  - induction stem as [|c stem IH]; [reflexivity|].
    change (String c stem ++ ".sass") with (String c (stem ++ ".sass")).
    rewrite replaceSassExt_cons, longer_not_extension by reflexivity. now rewrite IH.
  - induction s as [|c s IH]; [now left|].
    rewrite replaceSassExt_cons.
    destruct (String.eqb_spec (String c s) ".scss") as [E|_].
    { right. exists EmptyString. rewrite E. split; [now left | reflexivity]. }
    destruct (String.eqb_spec (String c s) ".sass") as [E|_].
    { right. exists EmptyString. rewrite E. split; [now right | reflexivity]. }
    cbn [orb]. destruct IH as [IH|(stem & Hs & IH)].
    + left. now rewrite IH.
    + right. exists (String c stem). rewrite IH. split; [|reflexivity].
      destruct Hs as [->| ->]; [now left | now right].
Qed.

Lemma replaceFirst_prefix (pat rep s : string) :
  replaceFirst pat rep (pat ++ s) = rep ++ s.
Proof.
  assert (Hall : forall b, String.substring 0 (String.length b) b = b).
  { induction b as [|d b IHb]; simpl; [reflexivity | now rewrite IHb]. }
  assert (Hsub : forall a b, String.substring (String.length a) (String.length b) (a ++ b) = b).
  { induction a as [|c a IHa]; intros b; simpl; [apply Hall | apply IHa]. }
  assert (Hrun : replaceFirst pat rep (pat ++ s) =
                 rep ++ String.substring (String.length pat)
                          (String.length (pat ++ s) - String.length pat) (pat ++ s)).
  { assert (Hunfold : forall t, replaceFirst pat rep t =
      if String.prefix pat t
      then rep ++ String.substring (String.length pat) (String.length t - String.length pat) t
      else match t with
           | EmptyString => EmptyString
           | String c t' => String c (replaceFirst pat rep t')
           end) by (intros t; destruct t; reflexivity).
    now rewrite Hunfold, prefix_append. }
  rewrite Hrun, string_length_append.
  replace (String.length pat + String.length s - String.length pat)%nat
    with (String.length s) by lia.
  now rewrite Hsub.
Qed.

(** X8. The output tree mirrors the source tree: when [path.resolve] leaves
    the source directory and the file path as they are (they are absolute and
    normalised) and the file lies below the source directory, the output path
    is the output directory joined with the rest of the path, extension
    rewritten. *)
Theorem absoluteCssPath_mirrors (path : PathLib) (cfg : Config) (rest : string) :
  path_resolve path (sassDir cfg) = sassDir cfg ->
  path_resolve path (sassDir cfg ++ rest) = sassDir cfg ++ rest ->
  absoluteCssPath path cfg (sassDir cfg ++ rest) =
    path_join path (outDir cfg) (replaceSassExt rest).
Proof.
  intros Hdir Hfile. unfold absoluteCssPath, relativePath.
  now rewrite Hdir, Hfile, replaceFirst_prefix.
Qed.

Lemma absoluteCssPath_mirrors_witness :
  absoluteCssPath Toy.posix Toy.cfg (sassDir Toy.cfg ++ "/pages/c.scss") = "/out/pages/c.css".
Proof.
  rewrite (absoluteCssPath_mirrors Toy.posix Toy.cfg "/pages/c.scss" eq_refl eq_refl).
  reflexivity.
Defined.

(** ** The imports that a compilation records *)

Lemma prefix_split (p s : string) :
  String.prefix p s = true -> s = p ++ substringFrom (String.length p) s.
Proof.
  revert s. induction p as [|c p IH]; intros s.
  - intros _. now destruct s.
  - destruct s as [|d s]; simpl; [discriminate|].
    destruct (ascii_dec c d) as [->|_]; [|discriminate].
    intros H. change (String d s = String d (p ++ substringFrom (String.length p) s)).
    f_equal. now apply IH.
Qed.

Lemma omap_sassImporter (path : PathLib) (cfg : Config) (urls : list string) :
  omap (sassImporter path cfg) urls =
    map (fun url => path_resolve_from path (sassDir cfg) ("." ++ substringFrom 8 url))
        (List.filter (startsWith "!bundler") urls).
Proof.
  induction urls as [|url urls IH]; [reflexivity|].
  cbn [omap list_omap List.filter]. unfold sassImporter at 1.
  destruct (startsWith "!bundler" url) eqn:E; [|exact IH].
  cbn [map]. rewrite <- IH. f_equal. f_equal.
  rewrite (prefix_split "!bundler" url E) at 1. apply replaceFirst_prefix.
Qed.

(** X9. Whether the compilation succeeds or fails, the imports of the file
    that [compileSingle] returns are the URLs handed to the importer that carry
    the marker, in order and with repetitions, each resolved against the
    source directory with the marker replaced by a dot; the other URLs are
    not recorded. *)
Theorem compileSingle_imports (sass : Sass) (path : PathLib) (filePath0 : string) (st : State) :
  exists compiled,
    fst (compileSingle sass path filePath0 st) = Normal compiled /\
    filePath compiled = filePath0 /\
    imports compiled =
      map (fun url => path_resolve_from path (sassDir (config (this st)))
                        ("." ++ substringFrom 8 url))
          (List.filter (startsWith "!bundler")
             (fst (renderWithImporter sass (disk (proc st)) filePath0))).
Proof.
  destruct (renderWithImporter sass (disk (proc st)) filePath0) as [urls [msg|css]] eqn:E.
  - rewrite (compileSingle_failed _ _ _ _ _ _ E). eexists. split; [reflexivity|].
    split; [reflexivity|]. apply omap_sassImporter.
  - rewrite (compileSingle_ok _ _ _ _ _ _ E). eexists. split; [reflexivity|].
    split; [reflexivity|]. apply omap_sassImporter.
Qed.

(** ** The earlier [removeA] *)

Lemma spliceFirst_absent (what : string) (arr : list string) :
  includes what arr = false -> List.filter (fun x => negb (String.eqb x what)) arr = arr.
Proof.
  intros H. apply filter_all_true. intros x Hx.
  destruct (String.eqb_spec x what) as [->|_]; [|reflexivity].
  apply includes_false in H. contradiction.
Qed.

Lemma filter_spliceFirst (what : string) (arr : list string) :
  List.filter (fun x => negb (String.eqb x what)) (spliceFirst what arr)
    = List.filter (fun x => negb (String.eqb x what)) arr.
Proof.
  induction arr as [|z arr IH]; [reflexivity|].
  cbn [spliceFirst]. destruct (String.eqb z what) eqn:E; cbn; rewrite E; cbn.
  - reflexivity.
  - now rewrite IH.
Qed.

Lemma length_spliceFirst (what : string) (arr : list string) :
  includes what arr = true -> S (length (spliceFirst what arr)) = length arr.
Proof.
  induction arr as [|z arr IH]; [discriminate|].
  unfold includes. cbn. rewrite String.eqb_sym.
  destruct (String.eqb z what); cbn; [reflexivity|].
  intros H. now rewrite IH.
Qed.

Lemma spliceWhile_filter (fuel : nat) (what : string) (arr : list string) :
  length arr <= fuel ->
  spliceWhile fuel what arr = List.filter (fun x => negb (String.eqb x what)) arr.
Proof.
  revert arr. induction fuel as [|fuel IH]; intros arr Hlen.
  - destruct arr; [reflexivity | cbn in Hlen; lia].
  - cbn [spliceWhile]. destruct (includes what arr) eqn:E.
    + rewrite IH, filter_spliceFirst; [reflexivity|].
      apply length_spliceFirst in E. lia.
    + symmetry. now apply spliceFirst_absent.
Qed.

Lemma removeA_v1_loop_filter (whats arr : list string) :
  removeA_v1_loop whats arr = List.filter (fun x => negb (includes x whats)) arr.
Proof.
  revert arr. induction whats as [|what whats IH]; intros arr.
  - cbn. symmetry. now apply filter_all_true.
  - destruct arr as [|z arr]; [reflexivity|].
    cbn [removeA_v1_loop]. rewrite IH, spliceWhile_filter, filter_filter by reflexivity.
    apply filter_ext. intros x. unfold includes. cbn.
    destruct (String.eqb x what); reflexivity.
Qed.

(** X10. The earlier [removeA] never removes its first argument: its result is
    [arr] without every occurrence of the second and later arguments, and the
    occurrences of the first argument stay unless it is also passed again. *)
Theorem removeA_v1_skips_first (arr args : list string) :
  removeA_v1 arr args = List.filter (fun x => negb (includes x (tl args))) arr /\
  (forall first rest, args = first :: rest -> ~ In first rest ->
     countEq first (removeA_v1 arr args) = countEq first arr).
Proof.
  assert (Hrun : removeA_v1 arr args = List.filter (fun x => negb (includes x (tl args))) arr).
  { unfold removeA_v1. rewrite removeA_v1_loop_filter. apply filter_ext. intros x.
    f_equal. apply eq_true_iff_eq. rewrite !includes_In. symmetry. apply in_rev. }
  split; [exact Hrun|].
  intros first rest -> Hnot. rewrite Hrun. cbn [tl]. unfold countEq.
  rewrite filter_filter. f_equal. apply filter_ext. intros x.
  destruct (String.eqb_spec first x) as [<-|_]; [|now rewrite andb_false_r].
  apply includes_false in Hnot. now rewrite Hnot.
Qed.

Lemma removeA_v1_skips_first_witness :
  countEq "./_p.scss" (removeA_v1 ["./_p.scss"; "./_q.scss"] ["./_p.scss"; "./_q.scss"]) = 1.
Proof.
  rewrite (proj2 (removeA_v1_skips_first ["./_p.scss"; "./_q.scss"] ["./_p.scss"; "./_q.scss"])
             "./_p.scss" ["./_q.scss"] eq_refl).
  - reflexivity.
  - intros H. in_cases H. discriminate H.
Defined.

(** ** The arguments of the command line *)

Lemma parseArgs_options (kvs : list (string * string)) (rest : list string)
    (mainCmd : string) (cmdArgs : gmap string (option string)) :
  parseArgs (optionArgs kvs ++ rest) mainCmd cmdArgs =
    parseArgs rest mainCmd (optionValues kvs cmdArgs).
Proof.
  revert cmdArgs. induction kvs as [|[k v] kvs IH]; intros cmdArgs; [reflexivity|].
  cbn [optionArgs flat_map app fst snd parseArgs].
  assert (Hdash : startsWith "--" ("--" ++ k) = true) by (simpl; now destruct k).
  rewrite Hdash. apply (IH (setProperty k (Some v) cmdArgs)).
Qed.

Lemma setProperty_other (k k' : string) (v : option string)
    (cmdArgs : gmap string (option string)) :
  k <> k' -> setProperty k' v cmdArgs !! k = cmdArgs !! k.
Proof.
  intros Hk. unfold setProperty. destruct (String.eqb k' "__proto__"); [reflexivity|].
  apply lookup_insert_ne. congruence.
Qed.

Lemma setProperty_proto (k : string) (v : option string)
    (cmdArgs : gmap string (option string)) :
  setProperty k v cmdArgs !! "__proto__" = cmdArgs !! "__proto__".
Proof.
  unfold setProperty. destruct (String.eqb k "__proto__") eqn:E; [reflexivity|].
  apply lookup_insert_ne. intros ->. discriminate E.
Qed.

Lemma optionValues_other (kvs : list (string * string)) (k : string)
    (cmdArgs : gmap string (option string)) :
  ~ In k (map fst kvs) -> optionValues kvs cmdArgs !! k = cmdArgs !! k.
Proof.
  revert cmdArgs. induction kvs as [|[k' v'] kvs IH]; intros cmdArgs Hk; [reflexivity|].
  cbn in Hk. cbn [optionValues fold_left fst snd].
  change (optionValues kvs (setProperty k' (Some v') cmdArgs) !! k = cmdArgs !! k).
  rewrite IH by tauto. apply setProperty_other. intros ->. apply Hk. now left.
Qed.

Lemma optionValues_proto (kvs : list (string * string))
    (cmdArgs : gmap string (option string)) :
  optionValues kvs cmdArgs !! "__proto__" = cmdArgs !! "__proto__".
Proof.
  revert cmdArgs. induction kvs as [|[k v] kvs IH]; intros cmdArgs; [reflexivity|].
  cbn [optionValues fold_left fst snd].
  change (optionValues kvs (setProperty k (Some v) cmdArgs) !! "__proto__"
          = cmdArgs !! "__proto__").
  rewrite IH. apply setProperty_proto.
Qed.

(** X11. The script reads its arguments in one pass: options may stand before
    and after the command, the command is the argument that is not an option
    or the value of one, and when an option is given more than once its
    last value is the one kept. The value of an option is the next argument
    as it is, and an option that ends the line has the value [undefined]. The
    options are the own properties of a plain object: the option [--__proto__]
    stores nothing. *)
Theorem parseArgs_one_pass (before after : list (string * string)) (cmd : string) :
  startsWith "--" cmd = false ->
  parseArgs (optionArgs before ++ cmd :: optionArgs after) "" ∅ =
    (cmd, optionValues (before ++ after) ∅) /\
  (forall k v earlier later,
     k <> "__proto__" ->
     (before ++ after)%list = (earlier ++ (k, v) :: later)%list ->
     ~ In k (map fst later) ->
     optionValues (before ++ after) ∅ !! k = Some (Some v)) /\
  optionValues (before ++ after) ∅ !! "__proto__" = None /\
  (forall k, ~ In k (map fst (before ++ after)) ->
     optionValues (before ++ after) ∅ !! k = None) /\
  (forall k,
     parseArgs (optionArgs before ++ cmd :: optionArgs after ++ ["--" ++ k]) "" ∅ =
       (cmd, setProperty k None (optionValues (before ++ after) ∅))).
Proof.
  intros Hcmd. split; [|split; [|split; [|split]]].
  - rewrite parseArgs_options. cbn [parseArgs]. rewrite Hcmd.
    rewrite <- (app_nil_r (optionArgs after)), parseArgs_options.
    unfold optionValues. now rewrite fold_left_app.
  - intros k v earlier later Hk -> Hlast. unfold optionValues.
    rewrite fold_left_app. cbn [fold_left fst snd].
    change (optionValues later (setProperty k (Some v) (fold_left
              (fun acc kv => setProperty (fst kv) (Some (snd kv)) acc) earlier ∅)) !! k
            = Some (Some v)).
    rewrite optionValues_other by exact Hlast. unfold setProperty.
    destruct (String.eqb k "__proto__") eqn:E.
    + apply String.eqb_eq in E. contradiction.
    + apply lookup_insert_eq.
  - rewrite optionValues_proto. apply lookup_empty.
  - intros k Hk. rewrite optionValues_other by exact Hk. apply lookup_empty.
  - intros k. rewrite parseArgs_options. cbn [parseArgs]. rewrite Hcmd.
    rewrite parseArgs_options. cbn [parseArgs].
    assert (Hdash : startsWith "--" ("--" ++ k) = true) by (simpl; now destruct k).
    rewrite Hdash. unfold optionValues. now rewrite fold_left_app.
Qed.

Lemma parseArgs_one_pass_witness :
  parseArgs ["--verbose"; "true"; "--__proto__"; "x"; "watch";
             "--config"; "a.js"; "--config"; "--b.js"] "" ∅
    = ("watch", <["config" := Some "--b.js"]> (<["config" := Some "a.js"]>
                  (<["verbose" := Some "true"]> ∅))).
Proof.
  exact (proj1 (parseArgs_one_pass [("verbose", "true"); ("__proto__", "x")]
                  [("config", "a.js"); ("config", "--b.js")] "watch" eq_refl)).
Defined.

(** ** What the bundling writes *)

Section Writing.

Variable sass : Sass.
Variable path : PathLib.

Lemma string_append_assoc (a b c : string) : (a ++ b) ++ c = a ++ (b ++ c).
Proof.
  induction a as [|x a IH]; [reflexivity|].
  change (String x ((a ++ b) ++ c) = String x (a ++ (b ++ c))). now rewrite IH.
Qed.

Lemma string_append_nil_r (a : string) : a ++ "" = a.
Proof.
  induction a as [|x a IH]; [reflexivity|].
  change (String x (a ++ "") = String x a). now rewrite IH.
Qed.

Lemma appendTo_appendTo (out a b : string) (d : gmap string string) :
  appendTo out b (appendTo out a d) = appendTo out (a ++ b) d.
Proof.
  unfold appendTo. rewrite lookup_insert_eq, insert_insert_eq. f_equal.
  cbv [default from_option id]. apply string_append_assoc.
Qed.

Lemma appendTo_other (out text p : string) (d : gmap string string) :
  p <> out -> appendTo out text d !! p = d !! p.
Proof. intros H. unfold appendTo. now apply lookup_insert_ne. Qed.

Lemma pipePromise_run (text out : string) (st : State) :
  pipePromise (Some text) (Some out) st =
    (Normal tt, with_proc (with_disk (appendTo out text)) st).
Proof. reflexivity. Qed.


Lemma bundleSingle_run (file : CompiledFile) (common : list string) :
  bundleSingle sass file common =
    (pipeImports sass (writeStream file) (removeA (imports file) common) ;;;
     pipePromise (readStream file) (writeStream file) ;;;
     let* st := get in
     when (verbose (config (this st))) (console_log (filePath file))).
Proof. reflexivity. Qed.

Lemma rendersTo_appendTo (d : gmap string string) (out text file css : string) :
  rendersTo sass d out file css -> rendersTo sass (appendTo out text d) out file css.
Proof.
  intros H d' Hd'. apply H. intros p Hp. rewrite Hd' by exact Hp. now apply appendTo_other.
Qed.

Lemma failsWith_appendTo (d : gmap string string) (out text file msg : string) :
  failsWith sass d out file msg -> failsWith sass (appendTo out text d) out file msg.
Proof.
  intros H d' Hd'. apply H. intros p Hp. rewrite Hd' by exact Hp. now apply appendTo_other.
Qed.

Lemma pipeImports_cons (out i : string) (l : list string) (css : string) (st : State) {A}
    (k : M A) :
  rendersTo sass (disk (proc st)) out i css ->
  (pipeImports sass (Some out) (i :: l) ;;; k) st =
    (pipeImports sass (Some out) l ;;; k) (with_proc (with_disk (appendTo out css)) st).
Proof.
  intros Hi. unfold pipeImports. cbn [forEach]. unfold bind at 1 2 3, get.
  rewrite (Hi (disk (proc st))) by reflexivity. rewrite pipePromise_run. reflexivity.
Qed.

Lemma pipeImports_then (out : string) (cssOf : string -> string) (text : string)
    (l : list string) {A} (k : M A) (st : State) :
  (forall i, In i l -> rendersTo sass (disk (proc st)) out i (cssOf i)) ->
  (pipeImports sass (Some out) l ;;; pipePromise (Some text) (Some out) ;;; k) st =
    k (with_proc (with_disk (appendTo out (concatAll (map cssOf l) ++ text))) st).
Proof.
  revert st. induction l as [|i l IH]; intros st Hl.
  - reflexivity.
  - rewrite (pipeImports_cons out i l (cssOf i)) by (apply Hl; now left).
    rewrite IH.
    + f_equal. unfold with_proc, with_disk. cbn. rewrite appendTo_appendTo.
      cbn [map concatAll fold_right]. now rewrite string_append_assoc.
    + intros j Hj. cbn. apply rendersTo_appendTo, Hl. now right.
Qed.

(** X12. Bundling correctness. When the imports of [file] that are left
    once the common ones are removed all compile, [bundleSingle] appends to the
    output file their CSS, in the order of [file.imports], followed by the CSS
    of the file itself; it changes nothing else, but for the line it prints
    when [verbose] is set. *)
Theorem bundleSingle_output (file : CompiledFile) (common : list string)
    (out body : string) (cssOf : string -> string) (st : State) :
  writeStream file = Some out ->
  readStream file = Some body ->
  (forall i, In i (removeA (imports file) common) ->
     rendersTo sass (disk (proc st)) out i (cssOf i)) ->
  bundleSingle sass file common st =
    (Normal tt,
     let written :=
       with_proc (with_disk (appendTo out
         (concatAll (map cssOf (removeA (imports file) common)) ++ body))) st in
     if verbose (config (this st))
     then with_proc (print (ConsoleLog (filePath file))) written
     else written).
Proof.
  intros Hout Hbody Hl. rewrite bundleSingle_run, Hout, Hbody.
  rewrite (pipeImports_then out cssOf body) by exact Hl.
  unfold bind, get. cbn. now destruct (verbose (config (this st))).
Qed.

Lemma pipeImports_fails (out : string) (cssOf : string -> string) (msg bad : string)
    (pre post : list string) {A} (k : M A) (st : State) :
  (forall i, In i pre -> rendersTo sass (disk (proc st)) out i (cssOf i)) ->
  failsWith sass (disk (proc st)) out bad msg ->
  (pipeImports sass (Some out) (pre ++ bad :: post) ;;; k) st =
    (Throw msg,
     match pre with
     | [] => st
     | _ :: _ => with_proc (with_disk (appendTo out (concatAll (map cssOf pre)))) st
     end).
Proof.
  revert st. induction pre as [|i pre IH]; intros st Hpre Hbad.
  - unfold pipeImports. cbn [app forEach]. unfold bind at 1 2 3, get.
    now rewrite (Hbad (disk (proc st))) by reflexivity.
  - cbn [app]. rewrite (pipeImports_cons out i _ (cssOf i)) by (apply Hpre; now left).
    rewrite IH.
    + f_equal. destruct pre as [|j pre].
      * cbn [map concatAll fold_right]. now rewrite string_append_nil_r.
      * unfold with_proc, with_disk. cbn. now rewrite appendTo_appendTo.
    + intros j Hj. cbn. apply rendersTo_appendTo, Hpre. now right.
    + cbn. now apply failsWith_appendTo.
Qed.

(** X13. When one of the imports that are left fails to compile,
    [bundleSingle] throws the message of the compiler: the CSS of the imports
    before it has been appended to the output file, and the CSS of the file
    itself is not written. *)
Theorem bundleSingle_import_failure (file : CompiledFile) (common : list string)
    (out msg bad : string) (pre post : list string) (cssOf : string -> string) (st : State) :
  writeStream file = Some out ->
  removeA (imports file) common = (pre ++ bad :: post)%list ->
  (forall i, In i pre -> rendersTo sass (disk (proc st)) out i (cssOf i)) ->
  failsWith sass (disk (proc st)) out bad msg ->
  bundleSingle sass file common st =
    (Throw msg,
     match pre with
     | [] => st
     | _ :: _ => with_proc (with_disk (appendTo out (concatAll (map cssOf pre)))) st
     end).
Proof.
  intros Hout Hsplit Hpre Hbad. rewrite bundleSingle_run, Hout, Hsplit.
  now apply pipeImports_fails.
Qed.

(** ** What [writeCommon] writes *)

Lemma overwritten_agrees (d : gmap string string) (out text : string) :
  forall p, p <> out -> <[out := text]> d !! p = d !! p.
Proof. intros p Hp. now apply lookup_insert_ne. Qed.

Lemma writeCommonEach_cons (out text css i : string) (rest : list string) (st : State) :
  rendersTo sass (disk (proc st)) out i css ->
  writeCommonEach sass out (i :: rest)
      (with_proc (with_disk (fun d => <[out := text]> d)) st) =
    writeCommonEach sass out rest
      (with_proc (with_disk (fun d => <[out := text ++ css]> d)) st).
Proof.
  intros Hi. cbn [writeCommonEach]. unfold bind at 1, get. cbn [proc disk with_proc with_disk].
  rewrite (Hi _ (overwritten_agrees _ out text)).
  unfold bind. rewrite pipePromise_run. f_equal.
  unfold with_proc, with_disk, appendTo. cbn.
  now rewrite lookup_insert_eq, insert_insert_eq.
Qed.

Lemma writeCommonEach_ok (out : string) (cssOf : string -> string) (l : list string)
    (text : string) (st : State) :
  (forall i, In i l -> rendersTo sass (disk (proc st)) out i (cssOf i)) ->
  writeCommonEach sass out l (with_proc (with_disk (fun d => <[out := text]> d)) st) =
    (Normal true,
     with_proc (with_disk (fun d => <[out := text ++ concatAll (map cssOf l)]> d)) st).
Proof.
  revert text. induction l as [|i l IH]; intros text Hl.
  - cbn [map concatAll fold_right]. now rewrite string_append_nil_r.
  - rewrite (writeCommonEach_cons out text (cssOf i)) by (apply Hl; now left).
    rewrite IH by (intros j Hj; apply Hl; now right).
    cbn [map concatAll fold_right]. now rewrite string_append_assoc.
Qed.

Lemma writeCommonEach_fails (out : string) (cssOf : string -> string) (msg bad : string)
    (pre post : list string) (text : string) (st : State) :
  (forall i, In i pre -> rendersTo sass (disk (proc st)) out i (cssOf i)) ->
  failsWith sass (disk (proc st)) out bad msg ->
  writeCommonEach sass out (pre ++ bad :: post)
      (with_proc (with_disk (fun d => <[out := text]> d)) st) =
    (Normal false,
     with_this (set_compilationError true)
       (with_proc (print (ConsoleError msg))
          (with_proc (with_disk (fun d => <[out := text ++ concatAll (map cssOf pre)]> d)) st))).
Proof.
  revert text. induction pre as [|i pre IH]; intros text Hpre Hbad.
  - cbn [app writeCommonEach]. unfold bind at 1, get. cbn [proc disk with_proc with_disk].
    rewrite (Hbad _ (overwritten_agrees _ out text)).
    cbn [map concatAll fold_right]. now rewrite string_append_nil_r.
  - cbn [app]. rewrite (writeCommonEach_cons out text (cssOf i)) by (apply Hpre; now left).
    rewrite IH by (try (intros j Hj; apply Hpre; now right); exact Hbad).
    cbn [map concatAll fold_right]. now rewrite string_append_assoc.
Qed.

Lemma writeCommon_run (common : list string) (st : State) :
  writeCommon sass path common st =
    (let* completed := writeCommonEach sass (sharedPath (config (this st))) common in
     when completed
       (when (verbose (config (this st)))
          (console_log (path_basename path (sharedPath (config (this st)))))))
      (with_proc (with_disk (fun d => <[sharedPath (config (this st)) := ""]> d)) st).
Proof. reflexivity. Qed.

(** X14. When every common import compiles, [writeCommon] leaves in the shared
    file the CSS of the common imports, in their order, and nothing of what
    the file held before; it changes nothing else, but for the line it prints
    when [verbose] is set. *)
Theorem writeCommon_output (common : list string) (cssOf : string -> string) (st : State) :
  (forall i, In i common ->
     rendersTo sass (disk (proc st)) (sharedPath (config (this st))) i (cssOf i)) ->
  writeCommon sass path common st =
    (Normal tt,
     let written :=
       with_proc (with_disk (fun d =>
         <[sharedPath (config (this st)) := concatAll (map cssOf common)]> d)) st in
     if verbose (config (this st))
     then with_proc (print (ConsoleLog (path_basename path (sharedPath (config (this st))))))
            written
     else written).
Proof.
  intros Hl. rewrite writeCommon_run. unfold bind.
  rewrite (writeCommonEach_ok _ cssOf) by exact Hl.
  cbn. now destruct (verbose (config (this st))).
Qed.

(** X15. [writeCommon] does not throw. When a common import fails to compile
    it prints the message of the compiler, sets the error flag and returns:
    the shared file holds the CSS of the common imports before the failing
    one, and the ones after it are not compiled. *)
Theorem writeCommon_failure (common pre post : list string) (bad msg : string)
    (cssOf : string -> string) (st : State) :
  common = (pre ++ bad :: post)%list ->
  (forall i, In i pre ->
     rendersTo sass (disk (proc st)) (sharedPath (config (this st))) i (cssOf i)) ->
  failsWith sass (disk (proc st)) (sharedPath (config (this st))) bad msg ->
  writeCommon sass path common st =
    (Normal tt,
     with_this (set_compilationError true)
       (with_proc (print (ConsoleError msg))
          (with_proc (with_disk (fun d =>
             <[sharedPath (config (this st)) := concatAll (map cssOf pre)]> d)) st))).
Proof.
  intros -> Hpre Hbad. rewrite writeCommon_run. unfold bind.
  rewrite (writeCommonEach_fails _ cssOf msg) by assumption.
  reflexivity.
Qed.

End Writing.

(** The toy compiler reads the file it compiles and nothing else. *)
Lemma toy_rendersTo (d : gmap string string) (out file css : string) :
  file <> out -> render Toy.sass d file = SassOk css -> rendersTo Toy.sass d out file css.
Proof.
  intros Hne H d' Hd'. rewrite <- H. cbn [render Toy.sass]. now rewrite (Hd' file Hne).
Qed.

Lemma toy_failsWith (d : gmap string string) (out file msg : string) :
  file <> out -> render Toy.sass d file = SassError msg -> failsWith Toy.sass d out file msg.
Proof.
  intros Hne H d' Hd'. rewrite <- H. cbn [render Toy.sass]. now rewrite (Hd' file Hne).
Qed.

Lemma bundleSingle_output_witness :
  disk (proc (snd (bundleSingle Toy.sass
      (mkCompiledFile ["/src/_p.scss"; "/src/_q.scss"] "/src/a.scss"
         (Some "#a{color:red}") (Some "/out/a.css") false)
      ["/src/_p.scss"] (Toy.start Toy.usesQ)))) !! "/out/a.css"
    = Some "em{color:blue}#a{color:red}".
Proof.
  rewrite (bundleSingle_output Toy.sass
             (mkCompiledFile ["/src/_p.scss"; "/src/_q.scss"] "/src/a.scss"
                (Some "#a{color:red}") (Some "/out/a.css") false)
             ["/src/_p.scss"] "/out/a.css" "#a{color:red}" (fun _ => "em{color:blue}")
             (Toy.start Toy.usesQ) eq_refl eq_refl).
  - by_eval.
  - intros i Hi. vm_compute in Hi. in_cases Hi. subst i.
    apply toy_rendersTo; [discriminate | by_eval].
Defined.

Lemma bundleSingle_import_failure_witness :
  fst (bundleSingle Toy.sass
      (mkCompiledFile ["/src/_p.scss"; "/src/_q.scss"; "/src/_x.scss"] "/src/a.scss"
         (Some "#a{color:red}") (Some "/out/a.css") false)
      ["/src/_p.scss"] (Toy.start Toy.usesQ))
    = Throw "no such file".
Proof.
  rewrite (bundleSingle_import_failure Toy.sass
             (mkCompiledFile ["/src/_p.scss"; "/src/_q.scss"; "/src/_x.scss"] "/src/a.scss"
                (Some "#a{color:red}") (Some "/out/a.css") false)
             ["/src/_p.scss"] "/out/a.css" "no such file" "/src/_x.scss"
             ["/src/_q.scss"] [] (fun _ => "em{color:blue}")
             (Toy.start Toy.usesQ) eq_refl eq_refl).
  - reflexivity.
  - intros i Hi. in_cases Hi. subst i. apply toy_rendersTo; [discriminate | by_eval].
  - apply toy_failsWith; [discriminate | by_eval].
Defined.

Lemma writeCommon_output_witness :
  disk (proc (snd (writeCommon Toy.sass Toy.posix ["/src/_p.scss"; "/src/_q.scss"]
                     (Toy.start Toy.usesQ)))) !! "/out/shared.css"
    = Some "span{font-weight:bold}em{color:blue}".
Proof.
  rewrite (writeCommon_output Toy.sass Toy.posix ["/src/_p.scss"; "/src/_q.scss"]
             (fun i => if String.eqb i "/src/_p.scss" then "span{font-weight:bold}"
                       else "em{color:blue}")
             (Toy.start Toy.usesQ)).
  - by_eval.
  - intros i Hi. in_cases Hi; subst i; (apply toy_rendersTo; [discriminate | by_eval]).
Defined.

Lemma writeCommon_failure_witness :
  compilationError (this (snd (writeCommon Toy.sass Toy.posix
      ["/src/_p.scss"; "/src/_x.scss"; "/src/_q.scss"] (Toy.start Toy.usesQ)))) = true.
Proof.
  rewrite (writeCommon_failure Toy.sass Toy.posix
             ["/src/_p.scss"; "/src/_x.scss"; "/src/_q.scss"]
             ["/src/_p.scss"] ["/src/_q.scss"] "/src/_x.scss" "no such file"
             (fun _ => "span{font-weight:bold}") (Toy.start Toy.usesQ) eq_refl).
  - reflexivity.
  - intros i Hi. in_cases Hi. subst i. apply toy_rendersTo; [discriminate | by_eval].
  - apply toy_failsWith; [discriminate | by_eval].
Defined.

(** ** Full builds *)

Section Machine.

Variable sass : Sass.
Variable path : PathLib.

Ltac keeps refl trans base :=
  repeat first
    [ base
    | apply (preserves_bind _ trans); [| intros ?]
    | apply (preserves_forEach _ refl trans); intros ?
    | apply (preserves_when _ refl)
    | apply (preserves_get _ refl)
    | apply (preserves_ret _ refl)
    | apply (preserves_throw _ refl)
    | match goal with |- preserves _ (match ?x with _ => _ end) => destruct x end
    | match goal with |- preserves _ (if ?x then _ else _) => destruct x end ].

Lemma compileEach_partials (dirPath : string) (listing : list string) (st : State) :
  (forall name, In name listing -> startsWith "_" name = true) ->
  compileEach sass path dirPath listing st = (Normal [], st).
Proof.
  induction listing as [|name rest IH]; intros Hall; [reflexivity|].
  cbn [compileEach]. rewrite (Hall name) by now left.
  apply IH. intros n Hn. apply Hall. now right.
Qed.

(** X16. A full build of a source directory in which no name is an entry
    (it is empty, or holds partials only) throws a TypeError: the output
    directory has been emptied, nothing else is done and nothing is persisted. *)
Theorem buildAll_without_entries (persist : bool) (st : State) :
  compilationError (this st) = false ->
  (forall name,
     In name (readdirSync (sassDir (config (this st))) (disk (proc (cleaned st)))) ->
     startsWith "_" name = true) ->
  buildAll sass path persist st = (Throw "TypeError", cleaned st).
Proof.
  intros Herr Hall. unfold buildAll. unfold bind at 1.
  rewrite buildAll_compile_run. unfold bind at 1. rewrite compileDir_run.
  rewrite compileEach_partials by exact Hall.
  unfold bind, get. cbn. rewrite Herr. reflexivity.
Qed.

(** X17. The error flag is sticky for [buildAll]: a build that starts while
    the flag is set compiles the entries and then returns, without bundling
    anything and without persisting anything, even when every entry
    compiles; the flag is still set afterwards. *)
Theorem buildAll_with_error_pending (persist : bool) (st : State) :
  compilationError (this st) = true ->
  exists st',
    buildAll sass path persist st = (Normal tt, st') /\
    compilationError (this st') = true /\
    compiledOnly (cleaned st) st'.
Proof.
  intros Herr.
  pose proof (compileEach_compiledOnly sass path (sassDir (config (this st)))
                (readdirSync (sassDir (config (this st))) (disk (proc (cleaned st))))
                (cleaned st)) as Hquiet.
  destruct (compileEach_normal sass path (sassDir (config (this st)))
                (readdirSync (sassDir (config (this st))) (disk (proc (cleaned st))))
                (cleaned st)) as (files & Hfiles & _).
  unfold buildAll. unfold bind at 1. rewrite buildAll_compile_run.
  unfold bind at 1. rewrite compileDir_run.
  destruct (compileEach sass path _ _ (cleaned st)) as [c st2]. cbn in Hfiles, Hquiet. subst c.
  assert (Hflag : compilationError (this st2) = true).
  { destruct Hquiet as (_ & _ & _ & Hmono & _). apply Hmono. exact Herr. }
  unfold bind, get. cbn. rewrite Hflag. cbn.
  exists st2. repeat split; try assumption; apply Hquiet.
Qed.

(** X18. After a persisting full build that completes without error, the
    persisted files are the compilations of the entries of the listing, none
    of them in error, and the persisted common imports are exactly what
    [identifyCommonImports] gives for them. *)
Theorem buildAll_persists (st st' : State) :
  buildAll sass path true st = (Normal tt, st') ->
  compilationError (this st') = false ->
  exists files common,
    compiledFiles (this st') = Some files /\
    commonImports (this st') = Some common /\
    identifyCommonImports files = Some common /\
    map filePath files =
      map (path_join path (sassDir (config (this st))))
          (List.filter (fun file => negb (startsWith "_" file))
             (readdirSync (sassDir (config (this st))) (disk (proc (cleaned st))))) /\
    (forall f, In f files -> error f = false).
Proof.
  intros Hrun Hok.
  destruct (compileEach_normal sass path (sassDir (config (this st)))
                (readdirSync (sassDir (config (this st))) (disk (proc (cleaned st))))
                (cleaned st)) as (files & Hfiles & Hmap & Herrors).
  unfold buildAll in Hrun. unfold bind at 1 in Hrun. rewrite buildAll_compile_run in Hrun.
  unfold bind at 1 in Hrun. rewrite compileDir_run in Hrun.
  destruct (compileEach sass path _ _ (cleaned st)) as [c st2]. cbn in Hfiles, Herrors. subst c.
  unfold bind, get in Hrun. cbn in Hrun.
  destruct (compilationError (this st2)) eqn:Eflag.
  { cbn in Hrun. injection Hrun as <-. congruence. }
  destruct (identifyCommonImports files) as [common|] eqn:Ecommon; [|discriminate].
  cbn in Hrun. exists files, common.
  assert (Hpersisted : compiledFiles (this st') = Some files /\
                       commonImports (this st') = Some common).
  { unfold buildAll_write in Hrun. unfold bind at 1 in Hrun.
    destruct (bundle sass files common st2) as [[[]|e] st3]; [|discriminate].
    unfold bind at 1 in Hrun.
    destruct (writeCommon sass path common st3) as [[[]|e] st4]; [|discriminate].
    unfold bind, get in Hrun. cbn in Hrun.
    destruct (compilationError (this st4)) eqn:E4; cbn in Hrun; injection Hrun as <-.
    - congruence.
    - split; reflexivity. }
  destruct Hpersisted as [Hf Hc]. repeat split; try assumption.
  intros f Hf'. destruct (error f) eqn:Ef; [|reflexivity].
  pose proof (Herrors f Hf' Ef) as Hflag. congruence.
Qed.

Lemma samePersisted_refl st : samePersisted st st.
Proof. repeat split. Qed.

Lemma samePersisted_trans st1 st2 st3 :
  samePersisted st1 st2 -> samePersisted st2 st3 -> samePersisted st1 st3.
Proof. intros (a & b & c) (a' & b' & c'). repeat split; congruence. Qed.

Lemma with_proc_samePersisted g : preserves samePersisted (modify (with_proc g)).
Proof. intros st. repeat split. Qed.

Lemma raise_samePersisted : preserves samePersisted (modify (with_this (set_compilationError true))).
Proof. intros st. repeat split. Qed.

Lemma pipePromise_samePersisted read dest : preserves samePersisted (pipePromise read dest).
Proof. intros st. unfold pipePromise. destruct read, dest; repeat split. Qed.

Lemma compileDir_samePersisted dirPath :
  preserves samePersisted (compileDir sass path dirPath).
Proof.
  intros st. rewrite compileDir_run.
  destruct (compileEach_compiledOnly sass path dirPath
              (readdirSync dirPath (disk (proc st))) st) as (a & b & c & _).
  repeat split; assumption.
Qed.

Lemma bundle_samePersisted files common : preserves samePersisted (bundle sass files common).
Proof.
  unfold bundle. apply (preserves_forEach _ samePersisted_refl samePersisted_trans).
  intros file st. destruct (bundleSingle_sameInstance sass file common st) as (Hthis & _).
  unfold samePersisted. rewrite Hthis. repeat split.
Qed.

Lemma writeCommonEach_samePersisted out common :
  preserves samePersisted (writeCommonEach sass out common).
Proof.
  induction common as [|commonImport rest IH]; cbn.
  - apply preserves_ret, samePersisted_refl.
  - unfold console_error.
    keeps samePersisted_refl samePersisted_trans
      ltac:(first [ exact IH | apply with_proc_samePersisted | apply raise_samePersisted
                  | apply pipePromise_samePersisted ]).
Qed.

(** X19. A build that does not persist ([buildAll()], as the [build] command
    runs it) leaves the persisted files, the persisted common imports and the
    configuration of the instance as they were, however it ends. *)
Theorem buildAll_false_keeps_persisted (st : State) :
  samePersisted st (snd (buildAll sass path false st)).
Proof.
  revert st. change (preserves samePersisted (buildAll sass path false)).
  unfold buildAll, buildAll_compile, buildAll_write, cleanDist, writeCommon,
    createWriteStream, console_log. cbn [when].
  keeps samePersisted_refl samePersisted_trans
    ltac:(first [ apply compileDir_samePersisted | apply bundle_samePersisted
                | apply writeCommonEach_samePersisted | apply with_proc_samePersisted ]).
Qed.

(** ** Errors and recovery *)

(** X20. When the compilation of a changed or added entry fails, the handler
    prints the message of the compiler, sets the error flag and the one-shot
    flag and returns: the persisted files, the old compilation among them,
    and the common imports are kept, and the disk is not touched. *)
Theorem handlers_compile_failure (filePath0 : string) (st : State)
    (commonImports0 : list string) (compiledFiles0 : list CompiledFile) urls msg :
  commonImports (this st) = Some commonImports0 ->
  compiledFiles (this st) = Some compiledFiles0 ->
  startsWith "_" (path_basename path filePath0) = false ->
  renderWithImporter sass (disk (proc st)) filePath0 = (urls, SassError msg) ->
  onFileChange sass path filePath0 st = (Normal tt, failedWith "File changed!" msg st) /\
  onFileAdd sass path filePath0 st = (Normal tt, failedWith "File added!" msg st).
Proof.
  intros Hci Hfiles Hentry Hfail. split.
  - unfold onFileChange. run. rewrite Hci, Hfiles, Hentry.
    rewrite (compileSingle_failed sass path filePath0 _ urls msg) by exact Hfail.
    reflexivity.
  - unfold onFileAdd. run. rewrite Hci, Hfiles, Hentry.
    rewrite (compileSingle_failed sass path filePath0 _ urls msg) by exact Hfail.
    reflexivity.
Qed.

(** X21. Recovery. While the error flag and the one-shot flag are set, the
    [change], [add] and [unlink] listeners do nothing; the first generic event
    only clears the one-shot flag, and the second one clears the error flag
    and runs a persisting full build. *)
Theorem error_recovery (filePath0 : string) (st : State) :
  compilationError (this st) = true ->
  errorDetectedThisCycle (proc st) = true ->
  on_change sass path filePath0 st = (Normal tt, st) /\
  on_add sass path filePath0 st = (Normal tt, st) /\
  on_unlink sass path filePath0 st = (Normal tt, st) /\
  on_all sass path st = (Normal tt, with_proc (set_errorDetectedThisCycle false) st) /\
  (on_all sass path ;;; on_all sass path) st =
    buildAll sass path true
      (with_this (set_compilationError false)
         (with_proc (set_errorDetectedThisCycle false) st)).
Proof.
  intros Herr Hflag.
  unfold on_change, on_add, on_unlink, on_all. run. rewrite Herr, Hflag. cbn.
  rewrite Herr. repeat split; reflexivity.
Qed.

(** X22. Before a build has been persisted (either field is [null]) each of
    the three handlers prints its line and a warning and does nothing else;
    the warning of [onFileRemove] names the [add] event. *)
Theorem handlers_before_persisted (filePath0 : string) (st : State) :
  commonImports (this st) = None \/ compiledFiles (this st) = None ->
  onFileChange sass path filePath0 st =
    (Normal tt, warned "File changed!" (msgNotPersisted "change") st) /\
  onFileAdd sass path filePath0 st =
    (Normal tt, warned "File added!" (msgNotPersisted "add") st) /\
  onFileRemove sass path filePath0 st =
    (Normal tt, warned "File removed!" (msgNotPersisted "add") st).
Proof.
  intros Hnull. unfold onFileChange, onFileAdd, onFileRemove. run.
  destruct (commonImports (this st)) as [c|], (compiledFiles (this st)) as [f|];
    try (repeat split; reflexivity).
  destruct Hnull; discriminate.
Qed.

(** ** Removal of an entry *)

(** X23. [onFileRemove] for an entry throws before it changes anything, but
    for the line it prints, when no compilation of that path is persisted
    (TypeError), when the compilation found has no write stream (TypeError),
    or when its output file is not on the disk (the error of [unlinkSync]). *)
Theorem onFileRemove_throws_early (filePath0 : string) (st : State)
    (commonImports0 : list string) (compiledFiles0 : list CompiledFile) :
  commonImports (this st) = Some commonImports0 ->
  compiledFiles (this st) = Some compiledFiles0 ->
  startsWith "_" (path_basename path filePath0) = false ->
  findIndex filePath0 compiledFiles0 = None \/
  (exists i f, findIndex filePath0 compiledFiles0 = Some i /\
     compiledFiles0 !! i = Some f /\
     (writeStream f = None \/
      exists cssPath, writeStream f = Some cssPath /\ disk (proc st) !! cssPath = None)) ->
  exists e,
    onFileRemove sass path filePath0 st =
      (Throw e, with_proc (print (ConsoleLog "File removed!")) st).
Proof.
  intros Hci Hfiles Hentry Hcase.
  unfold onFileRemove. run. rewrite Hci, Hfiles, Hentry.
  destruct Hcase as [Hnone|(i & f & Hidx & Hlook & Hstream)].
  - rewrite Hnone. eexists. reflexivity.
  - rewrite Hidx, Hlook. destruct Hstream as [Hnull|(cssPath & Hcss & Hmissing)].
    + rewrite Hnull. eexists. reflexivity.
    + rewrite Hcss. unfold unlinkSync. run. rewrite Hmissing. eexists. reflexivity.
Qed.

(** X24. [onFileRemove] for an entry whose compilation is persisted and whose
    output file exists: the output file is deleted and the compilation is
    spliced out of the persisted files. If that was the last one the handler
    then throws a TypeError. Otherwise, if the common imports of the files
    left are a rearrangement of the persisted ones the handler prints a line
    and returns, and if not it starts a full build that it does not await. *)
Theorem onFileRemove_entry (filePath0 : string) (st : State)
    (commonImports0 : list string) (compiledFiles0 : list CompiledFile)
    (i : nat) (f : CompiledFile) (cssPath text : string) :
  commonImports (this st) = Some commonImports0 ->
  compiledFiles (this st) = Some compiledFiles0 ->
  startsWith "_" (path_basename path filePath0) = false ->
  findIndex filePath0 compiledFiles0 = Some i ->
  compiledFiles0 !! i = Some f ->
  writeStream f = Some cssPath ->
  disk (proc st) !! cssPath = Some text ->
  let compiledFiles1 := delete i compiledFiles0 in
  let st1 := removedEntry cssPath compiledFiles1 st in
  let result := onFileRemove sass path filePath0 st in
  (compiledFiles1 = [] -> result = (Throw "TypeError", st1)) /\
  (forall newCommonImports,
     identifyCommonImports compiledFiles1 = Some newCommonImports ->
     (Permutation newCommonImports commonImports0 ->
      result = (Normal tt,
                with_proc (print (ConsoleLog "Removed file processed (_ms)")) st1)) /\
     (~ Permutation newCommonImports commonImports0 ->
      result = buildAll_notAwaited sass path true st1)).
Proof.
  intros Hci Hfiles Hentry Hidx Hlook Hcss Hdisk compiledFiles1 st1 result.
  assert (Hrun : result =
    match identifyCommonImports compiledFiles1 with
    | None => (Throw "TypeError", st1)
    | Some newCommonImports =>
        if negb (equalsIgnoreOrder newCommonImports commonImports0)
        then buildAll_notAwaited sass path true st1
        else (Normal tt, with_proc (print (ConsoleLog "Removed file processed (_ms)")) st1)
    end).
  { unfold result, onFileRemove. run. rewrite Hci, Hfiles, Hentry, Hidx, Hlook, Hcss.
    unfold unlinkSync. run. rewrite Hdisk. run. fold compiledFiles1.
    destruct (identifyCommonImports compiledFiles1) as [nc|]; [|reflexivity].
    destruct (equalsIgnoreOrder nc commonImports0); reflexivity. }
  split.
  - intros Hempty. rewrite Hrun, Hempty. reflexivity.
  - intros nc Hnc. rewrite Hrun, Hnc. split; intros Hp.
    + apply equalsIgnoreOrder_Permutation in Hp. now rewrite Hp.
    + destruct (equalsIgnoreOrder nc commonImports0) eqn:E; [|reflexivity].
      apply equalsIgnoreOrder_Permutation in E. contradiction.
Qed.

(** ** Partials *)

(** X26. A partial that no compiled file imports is inert: its [add] (of any
    partial, imported or not), its [change] and its removal make the handler
    print its two lines and do nothing else. *)
Theorem unused_partial_inert (filePath0 : string) (st : State)
    (commonImports0 : list string) (compiledFiles0 : list CompiledFile) :
  commonImports (this st) = Some commonImports0 ->
  compiledFiles (this st) = Some compiledFiles0 ->
  startsWith "_" (path_basename path filePath0) = true ->
  onFileAdd sass path filePath0 st =
    (Normal tt, logged "File added!" "Added file was a partial. No action taken." st) /\
  (includes filePath0 commonImports0 = false ->
   (forall f, In f compiledFiles0 -> ~ In filePath0 (imports f)) ->
   onFileChange sass path filePath0 st =
     (Normal tt,
      logged "File changed!"
        "Modified file was an in use non-shared partial. Affected files rebuilt (_ms)" st)) /\
  ((forall f, In f compiledFiles0 -> ~ In (path_resolve path filePath0) (imports f)) ->
   onFileRemove sass path filePath0 st =
     (Normal tt,
      logged "File removed!" "Removed file was an unused partial. No action taken." st)).
Proof.
  intros Hci Hfiles Hpartial. split; [|split].
  - unfold onFileAdd. run. rewrite Hci, Hfiles, Hpartial. reflexivity.
  - intros Hshared Hnone. unfold onFileChange. run. rewrite Hci, Hfiles, Hpartial, Hshared.
    assert (Hempty : List.filter (fun f => includes filePath0 (imports f)) compiledFiles0 = []).
    { clear Hfiles. induction compiledFiles0 as [|f files IH]; [reflexivity|]. cbn.
      rewrite (proj2 (includes_false _ _) (Hnone f (or_introl eq_refl))).
      apply IH. intros g Hg. apply Hnone. now right. }
    rewrite Hempty. reflexivity.
  - intros Hnone. unfold onFileRemove. run. rewrite Hci, Hfiles, Hpartial.
    assert (Hunused : includes (path_resolve path filePath0)
                        (flat_map imports compiledFiles0) = false).
    { apply includes_false. intros Hin. apply in_flat_map in Hin as (f & Hf & Hi).
      exact (Hnone f Hf Hi). }
    rewrite Hunused. reflexivity.
Qed.

(** ** The persisted common imports *)

Lemma empty_length {A} (l : list A) : Nat.ltb 0 (length l) = false -> l = [].
Proof. destruct l; [reflexivity | discriminate]. Qed.

Lemma common_after_push (files : list CompiledFile) (newFile : CompiledFile)
    (common common' : list string) :
  identifyCommonImports files = Some common ->
  identifyCommonImports (files ++ [newFile]) = Some common' ->
  incl common (imports newFile) -> sameMembers common' common.
Proof.
  intros Hc Hc' Hall i.
  rewrite (identifyCommonImports_In _ _ Hc), (identifyCommonImports_In _ _ Hc').
  split.
  - intros H f Hf. apply H, in_or_app. now left.
  - intros H f Hf. apply in_app_or in Hf as [Hf|[<-|[]]]; [now apply H|].
    apply Hall, (identifyCommonImports_In _ _ Hc), H.
Qed.

Lemma common_after_replace (files : list CompiledFile) (idx : nat)
    (oldFile newFile : CompiledFile) (common common' : list string) :
  files !! idx = Some oldFile ->
  incl (imports newFile) (imports oldFile) ->
  (forall i, In i common -> In i (imports newFile)) ->
  identifyCommonImports files = Some common ->
  identifyCommonImports (<[idx := newFile]> files) = Some common' ->
  sameMembers common' common.
Proof.
  intros Hold Hsub Hkept Hc Hc' i.
  rewrite (identifyCommonImports_In _ _ Hc), (identifyCommonImports_In _ _ Hc').
  split.
  - intros Hall f Hf. destruct (In_insert_keep files idx oldFile newFile f Hold Hf) as [->|Hf'].
    + apply Hsub, Hall. eapply In_insert_new, Hold.
    + now apply Hall.
  - intros Hall f Hf. destruct (In_insert_inv files idx newFile f Hf) as [->|Hf'].
    + apply Hkept. apply (identifyCommonImports_In _ _ Hc). exact Hall.
    + now apply Hall.
Qed.

(** X27. [onFileAdd] keeps the persisted common imports right: for an entry
    that compiles, on an instance whose common imports have the members of
    the common imports of its files, either the handler is a full build or
    the same holds of the instance it leaves, whose files are the ones of
    before followed by the new file and whose common imports are the ones of
    before. *)
Theorem onFileAdd_keeps_common (filePath0 : string) (st : State) urls css
    (commonImports0 : list string) (compiledFiles0 : list CompiledFile) :
  compilationError (this st) = false ->
  commonInvariant (this st) ->
  commonImports (this st) = Some commonImports0 ->
  compiledFiles (this st) = Some compiledFiles0 ->
  startsWith "_" (path_basename path filePath0) = false ->
  renderWithImporter sass (disk (proc st)) filePath0 = (urls, SassOk css) ->
  let newFile := compiledOk path (config (this st)) filePath0 urls css in
  let st' := snd (onFileAdd sass path filePath0 st) in
  onFileAdd sass path filePath0 st =
    buildAll sass path true (added path st filePath0 compiledFiles0 newFile) \/
  (commonInvariant (this st') /\
   compiledFiles (this st') = Some (compiledFiles0 ++ [newFile])%list /\
   commonImports (this st') = Some commonImports0).
Proof.
  intros Herr (commonImports' & compiledFiles' & common & Hci' & Hfiles' & Hcommon & Hsame)
    Hci Hfiles Hentry Hok newFile st'.
  assert (commonImports' = commonImports0) by congruence.
  assert (compiledFiles' = compiledFiles0) by congruence.
  subst commonImports' compiledFiles'. clear Hci' Hfiles'. unfold st'.
  set (st1 := added path st filePath0 compiledFiles0 newFile).
  assert (Hrun : onFileAdd sass path filePath0 st =
    (if Nat.ltb 0 (length (List.filter (fun i => negb (includes i (imports newFile))) commonImports0))
     then buildAll sass path true
     else bundleSingle sass newFile commonImports0 ;;; console_log "File bundled (_ms)") st1).
  { unfold onFileAdd. run. rewrite Hci, Hfiles, Hentry.
    rewrite (compileSingle_ok sass path filePath0 _ urls css) by exact Hok.
    run. rewrite Herr. run. reflexivity. }
  destruct (Nat.ltb 0 _) eqn:E.
  - left. exact Hrun.
  - right. apply missing_none in E. rewrite Hrun, bundleIt_commonImports.
    assert (Hne : (compiledFiles0 ++ [newFile])%list <> []).
    { intros H. now apply app_eq_nil in H as [_ H]. }
    destruct (identifyCommonImports_defined _ Hne) as [common' Hcommon'].
    split; [|split; [reflexivity | cbn; exact Hci]].
    exists commonImports0, (compiledFiles0 ++ [newFile])%list, common'.
    split; [cbn; exact Hci|]. split; [reflexivity|]. split; [exact Hcommon'|].
    intros i. rewrite (Hsame i). symmetry.
    apply (common_after_push compiledFiles0 newFile common common' Hcommon Hcommon').
    intros j Hj. apply E, Hsame, Hj.
Qed.

(** X28. [onFileChange] keeps the persisted common imports right: for an
    entry that compiles and was compiled before, on an instance whose common
    imports have the members of the common imports of its files, either the
    handler is a full build or the same holds of the instance it leaves. *)
Theorem onFileChange_keeps_common (filePath0 : string) (st : State) urls css
    (compiledFiles0 : list CompiledFile) (oldFile : CompiledFile) :
  compilationError (this st) = false ->
  commonInvariant (this st) ->
  compiledFiles (this st) = Some compiledFiles0 ->
  startsWith "_" (path_basename path filePath0) = false ->
  renderWithImporter sass (disk (proc st)) filePath0 = (urls, SassOk css) ->
  List.find (fun f => String.eqb (filePath f) filePath0) compiledFiles0 = Some oldFile ->
  (exists st1, onFileChange sass path filePath0 st = buildAll sass path true st1) \/
  commonInvariant (this (snd (onFileChange sass path filePath0 st))).
Proof.
  intros Herr (commonImports0 & files & common & Hci & Hfiles' & Hcommon & Hsame)
    Hfiles Hentry Hok Hfind.
  assert (files = compiledFiles0) by congruence. subst files. clear Hfiles'.
  destruct (find_findIndex _ _ _ Hfind) as [oldFileIndex [Hidx Hlook]].
  set (newFile := compiledOk path (config (this st)) filePath0 urls css).
  set (compiledFiles1 := <[oldFileIndex := newFile]> compiledFiles0).
  assert (Hne : compiledFiles1 <> []).
  { intros E. apply (f_equal (@length _)) in E. unfold compiledFiles1 in E.
    rewrite length_insert in E. apply lookup_lt_Some in Hlook. cbn in E. lia. }
  destruct (identifyCommonImports_defined _ Hne) as [common' Hcommon'].
  pose proof (onFileChange_run sass path filePath0 st commonImports0 compiledFiles0 urls css
                oldFile oldFileIndex Herr Hci Hfiles Hentry Hok Hfind Hidx) as Hrun.
  cbn zeta in Hrun. fold newFile compiledFiles1 in Hrun. rewrite Hcommon' in Hrun.
  set (st1 := changed path st filePath0 compiledFiles1) in *.
  assert (Hold : forall i, In i commonImports0 -> In i (imports oldFile)).
  { intros i Hi. apply Hsame in Hi.
    apply (identifyCommonImports_In _ _ Hcommon); [exact Hi|].
    apply list_elem_of_In. eapply list_elem_of_lookup_2, Hlook. }
  assert (Hbundled :
    incl (imports newFile) (imports oldFile) ->
    (forall i, In i commonImports0 -> In i (imports newFile)) ->
    commonInvariant (this (snd
      ((bundleSingle sass newFile commonImports0 ;;; console_log "File bundled (_ms)") st1)))).
  { intros Hsub Hkept. rewrite bundleIt_commonImports.
    exists commonImports0, compiledFiles1, common'.
    split; [cbn; exact Hci|]. split; [reflexivity|]. split; [exact Hcommon'|].
    intros i. rewrite (Hsame i). symmetry.
    apply (common_after_replace compiledFiles0 oldFileIndex oldFile newFile common common'
             Hlook Hsub); [|exact Hcommon | exact Hcommon'].
    intros j Hj. apply Hkept, Hsame, Hj. }
  destruct (equalsIgnoreOrder (imports newFile) (imports oldFile)) eqn:Esame.
  { right. rewrite Hrun. apply equalsIgnoreOrder_Permutation in Esame.
    apply Hbundled.
    - intros i. apply Permutation_in, Esame.
    - intros i Hi. apply Permutation_in with (l := imports oldFile);
        [symmetry; exact Esame | apply Hold, Hi]. }
  destruct (Nat.ltb 0 (length (List.filter (fun i => includes i commonImports0) _))) eqn:Eremoved.
  { left. exists st1. exact Hrun. }
  apply empty_length in Eremoved.
  assert (Hkept : forall i, In i commonImports0 -> In i (imports newFile)).
  { intros i Hi. destruct (includes i (imports newFile)) eqn:E; [now apply includes_In|].
    exfalso. apply includes_false in E.
    assert (Hin : In i (List.filter (fun i => includes i commonImports0)
              (List.filter (fun i => negb (includes i (imports newFile))) (imports oldFile)))).
    { apply filter_In. split; [|now apply includes_In].
      apply filter_not_included. split; [apply Hold, Hi | exact E]. }
    rewrite Eremoved in Hin. exact Hin. }
  destruct (Nat.ltb 0 (length (List.filter _ (imports newFile)))) eqn:Eadded.
  - destruct (equalsIgnoreOrder common' commonImports0) eqn:Ecommon.
    + right. rewrite Hrun. cbn [negb]. rewrite bundleIt_commonImports.
      exists commonImports0, compiledFiles1, common'.
      split; [cbn; exact Hci|]. split; [reflexivity|]. split; [exact Hcommon'|].
      intros i. symmetry.
      apply Permutation_sameMembers, equalsIgnoreOrder_Permutation, Ecommon.
    + left. exists st1. exact Hrun.
  - right. rewrite Hrun. apply Hbundled; [|exact Hkept].
    apply empty_length in Eadded. intros i Hi.
    destruct (includes i (imports oldFile)) eqn:E; [now apply includes_In|].
    exfalso. apply includes_false in E.
    assert (Hin : In i (List.filter (fun i => negb (includes i (imports oldFile)))
                          (imports newFile))).
    { apply filter_not_included. split; assumption. }
    rewrite Eadded in Hin. exact Hin.
Qed.

(** ** Builds left in flight *)

Lemma buildAll_compile_detached : preserves sameDetached (buildAll_compile sass path).
Proof.
  unfold buildAll_compile, cleanDist, console_log.
  keeps sameDetached_refl sameDetached_trans
    ltac:(first [ apply compileDir_detached | apply with_proc_detached
                | apply with_this_detached ]).
Qed.

Lemma buildAll_notAwaited_detached (persist : bool) (st : State) :
  detached (snd (buildAll_notAwaited sass path persist st)) = detached st \/
  exists files common,
    detached (snd (buildAll_notAwaited sass path persist st))
      = (detached st ++ [PendingBuild files common persist])%list.
Proof.
  unfold buildAll_notAwaited.
  pose proof (buildAll_compile_detached st) as Hsame. unfold sameDetached in Hsame.
  destruct (buildAll_compile sass path st) as [[[[files common]|]|e] st1]; cbn in *.
  - right. exists files, common. now rewrite Hsame.
  - now left.
  - now left.
Qed.

(** X29. The [change] and [add] listeners and the generic listener never
    leave a build in flight: whatever they do, they await it. The [unlink]
    listener leaves at most one in flight, a persisting build, and none when
    the removed file is a partial. *)
Theorem listeners_in_flight (filePath0 : string) (st : State) :
  detached (snd (on_change sass path filePath0 st)) = detached st /\
  detached (snd (on_add sass path filePath0 st)) = detached st /\
  detached (snd (on_all sass path st)) = detached st /\
  (detached (snd (on_unlink sass path filePath0 st)) = detached st \/
   exists files common,
     detached (snd (on_unlink sass path filePath0 st))
       = (detached st ++ [PendingBuild files common true])%list) /\
  (startsWith "_" (path_basename path filePath0) = true ->
   detached (snd (on_unlink sass path filePath0 st)) = detached st).
Proof.
  destruct (awaited_listeners_detached sass path filePath0) as (Hchange & Hadd & Hall).
  split; [apply Hchange|]. split; [apply Hadd|]. split; [apply Hall|].
  unfold on_unlink, onFileRemove. run.
  destruct (compilationError (this st)); [split; [now left | reflexivity]|].
  cbn. destruct (commonImports (this st)) as [commonImports0|];
    [|split; [now left | reflexivity]].
  destruct (compiledFiles (this st)) as [compiledFiles0|];
    [|split; [now left | reflexivity]].
  destruct (startsWith "_" (path_basename path filePath0)).
  - assert (H : detached (snd
      ((if includes (path_resolve path filePath0) (flat_map imports compiledFiles0)
        then if includes (path_resolve path filePath0) commonImports0
             then modify (with_this (set_commonImports
                            (Some (spliceFirst (path_resolve path filePath0) commonImports0)))) ;;;
                  console_error
                    "Error: Removed file was an in use shared partial. Unable to recompile." ;;;
                  modify (with_this (set_compilationError true)) ;;;
                  modify (with_proc (set_errorDetectedThisCycle true))
             else modify (with_this (set_compilationError true)) ;;;
                  modify (with_proc (set_errorDetectedThisCycle true)) ;;;
                  console_error (msgRemovedPartial
                    (List.filter (fun f => includes (path_resolve path filePath0) (imports f))
                       compiledFiles0))
        else console_log "Removed file was an unused partial. No action taken.")
       (with_proc (print (ConsoleLog "File removed!")) st))) = detached st).
    { destruct (includes _ (flat_map _ _)); [|reflexivity].
      destruct (includes _ commonImports0); reflexivity. }
    split; [left; exact H | intros _; exact H].
  - split; [|discriminate].
    destruct (findIndex filePath0 compiledFiles0) as [i|]; [|now left].
    destruct (compiledFiles0 !! i) as [f|]; [|now left].
    destruct (writeStream f) as [cssPath|]; [|now left].
    unfold unlinkSync. run.
    destruct (disk (proc st) !! cssPath); [|now left].
    run. destruct (identifyCommonImports (delete i compiledFiles0)) as [nc|]; [|now left].
    destruct (equalsIgnoreOrder nc commonImports0); cbn [negb]; [now left|].
    exact (buildAll_notAwaited_detached true
             (removedEntry cssPath (delete i compiledFiles0) st)).
Qed.

End Machine.

(** ** What a full build writes, and the [add] of an entry *)

Section Rebuilding.

Variable sass : Sass.
Variable path : PathLib.













End Rebuilding.

(** ** The further properties at work *)

Lemma buildAll_without_entries_witness :
  buildAll Toy.sass Toy.posix true (Toy.start Toy.onlyPartials)
    = (Throw "TypeError", cleaned (Toy.start Toy.onlyPartials)).
Proof.
  apply (buildAll_without_entries Toy.sass Toy.posix true (Toy.start Toy.onlyPartials)
           ltac:(by_eval)).
  intros name Hin. vm_compute in Hin. in_cases Hin. subst name. reflexivity.
Defined.

Lemma buildAll_with_error_pending_witness :
  exists st',
    buildAll Toy.sass Toy.posix true Toy.inError = (Normal tt, st') /\
    compilationError (this st') = true /\
    compiledOnly (cleaned Toy.inError) st'.
Proof.
  exact (buildAll_with_error_pending Toy.sass Toy.posix true Toy.inError ltac:(by_eval)).
Defined.

Lemma buildAll_persists_witness :
  exists files common,
    compiledFiles (this (snd (buildAll Toy.sass Toy.posix true (Toy.start Toy.readme))))
      = Some files /\
    commonImports (this (snd (buildAll Toy.sass Toy.posix true (Toy.start Toy.readme))))
      = Some common /\
    identifyCommonImports files = Some common.
Proof.
  destruct (buildAll_persists Toy.sass Toy.posix (Toy.start Toy.readme)
              (snd (buildAll Toy.sass Toy.posix true (Toy.start Toy.readme)))
              ltac:(by_eval) ltac:(by_eval))
    as (files & common & Hfiles & Hcommon & Hidentify & _).
  exists files, common. split; [exact Hfiles|]. split; [exact Hcommon | exact Hidentify].
Defined.

Lemma handlers_compile_failure_witness :
  onFileChange Toy.sass Toy.posix "/src/b.scss" Toy.brokenB
    = (Normal tt, failedWith "File changed!" "unmatched brace" Toy.brokenB).
Proof.
  apply (handlers_compile_failure Toy.sass Toy.posix "/src/b.scss" Toy.brokenB
           ["/src/_p.scss"]
           [mkCompiledFile ["/src/_p.scss"] "/src/a.scss"
              (Some "#a{color:red}") (Some "/out/a.css") false;
            mkCompiledFile ["/src/_p.scss"] "/src/b.scss"
              (Some "#b{color:green}") (Some "/out/b.css") false]
           [] "unmatched brace"
           ltac:(by_eval) ltac:(by_eval) ltac:(by_eval) ltac:(by_eval)).
Defined.

Lemma error_recovery_witness :
  on_all Toy.sass Toy.posix Toy.inError
    = (Normal tt, with_proc (set_errorDetectedThisCycle false) Toy.inError).
Proof.
  apply (error_recovery Toy.sass Toy.posix "/src/b.scss" Toy.inError
           ltac:(by_eval) ltac:(by_eval)).
Defined.

Lemma handlers_before_persisted_witness :
  onFileAdd Toy.sass Toy.posix "/src/a.scss" (Toy.start Toy.readme)
    = (Normal tt, warned "File added!" (msgNotPersisted "add") (Toy.start Toy.readme)).
Proof.
  apply (handlers_before_persisted Toy.sass Toy.posix "/src/a.scss" (Toy.start Toy.readme)
           (or_introl eq_refl)).
Defined.

Lemma onFileRemove_throws_early_witness :
  exists e,
    onFileRemove Toy.sass Toy.posix "/src/c.scss" (Toy.watching Toy.readme)
      = (Throw e, with_proc (print (ConsoleLog "File removed!")) (Toy.watching Toy.readme)).
Proof.
  apply (onFileRemove_throws_early Toy.sass Toy.posix "/src/c.scss" (Toy.watching Toy.readme)
           ["/src/_p.scss"]
           [mkCompiledFile ["/src/_p.scss"] "/src/a.scss"
              (Some "#a{color:red}") (Some "/out/a.css") false;
            mkCompiledFile ["/src/_p.scss"] "/src/b.scss"
              (Some "#b{color:green}") (Some "/out/b.css") false]
           ltac:(by_eval) ltac:(by_eval) ltac:(by_eval)).
  left. reflexivity.
Defined.

Lemma onFileRemove_entry_witness :
  onFileRemove Toy.sass Toy.posix "/src/b.scss" Toy.bRemoved
    = (Normal tt,
       with_proc (print (ConsoleLog "Removed file processed (_ms)"))
         (removedEntry "/out/b.css"
            (delete 1
               [mkCompiledFile ["/src/_p.scss"] "/src/a.scss"
                  (Some "#a{color:red}") (Some "/out/a.css") false;
                mkCompiledFile ["/src/_p.scss"] "/src/b.scss"
                  (Some "#b{color:green}") (Some "/out/b.css") false])
            Toy.bRemoved)).
Proof.
  pose proof (onFileRemove_entry Toy.sass Toy.posix "/src/b.scss" Toy.bRemoved
                ["/src/_p.scss"]
                [mkCompiledFile ["/src/_p.scss"] "/src/a.scss"
                   (Some "#a{color:red}") (Some "/out/a.css") false;
                 mkCompiledFile ["/src/_p.scss"] "/src/b.scss"
                   (Some "#b{color:green}") (Some "/out/b.css") false]
                1
                (mkCompiledFile ["/src/_p.scss"] "/src/b.scss"
                   (Some "#b{color:green}") (Some "/out/b.css") false)
                "/out/b.css" "#b{color:green}"
                ltac:(by_eval) ltac:(by_eval) ltac:(by_eval) ltac:(by_eval) eq_refl eq_refl
                ltac:(by_eval)) as H.
  cbn zeta in H. destruct H as [_ H].
  destruct (H ["/src/_p.scss"] eq_refl) as [Hsame _].
  apply Hsame. apply Permutation_refl.
Defined.

Lemma unused_partial_inert_witness :
  onFileRemove Toy.sass Toy.posix "/src/_q.scss" (Toy.watching Toy.withQ)
    = (Normal tt,
       logged "File removed!" "Removed file was an unused partial. No action taken."
         (Toy.watching Toy.withQ)).
Proof.
  destruct (unused_partial_inert Toy.sass Toy.posix "/src/_q.scss" (Toy.watching Toy.withQ)
              ["/src/_p.scss"]
              [mkCompiledFile ["/src/_p.scss"] "/src/a.scss"
                 (Some "#a{color:red}") (Some "/out/a.css") false;
               mkCompiledFile ["/src/_p.scss"] "/src/b.scss"
                 (Some "#b{color:green}") (Some "/out/b.css") false]
              ltac:(by_eval) ltac:(by_eval) ltac:(by_eval)) as (_ & _ & Hremove).
  apply Hremove. intros f Hin Himp.
  in_cases Hin; subst f; cbn in Himp; in_cases Himp; discriminate Himp.
Defined.

Lemma readme_commonInvariant (st : State) :
  commonImports (this st) = Some ["/src/_p.scss"] ->
  compiledFiles (this st) =
    Some [mkCompiledFile ["/src/_p.scss"] "/src/a.scss"
            (Some "#a{color:red}") (Some "/out/a.css") false;
          mkCompiledFile ["/src/_p.scss"] "/src/b.scss"
            (Some "#b{color:green}") (Some "/out/b.css") false] ->
  commonInvariant (this st).
Proof.
  intros Hci Hfiles. eexists _, _, ["/src/_p.scss"].
  split; [exact Hci|]. split; [exact Hfiles|]. split; [reflexivity|]. intros i. reflexivity.
Defined.

Lemma onFileAdd_keeps_common_witness :
  compiledFiles (this (snd (onFileAdd Toy.sass Toy.posix "/src/c.scss" Toy.pageUsingP)))
    = Some [mkCompiledFile ["/src/_p.scss"] "/src/a.scss"
              (Some "#a{color:red}") (Some "/out/a.css") false;
            mkCompiledFile ["/src/_p.scss"] "/src/b.scss"
              (Some "#b{color:green}") (Some "/out/b.css") false;
            compiledOk Toy.posix (config (this Toy.pageUsingP)) "/src/c.scss"
              ["!bundler/_p.scss"] "#c{color:blue}"] /\
  commonInvariant (this (snd (onFileAdd Toy.sass Toy.posix "/src/c.scss" Toy.pageUsingP))).
Proof.
  pose proof (onFileAdd_keeps_common Toy.sass Toy.posix "/src/c.scss" Toy.pageUsingP
                ["!bundler/_p.scss"] "#c{color:blue}" ["/src/_p.scss"]
                [mkCompiledFile ["/src/_p.scss"] "/src/a.scss"
                   (Some "#a{color:red}") (Some "/out/a.css") false;
                 mkCompiledFile ["/src/_p.scss"] "/src/b.scss"
                   (Some "#b{color:green}") (Some "/out/b.css") false]
                ltac:(by_eval)
                (readme_commonInvariant Toy.pageUsingP ltac:(by_eval) ltac:(by_eval))
                ltac:(by_eval) ltac:(by_eval) ltac:(by_eval) ltac:(by_eval)) as H.
  cbn zeta in H. destruct H as [Hfull|(Hinv & Hfiles & _)].
  - exfalso.
    assert (Hlog : length (console (proc (snd
              (onFileAdd Toy.sass Toy.posix "/src/c.scss" Toy.pageUsingP)))) = 7)
      by by_eval.
    rewrite Hfull in Hlog. vm_compute in Hlog. discriminate Hlog.
  - split; [exact Hfiles | exact Hinv].
Defined.

Lemma onFileChange_keeps_common_witness :
  (exists st1, onFileChange Toy.sass Toy.posix "/src/a.scss" Toy.withQEdited
                 = buildAll Toy.sass Toy.posix true st1) \/
  commonInvariant (this (snd (onFileChange Toy.sass Toy.posix "/src/a.scss" Toy.withQEdited))).
Proof.
  apply (onFileChange_keeps_common Toy.sass Toy.posix "/src/a.scss" Toy.withQEdited
           ["!bundler/_p.scss"; "!bundler/_q.scss"] "#a{color:red}"
           [mkCompiledFile ["/src/_p.scss"] "/src/a.scss"
              (Some "#a{color:red}") (Some "/out/a.css") false;
            mkCompiledFile ["/src/_p.scss"] "/src/b.scss"
              (Some "#b{color:green}") (Some "/out/b.css") false]
           (mkCompiledFile ["/src/_p.scss"] "/src/a.scss"
              (Some "#a{color:red}") (Some "/out/a.css") false)
           ltac:(by_eval)
           (readme_commonInvariant Toy.withQEdited ltac:(by_eval) ltac:(by_eval))
           ltac:(by_eval) ltac:(by_eval) ltac:(by_eval) ltac:(by_eval)).
Defined.




